(** * Recurring-Date-picker: the recurrence-rule evaluator

    A shallow embedding of the two occurrence generators of the repository,
    [generateOccurrences] / [getNthWeekdayInMonth] (the hook
    [useRecurrencePicker]) and [calculateRecurringDates] (App.js), together
    with the part of the JavaScript [Date] object and of date-fns they call.

    Dates.  A JavaScript [Date] holds a time value: milliseconds since the
    epoch.  The local time zone is taken to be a fixed-offset zone with
    offset 0 (the spec treats dates as zone-less), so local time and time
    value coincide.  The day arithmetic follows ECMA-262, "Date Objects"
    ([Day], [DayFromYear], [YearFromTime], [MonthFromTime], [DateFromTime],
    [WeekDay], [MakeDay], [MakeDate], [TimeClip]).

    The source is embedded in two layers.  The modules [JS], [DateFns],
    [Picker] and [App] are the code as arithmetic on time values, which are
    unbounded integers there: a [Date] of those modules is a valid date.
    The module [Clip] is the hook once more over [Date] objects with the
    range of the language: a time value further than 8.64e15 ms from the
    epoch is clipped to NaN, the date is Invalid Date, its getters give NaN,
    every comparison with it is false and a weekday scan from it never
    ends.  Whenever [Clip] returns valid dates it returns what the first
    layer returns ([Clip_returns_sound]); the statements whose truth
    depends on the range are made on [Clip].

    Years 0..99 given to the [Date] constructor are read as 1900..1999, as
    the language has it ([MakeFullYear]).

    [App] stays on time values: given an end date and an interval of at
    least 1 the loop of App.js stops at the first cursor after the end
    date, and an Invalid Date there ends the loop as a later date does.

    Loops.  Every [while] of the source is a fuel-indexed [Fixpoint] that
    returns [None] when the fuel runs out; "the call returns [l]" is
    [returns] (for App.js, [calculates]), which asks for [Some l] at every
    large enough fuel.

    Types.  [DayOfWeek] and [MonthWeek] are the unions of the source, as
    inductive types; [interval], [monthDay] and [count] are integers; the
    optional fields of [RecurrenceRule] are options. *)

From Stdlib Require Import ZArith List Bool Lia Sorting.Sorted.
Import ListNotations.

Local Open Scope Z_scope.

(* ================================================================= *)
(** ** ECMA-262 day arithmetic *)
(* ================================================================= *)

Module JS.

Definition Date := Z.

Definition msPerDay : Z := 86400000.

Definition Day (t : Date) : Z := t / msPerDay.
Definition TimeWithinDay (t : Date) : Z := t mod msPerDay.

Definition MakeDate (day time : Z) : Date := day * msPerDay + time.

Definition InLeapYear (y : Z) : bool :=
  if negb (y mod 4 =? 0) then false
  else if negb (y mod 100 =? 0) then true
  else if negb (y mod 400 =? 0) then false
  else true.

Definition leapDays (y : Z) : Z := if InLeapYear y then 1 else 0.

Definition DaysInYear (y : Z) : Z := 365 + leapDays y.

Definition DayFromYear (y : Z) : Z :=
  365 * (y - 1970) + (y - 1969) / 4 - (y - 1901) / 100 + (y - 1601) / 400.

(** [YearFromTime]: the largest [y] with [DayFromYear y <= day].  The
    estimate from the mean year length is off by at most one year. *)
Definition YearFromDay (d : Z) : Z :=
  let y0 := 1970 + (400 * d) / 146097 in
  if DayFromYear (y0 + 1) <=? d then y0 + 1
  else if d <? DayFromYear y0 then y0 - 1
  else y0.

Definition DayWithinYear (d : Z) : Z := d - DayFromYear (YearFromDay d).

(** Day number, within its year, of the first day of month [m]
    (0 = January); [m = 12] gives the length of the year. *)
Definition firstDayOfMonthInYear (leap m : Z) : Z :=
  if m =? 0 then 0
  else if m =? 1 then 31
  else if m =? 2 then 59 + leap
  else if m =? 3 then 90 + leap
  else if m =? 4 then 120 + leap
  else if m =? 5 then 151 + leap
  else if m =? 6 then 181 + leap
  else if m =? 7 then 212 + leap
  else if m =? 8 then 243 + leap
  else if m =? 9 then 273 + leap
  else if m =? 10 then 304 + leap
  else if m =? 11 then 334 + leap
  else 365 + leap.

Definition MonthFromDay (d : Z) : Z :=
  let leap := leapDays (YearFromDay d) in
  let n := DayWithinYear d in
  if n <? 31 then 0
  else if n <? 59 + leap then 1
  else if n <? 90 + leap then 2
  else if n <? 120 + leap then 3
  else if n <? 151 + leap then 4
  else if n <? 181 + leap then 5
  else if n <? 212 + leap then 6
  else if n <? 243 + leap then 7
  else if n <? 273 + leap then 8
  else if n <? 304 + leap then 9
  else if n <? 334 + leap then 10
  else 11.

Definition DateFromDay (d : Z) : Z :=
  DayWithinYear d
  - firstDayOfMonthInYear (leapDays (YearFromDay d)) (MonthFromDay d) + 1.

Definition WeekDay (d : Z) : Z := (d + 4) mod 7.

(** [MakeDay(year, month, date)]: months outside 0..11 carry into the
    year, dates outside the month carry into the neighbouring months. *)
Definition MakeDay (year month date : Z) : Z :=
  let ym := year + month / 12 in
  let mn := month mod 12 in
  DayFromYear ym + firstDayOfMonthInYear (leapDays ym) mn + date - 1.

(** *** The [Date] object *)

Definition getFullYear (t : Date) : Z := YearFromDay (Day t).
Definition getMonth (t : Date) : Z := MonthFromDay (Day t).
Definition getDate (t : Date) : Z := DateFromDay (Day t).
Definition getDay (t : Date) : Z := WeekDay (Day t).

(** [MakeFullYear]: a year in 0..99 is read as 1900 + year. *)
Definition MakeFullYear (year : Z) : Z :=
  if (0 <=? year) && (year <=? 99) then 1900 + year else year.

(** [new Date(year, monthIndex, day)]: local midnight. *)
Definition newDate (year month date : Z) : Date :=
  MakeDate (MakeDay (MakeFullYear year) month date) 0.

Definition setDate (t : Date) (date : Z) : Date :=
  MakeDate (MakeDay (getFullYear t) (getMonth t) date) (TimeWithinDay t).

Definition setMonth (t : Date) (month date : Z) : Date :=
  MakeDate (MakeDay (getFullYear t) month date) (TimeWithinDay t).

Definition setFullYear (t : Date) (year month date : Z) : Date :=
  MakeDate (MakeDay year month date) (TimeWithinDay t).

(** [a.toDateString() === b.toDateString()]: the same calendar day. *)
Definition sameDateString (a b : Date) : bool := Day a =? Day b.

Definition MakeTime (hour min sec ms : Z) : Z :=
  hour * 3600000 + min * 60000 + sec * 1000 + ms.

Definition setHours (t : Date) (hour min sec ms : Z) : Date :=
  MakeDate (Day t) (MakeTime hour min sec ms).

End JS.

Import JS.

(* ================================================================= *)
(** ** date-fns *)
(* ================================================================= *)

Module DateFns.

(** [addDays]: [setDate(getDate() + amount)] on a copy; 0 is a no-op. *)
Definition addDays (date : Date) (amount : Z) : Date :=
  if amount =? 0 then date
  else setDate date (getDate date + amount).

Definition addWeeks (date : Date) (amount : Z) : Date :=
  addDays date (amount * 7).

(** [addMonths]: go to the last day of the desired month (day 0 of the
    month after it); keep it when the original day of month does not fit,
    otherwise set the original day of month. *)
Definition addMonths (date : Date) (amount : Z) : Date :=
  if amount =? 0 then date
  else
    let dayOfMonth := getDate date in
    let endOfDesiredMonth := setMonth date (getMonth date + amount + 1) 0 in
    let daysInMonth := getDate endOfDesiredMonth in
    if daysInMonth <=? dayOfMonth then endOfDesiredMonth
    else setFullYear date (getFullYear endOfDesiredMonth)
                          (getMonth endOfDesiredMonth) dayOfMonth.

Definition addYears (date : Date) (amount : Z) : Date :=
  addMonths date (amount * 12).

Definition isBefore (date dateToCompare : Date) : bool :=
  date <? dateToCompare.

Definition startOfDay (date : Date) : Date := setHours date 0 0 0 0.

(** [+startOfDay(laterDate) === +startOfDay(earlierDate)] *)
Definition isSameDay (laterDate earlierDate : Date) : bool :=
  startOfDay laterDate =? startOfDay earlierDate.

Definition isSameMonth (laterDate earlierDate : Date) : bool :=
  (getFullYear laterDate =? getFullYear earlierDate)
  && (getMonth laterDate =? getMonth earlierDate).

(** The default of the options: weeks start on Sunday. *)
Definition weekStartsOn : Z := 0.

Definition startOfWeek (date : Date) : Date :=
  let day := getDay date in
  let diff := (if day <? weekStartsOn then 7 else 0) + day - weekStartsOn in
  setHours (setDate date (getDate date - diff)) 0 0 0 0.

Definition endOfWeek (date : Date) : Date :=
  let day := getDay date in
  let diff := (if day <? weekStartsOn then -7 else 0)
              + 6 - (day - weekStartsOn) in
  setHours (setDate date (getDate date + diff)) 23 59 59 999.

(** [while (+date <= endTime) { dates.push(date); date.setDate(date.getDate()
    + 1); date.setHours(0, 0, 0, 0); }] *)
Fixpoint eachDayLoop (fuel : nat) (endTime : Z) (date : Date)
    (dates : list Date) : option (list Date) :=
  match fuel with
  | O => None
  | S fuel' =>
      if date <=? endTime then
        eachDayLoop fuel' endTime
          (setHours (setDate date (getDate date + 1)) 0 0 0 0)
          (dates ++ [date])
      else Some dates
  end.

(** [eachDayOfInterval({ start, end })], step 1; an interval given
    backwards is walked from its end and the result reversed. *)
Definition eachDayOfInterval (fuel : nat) (start end_ : Date)
  : option (list Date) :=
  let reversed := end_ <? start in
  let endTime := if reversed then start else end_ in
  let date := setHours (if reversed then end_ else start) 0 0 0 0 in
  match eachDayLoop fuel endTime date [] with
  | Some dates => Some (if reversed then rev dates else dates)
  | None => None
  end.

End DateFns.

Import DateFns.

(* ================================================================= *)
(** ** The hook [useRecurrencePicker] *)
(* ================================================================= *)

Module Picker.

Inductive RecurrenceType := daily | weekly | monthly | yearly | custom.

(** [type DayOfWeek = 0 | 1 | 2 | 3 | 4 | 5 | 6], 0 = Sunday. *)
Inductive DayOfWeek :=
  Sunday | Monday | Tuesday | Wednesday | Thursday | Friday | Saturday.

Definition dayNumber (d : DayOfWeek) : Z :=
  match d with
  | Sunday => 0 | Monday => 1 | Tuesday => 2 | Wednesday => 3
  | Thursday => 4 | Friday => 5 | Saturday => 6
  end.

Inductive MonthWeek := first | second | third | fourth | last.

Record RecurrenceRule := {
  type : RecurrenceType;
  interval : Z;
  daysOfWeek : option (list DayOfWeek);
  monthDay : option Z;
  monthWeek : option MonthWeek;
  monthWeekDay : option DayOfWeek;
  startDate : Date;
  endDate : option Date
}.

(** [while (getDay(x) !== weekday) x = addDays(x, step)] *)
Fixpoint scanWeekday (fuel : nat) (step weekday : Z) (x : Date) : option Date :=
  match fuel with
  | O => None
  | S fuel' =>
      if getDay x =? weekday then Some x
      else scanWeekday fuel' step weekday (addDays x step)
  end.

(** [new Date(date.getFullYear(), date.getMonth(), 1)] and
    [new Date(date.getFullYear(), date.getMonth() + 1, 0)] *)
Definition firstDayOfMonth (date : Date) : Date :=
  newDate (getFullYear date) (getMonth date) 1.
Definition lastDayOfMonth (date : Date) : Date :=
  newDate (getFullYear date) (getMonth date + 1) 0.

Definition getNthWeekdayInMonth
    (fuel : nat) (date : Date) (week : MonthWeek) (weekday : DayOfWeek)
  : option Date :=
  match scanWeekday fuel 1 (dayNumber weekday) (firstDayOfMonth date) with
  | None => None
  | Some firstWeekday =>
      match week with
      | first => Some firstWeekday
      | second => Some (addDays firstWeekday 7)
      | third => Some (addDays firstWeekday 14)
      | fourth => Some (addDays firstWeekday 21)
      | last => scanWeekday fuel (-1) (dayNumber weekday) (lastDayOfMonth date)
      end
  end.

(** [rule.daysOfWeek.find((d) => d > currentDay) || rule.daysOfWeek[0]];
    [||] also falls through on a found 0. *)
Definition nextDayOf (days : list DayOfWeek) (currentDay : Z) : Z :=
  let dflt := match days with d :: _ => dayNumber d | [] => 0 end in
  match find (fun d => currentDay <? dayNumber d) days with
  | Some d => if dayNumber d =? 0 then dflt else dayNumber d
  | None => dflt
  end.

(** The [switch (rule.type)] of the loop body: the next cursor. *)
Definition advance (fuel : nat) (rule : RecurrenceRule) (currentDate : Date)
  : option Date :=
  match type rule with
  | daily => Some (addDays currentDate (interval rule))
  | weekly =>
      let currentDate := addDays currentDate (7 * interval rule) in
      match daysOfWeek rule with
      | Some (d :: ds) =>
          let currentDay := getDay currentDate in
          let nextDay := nextDayOf (d :: ds) currentDay in
          Some (addDays currentDate (Z.rem (nextDay - currentDay + 7) 7))
      | _ => Some currentDate
      end
  | monthly =>
      (* the branches after [if (rule.monthDay)] *)
      let otherwise :=
        match monthWeek rule, monthWeekDay rule with
        | Some week, Some weekday =>
            getNthWeekdayInMonth fuel
              (addMonths currentDate (interval rule)) week weekday
        | _, _ => Some (addMonths currentDate (interval rule))
        end in
      match monthDay rule with
      | Some n =>
          if n =? 0 then otherwise
          else Some (setDate (addMonths currentDate (interval rule)) n)
      | None => otherwise
      end
  | yearly => Some (addYears currentDate (interval rule))
  | custom => Some currentDate
  end.

(** [rule.endDate && currentDate > rule.endDate] *)
Definition pastEnd (rule : RecurrenceRule) (currentDate : Date) : bool :=
  match endDate rule with
  | Some e => e <? currentDate
  | None => false
  end.

(** [while (occurrences.length < count) { switch ...; if (...) break;
    occurrences.push(new Date(currentDate)); }  return occurrences;] *)
Fixpoint generateLoop (fuel : nat) (rule : RecurrenceRule) (count : Z)
    (occurrences : list Date) (currentDate : Date) : option (list Date) :=
  match fuel with
  | O => None
  | S fuel' =>
      if Z.of_nat (length occurrences) <? count then
        match advance fuel' rule currentDate with
        | None => None
        | Some currentDate' =>
            if pastEnd rule currentDate' then Some occurrences
            else generateLoop fuel' rule count
                   (occurrences ++ [currentDate']) currentDate'
        end
      else Some occurrences
  end.

Definition generateOccurrences
    (fuel : nat) (rule : RecurrenceRule) (count : Z) : option (list Date) :=
  generateLoop fuel rule count [startDate rule] (startDate rule).

(** The call returns [l]: every large enough fuel gives [Some l]. *)
Definition returns (rule : RecurrenceRule) (count : Z) (l : list Date) : Prop :=
  exists n, forall fuel, (n <= fuel)%nat ->
    generateOccurrences fuel rule count = Some l.

(** *** The invariants of the data model, as a check on a rule *)

Definition validFields (r : RecurrenceRule) : bool :=
  (1 <=? interval r) &&
  match type r with
  | daily | yearly => true
  | weekly => match daysOfWeek r with Some (_ :: _) => true | _ => false end
  | monthly => match monthDay r with
               | Some n => (1 <=? n) && (n <=? 31)
               | None => true
               end
  | custom => false
  end.

Definition validRange (r : RecurrenceRule) : bool :=
  match endDate r with
  | Some e => startDate r <=? e
  | None => true
  end.

Definition validRule (r : RecurrenceRule) : bool :=
  validFields r && validRange r.

End Picker.

Import Picker.

(* ================================================================= *)
(** ** The hook over [Date] objects of limited range *)
(* ================================================================= *)

(** The same source once more, with the range of [Date]: a [Date] object
    holds a time value within 8.64e15 ms of the epoch or NaN (Invalid
    Date).  The arithmetic on time values is that of [JS]; every write to a
    [Date] goes through [TimeClip].  A rule's [startDate] and [endDate] are
    read as the [Date] objects [TimeClip] makes of them, so a time value
    outside the range stands for Invalid Date. *)
Module Clip.

(** [Some t]: the date with time value [t]; [None]: Invalid Date. *)
Definition DateObject := option Z.

Definition maxTime : Z := 8640000000000000.

Definition TimeClip (t : Z) : DateObject :=
  if (- maxTime <=? t) && (t <=? maxTime) then Some t else None.

(** [getDay(date) === weekday]; [getDay] of Invalid Date is NaN. *)
Definition isWeekday (date : DateObject) (weekday : Z) : bool :=
  match date with
  | Some t => JS.getDay t =? weekday
  | None => false
  end.

(** [date.setDate(n)]: Invalid Date stays as it is. *)
Definition setDate (date : DateObject) (n : Z) : DateObject :=
  match date with
  | Some t => TimeClip (JS.setDate t n)
  | None => None
  end.

(** [addDays]: [setDate(getDate() + amount)] on a copy; 0 is a no-op. *)
Definition addDays (date : DateObject) (amount : Z) : DateObject :=
  match date with
  | Some t =>
      if amount =? 0 then date else setDate date (JS.getDate t + amount)
  | None => None
  end.

(** [addMonths]: when the end of the desired month is Invalid Date,
    [dayOfMonth >= NaN] is false and [setFullYear(NaN, NaN, dayOfMonth)]
    makes the result invalid. *)
Definition addMonths (date : DateObject) (amount : Z) : DateObject :=
  match date with
  | Some t =>
      if amount =? 0 then date
      else
        let dayOfMonth := JS.getDate t in
        match TimeClip (JS.setMonth t (JS.getMonth t + amount + 1) 0) with
        | Some endOfDesiredMonth =>
            let daysInMonth := JS.getDate endOfDesiredMonth in
            if daysInMonth <=? dayOfMonth then Some endOfDesiredMonth
            else TimeClip (JS.setFullYear t
                             (JS.getFullYear endOfDesiredMonth)
                             (JS.getMonth endOfDesiredMonth) dayOfMonth)
        | None => None
        end
  | None => None
  end.

Definition addYears (date : DateObject) (amount : Z) : DateObject :=
  addMonths date (amount * 12).

(** [while (getDay(x) !== weekday) x = addDays(x, step)]; for Invalid
    Date the test never fails. *)
Fixpoint scanWeekday (fuel : nat) (step weekday : Z) (x : DateObject)
  : option DateObject :=
  match fuel with
  | O => None
  | S fuel' =>
      if isWeekday x weekday then Some x
      else scanWeekday fuel' step weekday (addDays x step)
  end.

(** [new Date(date.getFullYear(), date.getMonth(), 1)] and
    [new Date(date.getFullYear(), date.getMonth() + 1, 0)]; NaN arguments
    give Invalid Date. *)
Definition firstDayOfMonth (date : DateObject) : DateObject :=
  match date with
  | Some t => TimeClip (Picker.firstDayOfMonth t)
  | None => None
  end.
Definition lastDayOfMonth (date : DateObject) : DateObject :=
  match date with
  | Some t => TimeClip (Picker.lastDayOfMonth t)
  | None => None
  end.

Definition getNthWeekdayInMonth
    (fuel : nat) (date : DateObject) (week : MonthWeek) (weekday : DayOfWeek)
  : option DateObject :=
  match scanWeekday fuel 1 (dayNumber weekday) (firstDayOfMonth date) with
  | None => None
  | Some firstWeekday =>
      match week with
      | first => Some firstWeekday
      | second => Some (addDays firstWeekday 7)
      | third => Some (addDays firstWeekday 14)
      | fourth => Some (addDays firstWeekday 21)
      | last => scanWeekday fuel (-1) (dayNumber weekday) (lastDayOfMonth date)
      end
  end.

(** The [switch (rule.type)] of the loop body.  In the weekly case an
    invalid cursor has [getDay] NaN, and [addDays(Invalid Date, NaN)] is
    Invalid Date. *)
Definition advance (fuel : nat) (rule : RecurrenceRule)
    (currentDate : DateObject) : option DateObject :=
  match type rule with
  | daily => Some (addDays currentDate (interval rule))
  | weekly =>
      let currentDate := addDays currentDate (7 * interval rule) in
      match daysOfWeek rule with
      | Some (d :: ds) =>
          match currentDate with
          | Some t =>
              let currentDay := JS.getDay t in
              let nextDay := nextDayOf (d :: ds) currentDay in
              Some (addDays currentDate (Z.rem (nextDay - currentDay + 7) 7))
          | None => Some None
          end
      | _ => Some currentDate
      end
  | monthly =>
      let otherwise :=
        match monthWeek rule, monthWeekDay rule with
        | Some week, Some weekday =>
            getNthWeekdayInMonth fuel
              (addMonths currentDate (interval rule)) week weekday
        | _, _ => Some (addMonths currentDate (interval rule))
        end in
      match monthDay rule with
      | Some n =>
          if n =? 0 then otherwise
          else Some (setDate (addMonths currentDate (interval rule)) n)
      | None => otherwise
      end
  | yearly => Some (addYears currentDate (interval rule))
  | custom => Some currentDate
  end.

(** [rule.endDate && currentDate > rule.endDate]: [>] is false when
    either side is Invalid Date. *)
Definition pastEnd (rule : RecurrenceRule) (currentDate : DateObject) : bool :=
  match endDate rule with
  | Some e =>
      match TimeClip e, currentDate with
      | Some e', Some t => e' <? t
      | _, _ => false
      end
  | None => false
  end.

Fixpoint generateLoop (fuel : nat) (rule : RecurrenceRule) (count : Z)
    (occurrences : list DateObject) (currentDate : DateObject)
  : option (list DateObject) :=
  match fuel with
  | O => None
  | S fuel' =>
      if Z.of_nat (length occurrences) <? count then
        match advance fuel' rule currentDate with
        | None => None
        | Some currentDate' =>
            if pastEnd rule currentDate' then Some occurrences
            else generateLoop fuel' rule count
                   (occurrences ++ [currentDate']) currentDate'
        end
      else Some occurrences
  end.

Definition generateOccurrences
    (fuel : nat) (rule : RecurrenceRule) (count : Z)
  : option (list DateObject) :=
  generateLoop fuel rule count [TimeClip (startDate rule)]
    (TimeClip (startDate rule)).

(** [a < b] on [Date] objects: false when either is Invalid Date. *)
Definition lt (a b : DateObject) : Prop :=
  match a, b with
  | Some x, Some y => x < y
  | _, _ => False
  end.

(** The call returns [l]: every large enough fuel gives [Some l]. *)
Definition returns (rule : RecurrenceRule) (count : Z) (l : list DateObject)
  : Prop :=
  exists n, forall fuel, (n <= fuel)%nat ->
    generateOccurrences fuel rule count = Some l.

(** One pass of the loop from cursor [d] gives the candidate [c]. *)
Definition yields (rule : RecurrenceRule) (d c : DateObject) : Prop :=
  exists n, forall fuel, (n <= fuel)%nat -> advance fuel rule d = Some c.

(** [getNthWeekdayInMonth] returns [r]. *)
Definition resolves (date : DateObject) (week : MonthWeek)
    (weekday : DayOfWeek) (r : DateObject) : Prop :=
  exists n, forall fuel, (n <= fuel)%nat ->
    getNthWeekdayInMonth fuel date week weekday = Some r.

End Clip.

(* ================================================================= *)
(** ** The edit handlers of [RecurrenceOptions] *)
(* ================================================================= *)

Module Options.

(** [parseInt(e.target.value) || 1]; [None] is [NaN]. *)
Definition intervalInput (parsed : option Z) : Z :=
  match parsed with
  | Some n => if n =? 0 then 1 else n
  | None => 1
  end.

(** [onChange({ ...rule, interval })] *)
Definition handleIntervalChange (rule : RecurrenceRule) (interval : Z)
  : RecurrenceRule :=
  {| type := type rule; interval := interval;
     daysOfWeek := daysOfWeek rule; monthDay := monthDay rule;
     monthWeek := monthWeek rule; monthWeekDay := monthWeekDay rule;
     startDate := startDate rule; endDate := endDate rule |}.

Definition sameDay (a b : DayOfWeek) : bool := dayNumber a =? dayNumber b.

(** [days.splice(days.indexOf(day), 1)] when [day] occurs in [days] *)
Fixpoint removeFirst (day : DayOfWeek) (days : list DayOfWeek)
  : list DayOfWeek :=
  match days with
  | [] => []
  | d :: ds => if sameDay d day then ds else d :: removeFirst day ds
  end.

Fixpoint insertDay (day : DayOfWeek) (sorted : list DayOfWeek)
  : list DayOfWeek :=
  match sorted with
  | [] => [day]
  | d :: ds =>
      if dayNumber day <? dayNumber d then day :: d :: ds
      else d :: insertDay day ds
  end.

(** [days.sort((a, b) => a - b)] *)
Definition sortDays (days : list DayOfWeek) : list DayOfWeek :=
  fold_right insertDay [] days.

Definition handleDayToggle (rule : RecurrenceRule) (day : DayOfWeek)
  : RecurrenceRule :=
  let days := match daysOfWeek rule with Some l => l | None => [] end in
  let days' := if existsb (fun d => sameDay d day) days
               then removeFirst day days
               else sortDays (days ++ [day]) in
  {| type := type rule; interval := interval rule;
     daysOfWeek := Some days'; monthDay := monthDay rule;
     monthWeek := monthWeek rule; monthWeekDay := monthWeekDay rule;
     startDate := startDate rule; endDate := endDate rule |}.

(** A weekday number as a [DayOfWeek]. *)
Definition dayOfWeekOf (n : Z) : DayOfWeek :=
  if n =? 0 then Sunday
  else if n =? 1 then Monday
  else if n =? 2 then Tuesday
  else if n =? 3 then Wednesday
  else if n =? 4 then Thursday
  else if n =? 5 then Friday
  else Saturday.

(** [handleTypeChange]: [{ ...rule, type }] with the defaults of the
    type; ['custom'] has no case and only changes the type. *)
Definition handleTypeChange (rule : RecurrenceRule) (t : RecurrenceType)
  : RecurrenceRule :=
  match t with
  | daily | yearly =>
      {| type := t; interval := 1; daysOfWeek := None; monthDay := None;
         monthWeek := None; monthWeekDay := None;
         startDate := startDate rule; endDate := endDate rule |}
  | weekly =>
      {| type := t; interval := 1;
         daysOfWeek := Some [dayOfWeekOf (getDay (startDate rule))];
         monthDay := None; monthWeek := None; monthWeekDay := None;
         startDate := startDate rule; endDate := endDate rule |}
  | monthly =>
      {| type := t; interval := 1; daysOfWeek := None;
         monthDay := Some (getDate (startDate rule));
         monthWeek := None; monthWeekDay := None;
         startDate := startDate rule; endDate := endDate rule |}
  | custom =>
      {| type := t; interval := interval rule;
         daysOfWeek := daysOfWeek rule; monthDay := monthDay rule;
         monthWeek := monthWeek rule; monthWeekDay := monthWeekDay rule;
         startDate := startDate rule; endDate := endDate rule |}
  end.

(** The array the type buttons are mapped from. *)
Definition typeButtons : list RecurrenceType :=
  [daily; weekly; monthly; yearly].

Definition handleMonthDayChange (rule : RecurrenceRule) (day : Z)
  : RecurrenceRule :=
  {| type := type rule; interval := interval rule;
     daysOfWeek := daysOfWeek rule; monthDay := Some day;
     monthWeek := monthWeek rule; monthWeekDay := monthWeekDay rule;
     startDate := startDate rule; endDate := endDate rule |}.

Definition handleMonthWeekChange (rule : RecurrenceRule) (week : MonthWeek)
  : RecurrenceRule :=
  {| type := type rule; interval := interval rule;
     daysOfWeek := daysOfWeek rule; monthDay := monthDay rule;
     monthWeek := Some week; monthWeekDay := monthWeekDay rule;
     startDate := startDate rule; endDate := endDate rule |}.

Definition handleMonthWeekDayChange (rule : RecurrenceRule) (day : DayOfWeek)
  : RecurrenceRule :=
  {| type := type rule; interval := interval rule;
     daysOfWeek := daysOfWeek rule; monthDay := monthDay rule;
     monthWeek := monthWeek rule; monthWeekDay := Some day;
     startDate := startDate rule; endDate := endDate rule |}.

(** The [onClick] of the "Day N" button: [monthWeek] and [monthWeekDay]
    deleted, [monthDay = rule.startDate.getDate()]. *)
Definition dayOfMonthClick (rule : RecurrenceRule) : RecurrenceRule :=
  {| type := type rule; interval := interval rule;
     daysOfWeek := daysOfWeek rule;
     monthDay := Some (getDate (startDate rule));
     monthWeek := None; monthWeekDay := None;
     startDate := startDate rule; endDate := endDate rule |}.

(** The [onChange] the picker passes down:
    [setRecurrenceRule({ ...newRule, startDate, endDate })]; the hook then
    calls [generateOccurrences(recurrenceRule)] on it. *)
Definition onChange (startDate' : Date) (endDate' : option Date)
    (newRule : RecurrenceRule) : RecurrenceRule :=
  {| type := type newRule; interval := interval newRule;
     daysOfWeek := daysOfWeek newRule; monthDay := monthDay newRule;
     monthWeek := monthWeek newRule; monthWeekDay := monthWeekDay newRule;
     startDate := startDate'; endDate := endDate' |}.

End Options.

(* ================================================================= *)
(** ** App.js: [calculateRecurringDates] *)
(* ================================================================= *)

Module App.

Inductive Frequency := daily | weekly | monthly | yearly.

(** [!end || isBefore(current, end)
     || current.toDateString() === end.toDateString()] *)
Definition keepGoing (current : Date) (end_ : option Date) : bool :=
  match end_ with
  | None => true
  | Some e => isBefore current e || sameDateString current e
  end.

Definition next (freq : Frequency) (interval : Z) (current : Date) : Date :=
  match freq with
  | daily => addDays current interval
  | weekly => addWeeks current interval
  | monthly => addMonths current interval
  | yearly => addYears current interval
  end.

Fixpoint calculateLoop (fuel : nat) (freq : Frequency) (interval : Z)
    (end_ : option Date) (dates : list Date) (current : Date)
  : option (list Date) :=
  match fuel with
  | O => None
  | S fuel' =>
      if keepGoing current end_ then
        calculateLoop fuel' freq interval end_ (dates ++ [current])
          (next freq interval current)
      else Some dates
  end.

Definition calculateRecurringDates (fuel : nat) (freq : Frequency)
    (interval : Z) (start : Date) (end_ : option Date) : option (list Date) :=
  calculateLoop fuel freq interval end_ [] start.

End App.

(* ================================================================= *)
(** ** The component [RecurringDatePicker] and its state *)
(* ================================================================= *)

Module Component.

(** The state of [useRecurrencePicker], of [RecurringDatePicker]
    ([currentMonth]) and of [RecurrenceOptions] ([showAdvanced]). *)
Record State := {
  startDate : Date;
  endDate : option Date;
  recurrenceRule : RecurrenceRule;
  currentMonth : Date;
  showAdvanced : bool
}.

(** [useRecurrencePicker(new Date())], [useState(new Date())],
    [useState(false)]; [now] is the clock at the first render. *)
Definition initial (now : Date) : State :=
  {| startDate := now; endDate := None;
     recurrenceRule :=
       {| type := weekly; interval := 1; daysOfWeek := None;
          monthDay := None; monthWeek := None; monthWeekDay := None;
          Picker.startDate := now; Picker.endDate := None |};
     currentMonth := now; showAdvanced := false |}.

(** What the controls of the page can send. *)
Inductive Event :=
| TypeClick (t : RecurrenceType)
| IntervalInput (parsed : option Z)
| DayClick (day : DayOfWeek)
| DayOfMonthClick
| AdvancedClick
| MonthWeekSelect (week : MonthWeek)
| MonthWeekDaySelect (day : DayOfWeek)
| StartDateInput (date : Date)
| EndDateInput (date : option Date)
| PrevMonthClick
| NextMonthClick.

Definition isType (t u : RecurrenceType) : bool :=
  match t, u with
  | daily, daily | weekly, weekly | monthly, monthly | yearly, yearly
  | custom, custom => true
  | _, _ => false
  end.

(** Which controls the JSX renders in a state. *)
Definition rendered (st : State) (ev : Event) : bool :=
  match ev with
  | TypeClick t => existsb (isType t) Options.typeButtons
  | DayClick _ => isType (type (recurrenceRule st)) weekly
  | DayOfMonthClick | AdvancedClick =>
      isType (type (recurrenceRule st)) monthly
  | MonthWeekSelect _ | MonthWeekDaySelect _ =>
      isType (type (recurrenceRule st)) monthly && showAdvanced st
  | _ => true
  end.

Definition withRule (st : State) (rule : RecurrenceRule) : State :=
  {| startDate := startDate st; endDate := endDate st;
     recurrenceRule := rule;
     currentMonth := currentMonth st; showAdvanced := showAdvanced st |}.

(** [onChange] of [RecurrenceOptions]:
    [setRecurrenceRule({ ...newRule, startDate, endDate })] *)
Definition changeRule (st : State) (newRule : RecurrenceRule) : State :=
  withRule st (Options.onChange (startDate st) (endDate st) newRule).

Definition handle (st : State) (ev : Event) : State :=
  let rule := recurrenceRule st in
  match ev with
  | TypeClick t => changeRule st (Options.handleTypeChange rule t)
  | IntervalInput parsed =>
      changeRule st
        (Options.handleIntervalChange rule (Options.intervalInput parsed))
  | DayClick day => changeRule st (Options.handleDayToggle rule day)
  | DayOfMonthClick => changeRule st (Options.dayOfMonthClick rule)
  | AdvancedClick =>
      {| startDate := startDate st; endDate := endDate st;
         recurrenceRule := rule; currentMonth := currentMonth st;
         showAdvanced := negb (showAdvanced st) |}
  | MonthWeekSelect week =>
      changeRule st (Options.handleMonthWeekChange rule week)
  | MonthWeekDaySelect day =>
      changeRule st (Options.handleMonthWeekDayChange rule day)
  | StartDateInput date =>
      (* setStartDate(date);
         setRecurrenceRule({ ...recurrenceRule, startDate: date }) *)
      {| startDate := date; endDate := endDate st;
         recurrenceRule :=
           Options.onChange date (Picker.endDate rule) rule;
         currentMonth := currentMonth st; showAdvanced := showAdvanced st |}
  | EndDateInput date =>
      {| startDate := startDate st; endDate := date;
         recurrenceRule :=
           Options.onChange (Picker.startDate rule) date rule;
         currentMonth := currentMonth st; showAdvanced := showAdvanced st |}
  | PrevMonthClick =>
      {| startDate := startDate st; endDate := endDate st;
         recurrenceRule := rule;
         currentMonth := addMonths (currentMonth st) (-1);
         showAdvanced := showAdvanced st |}
  | NextMonthClick =>
      {| startDate := startDate st; endDate := endDate st;
         recurrenceRule := rule;
         currentMonth := addMonths (currentMonth st) 1;
         showAdvanced := showAdvanced st |}
  end.

(** The states the page can be in. *)
Inductive reachable (now : Date) : State -> Prop :=
| reachable_initial : reachable now (initial now)
| reachable_handle st ev :
    reachable now st -> rendered st ev = true ->
    reachable now (handle st ev).

(** [const occurrences = generateOccurrences(recurrenceRule)], with the
    default count. *)
Definition occurrences (fuel : nat) (st : State)
  : option (list Clip.DateObject) :=
  Clip.generateOccurrences fuel (recurrenceRule st) 30.



End Component.

(* ================================================================= *)
(** ** [MiniCalendar] *)
(* ================================================================= *)

Module MiniCalendar.

Record CalendarDay := {
  date : Date;
  isSelected : bool;
  isCurrentMonth : bool
}.

Definition cell (occurrences : list Date) (currentMonth : Date) (d : Date)
  : CalendarDay :=
  {| date := d;
     isSelected := existsb (fun occ => isSameDay occ d) occurrences;
     isCurrentMonth := isSameMonth d currentMonth |}.

(** The colours of a cell: ['bg-blue-500 text-white'], ['text-gray-800']
    and ['text-gray-400']. *)
Inductive Colour := bgBlue500 | textGray800 | textGray400.

(** [day.isSelected ? ... : day.isCurrentMonth ? ... : ...] in the
    [className] of a cell. *)
Definition colour (day : CalendarDay) : Colour :=
  if isSelected day then bgBlue500
  else if isCurrentMonth day then textGray800
  else textGray400.

(** [for (let i = 0; i < days.length; i += 7)
      weeks.push(days.slice(i, i + 7).map(...))] *)
Fixpoint weeksLoop (fuel : nat) (occurrences : list Date) (currentMonth : Date)
    (days : list Date) (i : nat) (weeks : list (list CalendarDay))
  : option (list (list CalendarDay)) :=
  match fuel with
  | O => None
  | S fuel' =>
      if (i <? length days)%nat then
        weeksLoop fuel' occurrences currentMonth days (i + 7)
          (weeks ++ [map (cell occurrences currentMonth)
                       (firstn 7 (skipn i days))])
      else Some weeks
  end.

Definition weeks (fuel : nat) (occurrences : list Date) (currentMonth : Date)
  : option (list (list CalendarDay)) :=
  let start := startOfWeek currentMonth in
  let end_ := endOfWeek (addDays currentMonth 35) in
  match eachDayOfInterval fuel start end_ with
  | Some days => weeksLoop fuel occurrences currentMonth days 0 []
  | None => None
  end.

End MiniCalendar.

(* ================================================================= *)
(** ** Vocabulary of the statements *)
(* ================================================================= *)

(** Months on one axis: month index [12 * year + month]. *)
Definition monthStart (M : Z) : Z := MakeDay 0 M 1.
Definition monthLength (M : Z) : Z := monthStart (M + 1) - monthStart M.
Definition monthIndex (d : Z) : Z := 12 * YearFromDay d + MonthFromDay d.

(** The cursor after one pass through the [switch]; seven steps are
    enough for both weekday scans. *)
Definition step (rule : RecurrenceRule) (currentDate : Date) : Date :=
  match advance 7 rule currentDate with
  | Some d => d
  | None => currentDate
  end.

(** What the loop appends to [occurrences] in at most [n] further passes. *)
Fixpoint occurrencesFrom (n : nat) (rule : RecurrenceRule) (currentDate : Date)
  : list Date :=
  match n with
  | O => []
  | S n' =>
      let next := step rule currentDate in
      if pastEnd rule next then []
      else next :: occurrencesFrom n' rule next
  end.

Definition strictlyIncreasing (l : list Date) : Prop := StronglySorted Z.lt l.

(** What the loop of [calculateRecurringDates] pushes in at most [n]
    passes when an end date is given. *)
Fixpoint datesFrom (n : nat) (freq : App.Frequency) (interval : Z)
    (e : Date) (current : Date) : list Date :=
  match n with
  | O => []
  | S n' =>
      if App.keepGoing current (Some e)
      then current :: datesFrom n' freq interval e (App.next freq interval current)
      else []
  end.

(** [calculateRecurringDates] returns [l]. *)
Definition calculates (freq : App.Frequency) (interval : Z) (start : Date)
    (end_ : option Date) (l : list Date) : Prop :=
  exists n, forall fuel, (n <= fuel)%nat ->
    App.calculateRecurringDates fuel freq interval start end_ = Some l.

(** Lengths of the two weekday scans of [getNthWeekdayInMonth], and its
    result in closed form. *)
Definition forwardSteps (date : Date) (weekday : DayOfWeek) : Z :=
  (dayNumber weekday - getDay (firstDayOfMonth date)) mod 7.
Definition backwardSteps (date : Date) (weekday : DayOfWeek) : Z :=
  (getDay (lastDayOfMonth date) - dayNumber weekday) mod 7.

Definition nthWeekday (date : Date) (week : MonthWeek) (weekday : DayOfWeek)
  : Date :=
  match week with
  | first => addDays (firstDayOfMonth date) (forwardSteps date weekday)
  | second => addDays (firstDayOfMonth date) (forwardSteps date weekday + 7)
  | third => addDays (firstDayOfMonth date) (forwardSteps date weekday + 14)
  | fourth => addDays (firstDayOfMonth date) (forwardSteps date weekday + 21)
  | last => addDays (lastDayOfMonth date) (- backwardSteps date weekday)
  end.

(** The month, on the month axis, that the constructor calls of
    [getNthWeekdayInMonth] address. *)
Definition resolvedMonth (date : Date) : Z :=
  12 * MakeFullYear (getFullYear date) + getMonth date.

(** Whether the loop takes the branch that calls [getNthWeekdayInMonth]:
    monthly, [monthDay] absent or 0, [monthWeek] and [monthWeekDay] set. *)
Definition usesNthWeekday (rule : RecurrenceRule) : bool :=
  match type rule, monthDay rule, monthWeek rule, monthWeekDay rule with
  | monthly, None, Some _, Some _ => true
  | monthly, Some n, Some _, Some _ => n =? 0
  | _, _, _, _ => false
  end.

(** Selected weekdays in ascending order, none twice. *)
Definition strictlySortedDays (days : list DayOfWeek) : Prop :=
  StronglySorted (fun a b => dayNumber a < dayNumber b) days.

(** What holds of the rule in every state of the page. *)
Definition pageInvariant (st : Component.State) : Prop :=
  let rule := Component.recurrenceRule st in
  startDate rule = Component.startDate st
  /\ endDate rule = Component.endDate st
  /\ type rule <> custom
  /\ interval rule <> 0
  /\ (type rule = monthly ->
      exists n, monthDay rule = Some n /\ 1 <= n <= 31)
  /\ (forall l, daysOfWeek rule = Some l -> strictlySortedDays l).


(** The rule of the hook that says what the arguments of
    [calculateRecurringDates] say. *)
Definition asRule (freq : App.Frequency) (n : Z) (start : Date)
    (end_ : option Date) : RecurrenceRule :=
  {| type := match freq with
             | App.daily => daily | App.weekly => weekly
             | App.monthly => monthly | App.yearly => yearly
             end;
     interval := n; daysOfWeek := None; monthDay := None;
     monthWeek := None; monthWeekDay := None;
     startDate := start; endDate := end_ |}.

(** The day number of the Sunday on or before [currentMonth]: the first
    day of the grid of [MiniCalendar]. *)
Definition gridStart (currentMonth : Date) : Z :=
  Day currentMonth - getDay currentMonth.

(** [MiniCalendar] renders [rows]. *)
Definition renders (occurrences : list Date) (currentMonth : Date)
    (rows : list (list MiniCalendar.CalendarDay)) : Prop :=
  exists n, forall fuel, (n <= fuel)%nat ->
    MiniCalendar.weeks fuel occurrences currentMonth = Some rows.

(** The grid in closed form: 42 consecutive local midnights from
    [gridStart], cut into rows of seven. *)
Definition gridDays (currentMonth : Date) : list Date :=
  map (fun i => MakeDate (gridStart currentMonth + Z.of_nat i) 0) (seq 0 42).

Definition grid (occurrences : list Date) (currentMonth : Date)
  : list (list MiniCalendar.CalendarDay) :=
  map (fun r => map (MiniCalendar.cell occurrences currentMonth)
                  (firstn 7 (skipn (7 * r) (gridDays currentMonth))))
    (seq 0 6).

(** The rule as the loop over [Date] objects reads it: an [endDate] that
    is Invalid Date never stops the loop. *)
Definition withValidEnd (rule : RecurrenceRule) : RecurrenceRule :=
  {| type := type rule; interval := interval rule;
     daysOfWeek := daysOfWeek rule; monthDay := monthDay rule;
     monthWeek := monthWeek rule; monthWeekDay := monthWeekDay rule;
     startDate := startDate rule;
     endDate := match endDate rule with
                | Some e => Clip.TimeClip e
                | None => None
                end |}.


(** Some occurrence falls on the calendar day [day]; the day [day] lies in
    the calendar month of [currentMonth]. *)
Definition occursOn (occurrences : list Date) (day : Z) : Prop :=
  exists occ, In occ occurrences /\ Day occ = day.

Definition inMonthOf (currentMonth : Date) (day : Z) : Prop :=
  monthStart (monthIndex (Day currentMonth)) <= day
  < monthStart (monthIndex (Day currentMonth) + 1).

(** *** Sample rules *)

Definition ruleOf (t : RecurrenceType) (n : Z) (start : Date)
    (end_ : option Date) : RecurrenceRule :=
  {| type := t; interval := n; daysOfWeek := None; monthDay := None;
     monthWeek := None; monthWeekDay := None;
     startDate := start; endDate := end_ |}.

Definition withDays (r : RecurrenceRule) (days : list DayOfWeek)
  : RecurrenceRule :=
  {| type := type r; interval := interval r; daysOfWeek := Some days;
     monthDay := monthDay r; monthWeek := monthWeek r;
     monthWeekDay := monthWeekDay r;
     startDate := startDate r; endDate := endDate r |}.

Definition withMonthDay (r : RecurrenceRule) (n : Z) : RecurrenceRule :=
  {| type := type r; interval := interval r; daysOfWeek := daysOfWeek r;
     monthDay := Some n; monthWeek := monthWeek r;
     monthWeekDay := monthWeekDay r;
     startDate := startDate r; endDate := endDate r |}.

Definition withNthWeekday (r : RecurrenceRule) (week : MonthWeek)
    (weekday : DayOfWeek) : RecurrenceRule :=
  {| type := type r; interval := interval r; daysOfWeek := daysOfWeek r;
     monthDay := monthDay r; monthWeek := Some week;
     monthWeekDay := Some weekday;
     startDate := startDate r; endDate := endDate r |}.

(** Monday 1 January 2024, local midnight. *)
Definition jan1_2024 : Date := newDate 2024 0 1.

(** [days] whole days after [t]. *)
Definition daysAfter (t : Date) (days : Z) : Date := t + days * msPerDay.

(** 1 January 2024 at 12:00, as [new Date()] gives at noon. *)
Definition jan1_2024_noon : Date := jan1_2024 + 12 * 3600000.

(** A weekly Monday/Wednesday/Friday rule, every week, no end date. *)
Definition monWedFri (start : Date) : RecurrenceRule :=
  withDays (ruleOf weekly 1 start None) [Monday; Wednesday; Friday].

(** Epoch checks: 1 January 1970 was a Thursday. *)
Example epoch_fields :
  (getFullYear 0, getMonth 0, getDate 0, getDay 0) = (1970, 0, 1, 4).
Proof. reflexivity. Qed.

Example y2024_feb29 :
  let t := newDate 2024 1 29 in
  (getFullYear t, getMonth t, getDate t, getDay t) = (2024, 1, 29, 4).
Proof. vm_compute. reflexivity. Qed.

Example y2023_feb29_rolls :
  let t := newDate 2023 1 29 in
  (getFullYear t, getMonth t, getDate t) = (2023, 2, 1).
Proof. vm_compute. reflexivity. Qed.

Example bc_date :
  let t := newDate (-1) 11 31 in
  (getFullYear t, getMonth t, getDate t, getFullYear (t + msPerDay)) = (-1, 11, 31, 0).
Proof. vm_compute. reflexivity. Qed.

(* ================================================================= *)
(** * Calendar facts *)
(* ================================================================= *)

Ltac divmod := Z.to_euclidean_division_equations; lia.

Lemma leapDays_01 y : leapDays y = 0 \/ leapDays y = 1.
Proof. unfold leapDays. destruct (InLeapYear y); auto. Qed.

Lemma DayFromYear_succ y : DayFromYear (y + 1) = DayFromYear y + DaysInYear y.
Proof.
  unfold DaysInYear, leapDays, InLeapYear, DayFromYear.
  destruct (Z.eqb_spec (y mod 4) 0), (Z.eqb_spec (y mod 100) 0),
    (Z.eqb_spec (y mod 400) 0); cbn [negb]; divmod.
Qed.

Lemma DayFromYear_estimate y :
  146097 * (y - 1970) - 506 <= 400 * DayFromYear y <= 146097 * (y - 1970) + 589.
Proof. unfold DayFromYear. divmod. Qed.

Lemma YearFromDay_spec d :
  DayFromYear (YearFromDay d) <= d < DayFromYear (YearFromDay d + 1).
Proof.
  unfold YearFromDay.
  set (y0 := 1970 + 400 * d / 146097).
  assert (Hq : 146097 * (y0 - 1970) <= 400 * d < 146097 * (y0 - 1970) + 146097)
    by (subst y0; divmod).
  pose proof (DayFromYear_estimate (y0 - 1)).
  pose proof (DayFromYear_estimate (y0 + 1 + 1)).
  destruct (Z.leb_spec (DayFromYear (y0 + 1)) d).
  - lia.
  - destruct (Z.ltb_spec d (DayFromYear y0)).
    + replace (y0 - 1 + 1) with y0 by lia. lia.
    + lia.
Qed.

Lemma month_cases m :
  0 <= m < 12 ->
  m = 0 \/ m = 1 \/ m = 2 \/ m = 3 \/ m = 4 \/ m = 5 \/ m = 6 \/ m = 7 \/
  m = 8 \/ m = 9 \/ m = 10 \/ m = 11.
Proof. lia. Qed.

Ltac month_split H :=
  apply month_cases in H;
  repeat (destruct H as [H | H]; [subst | ]); try subst.

Lemma monthStart_split y m :
  0 <= m < 12 ->
  monthStart (12 * y + m) = DayFromYear y + firstDayOfMonthInYear (leapDays y) m.
Proof.
  intros Hm. unfold monthStart, MakeDay.
  replace (0 + (12 * y + m) / 12) with y by divmod.
  replace ((12 * y + m) mod 12) with m by divmod.
  lia.
Qed.

Lemma MakeDay_monthStart y m dt :
  MakeDay y m dt = monthStart (12 * y + m) + dt - 1.
Proof.
  unfold monthStart, MakeDay.
  replace (0 + (12 * y + m) / 12) with (y + m / 12) by divmod.
  replace ((12 * y + m) mod 12) with (m mod 12) by divmod.
  lia.
Qed.

Lemma monthStart_year_end y :
  monthStart (12 * y + 12) = DayFromYear y + 365 + leapDays y.
Proof.
  replace (12 * y + 12) with (12 * (y + 1) + 0) by lia.
  rewrite monthStart_split by lia.
  rewrite DayFromYear_succ. unfold DaysInYear.
  change (firstDayOfMonthInYear (leapDays (y + 1)) 0) with 0. lia.
Qed.

Lemma monthLength_bounds M : 28 <= monthLength M <= 31.
Proof.
  unfold monthLength.
  assert (HM : M = 12 * (M / 12) + M mod 12) by divmod.
  assert (Hm : 0 <= M mod 12 < 12) by divmod.
  set (y := M / 12) in *. set (m := M mod 12) in *.
  rewrite HM. clearbody y m. clear HM.
  destruct (leapDays_01 y) as [Hl | Hl].
  all: destruct (Z.eq_dec m 11) as [-> | Hne];
    [ replace (12 * y + 11 + 1) with (12 * y + 12) by lia;
      rewrite monthStart_year_end, monthStart_split by lia;
      rewrite Hl; cbn; lia
    | replace (12 * y + m + 1) with (12 * y + (m + 1)) by lia;
      rewrite !monthStart_split by lia; rewrite Hl;
      month_split Hm; cbn; lia ].
Qed.

Lemma monthLength_eq M : monthLength M = monthStart (M + 1) - monthStart M.
Proof. reflexivity. Qed.

Lemma monthStart_succ M : monthStart (M + 1) = monthStart M + monthLength M.
Proof. rewrite monthLength_eq. lia. Qed.

Lemma monthStart_mono_nat (k : nat) M :
  monthStart M + 28 * Z.of_nat k <= monthStart (M + Z.of_nat k).
Proof.
  induction k as [| k IH].
  - replace (M + Z.of_nat 0) with M by lia. lia.
  - replace (M + Z.of_nat (S k)) with (M + Z.of_nat k + 1) by lia.
    rewrite monthStart_succ.
    pose proof (monthLength_bounds (M + Z.of_nat k)). lia.
Qed.

Lemma monthStart_mono M N :
  M <= N -> monthStart M + 28 * (N - M) <= monthStart N.
Proof.
  intros H. pose proof (monthStart_mono_nat (Z.to_nat (N - M)) M) as Hk.
  rewrite Z2Nat.id in Hk by lia.
  replace (M + (N - M)) with N in Hk by lia. exact Hk.
Qed.

Lemma monthStart_lt M N : M < N -> monthStart M < monthStart N.
Proof. intros H. pose proof (monthStart_mono M N). lia. Qed.

Lemma monthIndex_spec d :
  monthStart (monthIndex d) <= d < monthStart (monthIndex d + 1)
  /\ 0 <= MonthFromDay d < 12
  /\ DateFromDay d = d - monthStart (monthIndex d) + 1.
Proof.
  pose proof (YearFromDay_spec d) as Hy.
  rewrite DayFromYear_succ in Hy. unfold DaysInYear in Hy.
  unfold monthIndex, DateFromDay, MonthFromDay, DayWithinYear.
  set (y := YearFromDay d) in *. clearbody y.
  destruct (leapDays_01 y) as [Hl | Hl]; rewrite Hl in *.
  all: repeat match goal with
       | |- context [?a <? ?b] => destruct (Z.ltb_spec a b)
       end;
    match goal with
    | |- context [12 * ?y + 11] =>
        replace (12 * y + 11 + 1) with (12 * y + 12) by lia;
        rewrite monthStart_year_end, monthStart_split by lia
    | |- context [12 * ?y + ?m] =>
        replace (12 * y + m + 1) with (12 * y + (m + 1)) by lia;
        rewrite !monthStart_split by lia
    end; rewrite ?Hl; cbn; lia.
Qed.

Lemma monthIndex_unique M d :
  monthStart M <= d < monthStart (M + 1) -> monthIndex d = M.
Proof.
  intros H. destruct (monthIndex_spec d) as (Hd & _ & _).
  destruct (Z.lt_trichotomy (monthIndex d) M) as [Hlt | [Heq | Hgt]]; auto.
  - pose proof (monthStart_mono (monthIndex d + 1) M). lia.
  - pose proof (monthStart_mono (M + 1) (monthIndex d)). lia.
Qed.

Lemma YearFromDay_index d : YearFromDay d = monthIndex d / 12.
Proof.
  destruct (monthIndex_spec d) as (_ & Hm & _). unfold monthIndex. divmod.
Qed.

Lemma MonthFromDay_index d : MonthFromDay d = monthIndex d mod 12.
Proof.
  destruct (monthIndex_spec d) as (_ & Hm & _). unfold monthIndex. divmod.
Qed.

Lemma MakeDay_of_day d n :
  MakeDay (YearFromDay d) (MonthFromDay d) (DateFromDay d + n) = d + n.
Proof.
  rewrite MakeDay_monthStart. fold (monthIndex d).
  destruct (monthIndex_spec d) as (_ & _ & Hdt). lia.
Qed.

(* ================================================================= *)
(** * The [Date] object and date-fns *)
(* ================================================================= *)

Lemma TimeWithinDay_bounds t : 0 <= TimeWithinDay t < msPerDay.
Proof. unfold TimeWithinDay, msPerDay. divmod. Qed.

Lemma MakeDate_Day t : MakeDate (Day t) (TimeWithinDay t) = t.
Proof. unfold MakeDate, Day, TimeWithinDay, msPerDay. divmod. Qed.

Lemma Day_MakeDate d tm :
  0 <= tm < msPerDay -> Day (MakeDate d tm) = d.
Proof. unfold MakeDate, Day, msPerDay. intros. divmod. Qed.

Lemma TimeWithinDay_MakeDate d tm :
  0 <= tm < msPerDay -> TimeWithinDay (MakeDate d tm) = tm.
Proof. unfold MakeDate, TimeWithinDay, msPerDay. intros. divmod. Qed.

Lemma Day_add_days t n : Day (t + n * msPerDay) = Day t + n.
Proof. unfold Day, msPerDay. divmod. Qed.

Lemma Day_mono a b : a <= b -> Day a <= Day b.
Proof. unfold Day, msPerDay. intros. divmod. Qed.

Lemma Day_lt a b : Day a < Day b -> a < b.
Proof. unfold Day, msPerDay. intros. divmod. Qed.

Lemma Day_newDate_midnight d : Day (MakeDate d 0) = d.
Proof. apply Day_MakeDate. unfold msPerDay. lia. Qed.

Lemma getDay_range t : 0 <= getDay t < 7.
Proof. unfold getDay, WeekDay. divmod. Qed.

Lemma getMonth_range t : 0 <= getMonth t < 12.
Proof. unfold getMonth. apply monthIndex_spec. Qed.

Lemma getDate_range t :
  1 <= getDate t <= monthLength (monthIndex (Day t)).
Proof.
  rewrite monthLength_eq. unfold getDate.
  destruct (monthIndex_spec (Day t)) as (H & _ & ->). lia.
Qed.

Lemma setDate_eq t k :
  setDate t k = MakeDate (monthStart (monthIndex (Day t)) + k - 1) (TimeWithinDay t).
Proof.
  unfold setDate, getFullYear, getMonth. rewrite MakeDay_monthStart. reflexivity.
Qed.

(** [addDays] moves the time value by whole days. *)
Lemma addDays_eq t n : addDays t n = t + n * msPerDay.
Proof.
  unfold addDays. destruct (Z.eqb_spec n 0) as [-> | Hn]; [lia |].
  unfold setDate, getFullYear, getMonth, getDate.
  rewrite MakeDay_of_day. unfold MakeDate.
  pose proof (MakeDate_Day t) as H. unfold MakeDate in H. lia.
Qed.

Lemma getDay_addDays t n : getDay (addDays t n) = (getDay t + n) mod 7.
Proof.
  rewrite addDays_eq. unfold getDay, WeekDay. rewrite Day_add_days. divmod.
Qed.

(** [addMonths] lands in the month [amount] months later, on the
    original day of month or on that month's last day if it has fewer. *)
Lemma addMonths_eq t n :
  addMonths t n =
    MakeDate (monthStart (monthIndex (Day t) + n)
              + Z.min (getDate t) (monthLength (monthIndex (Day t) + n)) - 1)
             (TimeWithinDay t).
Proof.
  set (M := monthIndex (Day t) + n). pose proof (getDate_range t) as Hdt.
  pose proof (TimeWithinDay_bounds t) as Htm.
  unfold addMonths. destruct (Z.eqb_spec n 0) as [-> | Hn].
  - subst M. replace (monthIndex (Day t) + 0) with (monthIndex (Day t)) by lia.
    rewrite Z.min_l by lia. rewrite <- (MakeDate_Day t) at 1.
    f_equal. unfold getDate.
    destruct (monthIndex_spec (Day t)) as (_ & _ & ->). lia.
  - set (e := setMonth t (getMonth t + n + 1) 0).
    assert (He : Day e = monthStart (M + 1) - 1).
    { subst e. unfold setMonth. rewrite Day_MakeDate by assumption.
      rewrite MakeDay_monthStart. unfold getFullYear, getMonth.
      replace (12 * YearFromDay (Day t) + (MonthFromDay (Day t) + n + 1))
        with (M + 1) by (subst M; unfold monthIndex; lia).
      lia. }
    pose proof (monthLength_bounds M) as HL. rewrite monthLength_eq in HL.
    assert (Hi : monthIndex (Day e) = M)
      by (apply monthIndex_unique; lia).
    assert (Hg : getDate e = monthLength M).
    { unfold getDate. destruct (monthIndex_spec (Day e)) as (_ & _ & ->).
      rewrite Hi, He, monthLength_eq. lia. }
    rewrite Hg. destruct (Z.leb_spec (monthLength M) (getDate t)).
    + rewrite Z.min_r by lia. rewrite <- (MakeDate_Day e), He.
      replace (TimeWithinDay e) with (TimeWithinDay t)
        by (subst e; unfold setMonth;
            now rewrite TimeWithinDay_MakeDate by assumption).
      f_equal. rewrite monthLength_eq. lia.
    + rewrite Z.min_l by lia. unfold setFullYear. f_equal.
      rewrite MakeDay_monthStart. unfold getFullYear, getMonth.
      rewrite YearFromDay_index, MonthFromDay_index, Hi.
      replace (12 * (M / 12) + M mod 12) with M by divmod. lia.
Qed.

Lemma Day_addMonths t n :
  monthStart (monthIndex (Day t) + n) <= Day (addMonths t n)
  < monthStart (monthIndex (Day t) + n + 1).
Proof.
  rewrite addMonths_eq.
  rewrite Day_MakeDate by apply TimeWithinDay_bounds.
  pose proof (getDate_range t).
  pose proof (monthLength_bounds (monthIndex (Day t) + n)) as HL.
  rewrite monthLength_eq in *. lia.
Qed.

Lemma monthIndex_addMonths t n :
  monthIndex (Day (addMonths t n)) = monthIndex (Day t) + n.
Proof. apply monthIndex_unique, Day_addMonths. Qed.

Lemma TimeWithinDay_addMonths t n :
  TimeWithinDay (addMonths t n) = TimeWithinDay t.
Proof.
  rewrite addMonths_eq. apply TimeWithinDay_MakeDate, TimeWithinDay_bounds.
Qed.

(** A date in a later month is a later date. *)
Lemma later_month_later a b :
  monthIndex (Day a) < monthIndex (Day b) -> a < b.
Proof.
  intros H. apply Day_lt.
  destruct (monthIndex_spec (Day a)) as (Ha & _).
  destruct (monthIndex_spec (Day b)) as (Hb & _).
  pose proof (monthStart_mono (monthIndex (Day a) + 1) (monthIndex (Day b))).
  lia.
Qed.

Lemma addMonths_later t n : 1 <= n -> t < addMonths t n.
Proof.
  intros H. apply later_month_later. rewrite monthIndex_addMonths. lia.
Qed.

(* ================================================================= *)
(** * The weekday scans and [getNthWeekdayInMonth] *)
(* ================================================================= *)

Lemma dayNumber_range w : 0 <= dayNumber w < 7.
Proof. destruct w; cbn; lia. Qed.

Lemma MakeFullYear_ge y : y <= MakeFullYear y.
Proof.
  unfold MakeFullYear.
  destruct (Z.leb_spec 0 y), (Z.leb_spec y 99); cbn [andb]; lia.
Qed.

Lemma MakeFullYear_id y : ~ (0 <= y <= 99) -> MakeFullYear y = y.
Proof.
  unfold MakeFullYear.
  destruct (Z.leb_spec 0 y), (Z.leb_spec y 99); cbn [andb]; lia.
Qed.

Lemma newDate_eq y m dt :
  newDate y m dt = MakeDate (monthStart (12 * MakeFullYear y + m) + dt - 1) 0.
Proof. unfold newDate. rewrite MakeDay_monthStart. reflexivity. Qed.

(** The forward scan stops after [(weekday - getDay x) mod 7] steps. *)
Lemma scanWeekday_forward (k : nat) : forall fuel w x,
  (w - getDay x) mod 7 = Z.of_nat k -> 0 <= w < 7 -> (k < fuel)%nat ->
  scanWeekday fuel 1 w x = Some (addDays x (Z.of_nat k)).
Proof.
  induction k as [| k IH]; intros fuel w x Hk Hw Hf;
    (destruct fuel as [| fuel]; [lia |]); cbn [scanWeekday];
    pose proof (getDay_range x) as Hx.
  - replace (getDay x =? w) with true
      by (symmetry; apply Z.eqb_eq; divmod).
    rewrite addDays_eq. f_equal. lia.
  - replace (getDay x =? w) with false
      by (symmetry; apply Z.eqb_neq; divmod).
    rewrite (IH fuel w (addDays x 1)); try lia.
    + rewrite !addDays_eq. f_equal. lia.
    + rewrite getDay_addDays. divmod.
Qed.

(** The backward scan stops after [(getDay x - weekday) mod 7] steps. *)
Lemma scanWeekday_backward (k : nat) : forall fuel w x,
  (getDay x - w) mod 7 = Z.of_nat k -> 0 <= w < 7 -> (k < fuel)%nat ->
  scanWeekday fuel (-1) w x = Some (addDays x (- Z.of_nat k)).
Proof.
  induction k as [| k IH]; intros fuel w x Hk Hw Hf;
    (destruct fuel as [| fuel]; [lia |]); cbn [scanWeekday];
    pose proof (getDay_range x) as Hx.
  - replace (getDay x =? w) with true
      by (symmetry; apply Z.eqb_eq; divmod).
    rewrite addDays_eq. f_equal. lia.
  - replace (getDay x =? w) with false
      by (symmetry; apply Z.eqb_neq; divmod).
    rewrite (IH fuel w (addDays x (-1))); try lia.
    + rewrite !addDays_eq. f_equal. lia.
    + rewrite getDay_addDays. divmod.
Qed.

Lemma scanWeekday_forward_7 fuel w x :
  (7 <= fuel)%nat ->
  scanWeekday fuel 1 (dayNumber w) x
  = Some (addDays x ((dayNumber w - getDay x) mod 7)).
Proof.
  intros Hf. pose proof (dayNumber_range w) as Hw.
  assert (Hk : 0 <= (dayNumber w - getDay x) mod 7 < 7) by divmod.
  pose proof (scanWeekday_forward
                (Z.to_nat ((dayNumber w - getDay x) mod 7)) fuel (dayNumber w) x)
    as H.
  rewrite Z2Nat.id in H by lia. apply H; lia.
Qed.

Lemma scanWeekday_backward_7 fuel w x :
  (7 <= fuel)%nat ->
  scanWeekday fuel (-1) (dayNumber w) x
  = Some (addDays x (- ((getDay x - dayNumber w) mod 7))).
Proof.
  intros Hf. pose proof (dayNumber_range w) as Hw.
  assert (Hk : 0 <= (getDay x - dayNumber w) mod 7 < 7) by divmod.
  pose proof (scanWeekday_backward
                (Z.to_nat ((getDay x - dayNumber w) mod 7)) fuel (dayNumber w) x)
    as H.
  rewrite Z2Nat.id in H by lia. apply H; lia.
Qed.

Lemma forwardSteps_eq date w :
  forwardSteps date w = (dayNumber w - getDay (firstDayOfMonth date)) mod 7.
Proof. reflexivity. Qed.

Lemma backwardSteps_eq date w :
  backwardSteps date w = (getDay (lastDayOfMonth date) - dayNumber w) mod 7.
Proof. reflexivity. Qed.

Lemma forwardSteps_range date w : 0 <= forwardSteps date w < 7.
Proof. rewrite forwardSteps_eq. divmod. Qed.

Lemma backwardSteps_range date w : 0 <= backwardSteps date w < 7.
Proof. rewrite backwardSteps_eq. divmod. Qed.

Lemma getNthWeekdayInMonth_eq fuel date week weekday :
  (7 <= fuel)%nat ->
  getNthWeekdayInMonth fuel date week weekday
  = Some (nthWeekday date week weekday).
Proof.
  intros Hf. unfold getNthWeekdayInMonth, nthWeekday.
  rewrite scanWeekday_forward_7 by assumption.
  rewrite forwardSteps_eq, backwardSteps_eq.
  destruct week; try (rewrite !addDays_eq; f_equal; lia).
  rewrite scanWeekday_backward_7 by assumption. reflexivity.
Qed.

Lemma Day_firstDayOfMonth date :
  Day (firstDayOfMonth date) = monthStart (resolvedMonth date).
Proof.
  unfold firstDayOfMonth. rewrite newDate_eq, Day_newDate_midnight.
  fold (resolvedMonth date). lia.
Qed.

Lemma Day_lastDayOfMonth date :
  Day (lastDayOfMonth date) = monthStart (resolvedMonth date + 1) - 1.
Proof.
  unfold lastDayOfMonth. rewrite newDate_eq, Day_newDate_midnight.
  replace (12 * MakeFullYear (getFullYear date) + (getMonth date + 1))
    with (resolvedMonth date + 1) by (unfold resolvedMonth; lia).
  lia.
Qed.

Lemma firstDayOfMonth_midnight date :
  firstDayOfMonth date = MakeDate (monthStart (resolvedMonth date)) 0.
Proof.
  unfold firstDayOfMonth. rewrite newDate_eq. fold (resolvedMonth date).
  f_equal. lia.
Qed.

Lemma lastDayOfMonth_midnight date :
  lastDayOfMonth date = MakeDate (monthStart (resolvedMonth date + 1) - 1) 0.
Proof.
  unfold lastDayOfMonth. rewrite newDate_eq. f_equal.
  replace (12 * MakeFullYear (getFullYear date) + (getMonth date + 1))
    with (resolvedMonth date + 1) by (unfold resolvedMonth; lia).
  lia.
Qed.

Lemma resolvedMonth_ge date : monthIndex (Day date) <= resolvedMonth date.
Proof.
  unfold resolvedMonth, monthIndex, getFullYear, getMonth.
  pose proof (MakeFullYear_ge (YearFromDay (Day date))). lia.
Qed.

Lemma resolvedMonth_same date :
  ~ (0 <= getFullYear date <= 99) -> resolvedMonth date = monthIndex (Day date).
Proof.
  intros H. unfold resolvedMonth. rewrite MakeFullYear_id by assumption.
  reflexivity.
Qed.

(** The resolved date is a midnight inside the addressed month. *)
Lemma nthWeekday_midnight date week w :
  nthWeekday date week w = MakeDate (Day (nthWeekday date week w)) 0.
Proof.
  assert (H : forall d n, addDays (MakeDate d 0) n
                          = MakeDate (Day (addDays (MakeDate d 0) n)) 0).
  { intros d n. rewrite addDays_eq, Day_add_days, Day_newDate_midnight.
    unfold MakeDate. lia. }
  unfold nthWeekday.
  destruct week; rewrite ?firstDayOfMonth_midnight, ?lastDayOfMonth_midnight;
    apply H.
Qed.

Lemma Day_nthWeekday date week w :
  monthStart (resolvedMonth date) <= Day (nthWeekday date week w)
  < monthStart (resolvedMonth date + 1).
Proof.
  pose proof (forwardSteps_range date w).
  pose proof (backwardSteps_range date w).
  pose proof (monthLength_bounds (resolvedMonth date)) as HL.
  rewrite monthLength_eq in HL.
  unfold nthWeekday.
  destruct week; rewrite addDays_eq, Day_add_days,
    ?Day_firstDayOfMonth, ?Day_lastDayOfMonth; lia.
Qed.

Lemma getDay_nthWeekday date week w :
  getDay (nthWeekday date week w) = dayNumber w.
Proof.
  pose proof (dayNumber_range w) as Hw.
  pose proof (getDay_range (firstDayOfMonth date)) as HF.
  pose proof (getDay_range (lastDayOfMonth date)) as HL.
  unfold nthWeekday.
  destruct week; rewrite getDay_addDays, ?forwardSteps_eq, ?backwardSteps_eq;
    revert Hw HF HL;
    generalize (dayNumber w), (getDay (firstDayOfMonth date)),
      (getDay (lastDayOfMonth date));
    intros; divmod.
Qed.

(* ================================================================= *)
(** * One pass of the loop: [advance] *)
(* ================================================================= *)

(** With fuel for the two scans, [advance] returns and does not depend
    on the fuel. *)
Lemma advance_step fuel rule d :
  (7 <= fuel)%nat -> advance fuel rule d = Some (step rule d).
Proof.
  intros Hf.
  assert (H : advance fuel rule d = advance 7 rule d).
  { unfold advance. destruct (type rule); try reflexivity.
    destruct (monthDay rule) as [n |], (monthWeek rule), (monthWeekDay rule);
      try destruct (n =? 0); try reflexivity;
      now rewrite !getNthWeekdayInMonth_eq by lia. }
  unfold step. rewrite H.
  destruct (advance 7 rule d) eqn:E; [reflexivity |].
  exfalso. revert E. unfold advance. destruct (type rule); try discriminate.
  - destruct (daysOfWeek rule) as [[| ? ?] |]; discriminate.
  - destruct (monthDay rule) as [n |], (monthWeek rule), (monthWeekDay rule);
      try destruct (n =? 0); try discriminate;
      now rewrite getNthWeekdayInMonth_eq by lia.
Qed.

Lemma step_daily rule d :
  type rule = daily -> step rule d = addDays d (interval rule).
Proof. intros H. unfold step, advance. now rewrite H. Qed.

Lemma step_yearly rule d :
  type rule = yearly -> step rule d = addYears d (interval rule).
Proof. intros H. unfold step, advance. now rewrite H. Qed.

Lemma step_custom rule d : type rule = custom -> step rule d = d.
Proof. intros H. unfold step, advance. now rewrite H. Qed.

Lemma step_weekly_flat rule d :
  type rule = weekly ->
  daysOfWeek rule = None \/ daysOfWeek rule = Some [] ->
  step rule d = addDays d (7 * interval rule).
Proof.
  intros H [Hd | Hd]; unfold step, advance; now rewrite H, Hd.
Qed.

Lemma step_weekly_days rule d w ws :
  type rule = weekly -> daysOfWeek rule = Some (w :: ws) ->
  step rule d =
    addDays (addDays d (7 * interval rule))
      (Z.rem (nextDayOf (w :: ws) (getDay (addDays d (7 * interval rule)))
              - getDay (addDays d (7 * interval rule)) + 7) 7).
Proof. intros H Hd. unfold step, advance. now rewrite H, Hd. Qed.

Lemma step_monthly_day rule d n :
  type rule = monthly -> monthDay rule = Some n -> n <> 0 ->
  step rule d = setDate (addMonths d (interval rule)) n.
Proof.
  intros H Hn Hz. unfold step, advance. rewrite H, Hn.
  apply Z.eqb_neq in Hz. now rewrite Hz.
Qed.

Lemma step_monthly_weekday rule d week w :
  type rule = monthly ->
  monthDay rule = None \/ monthDay rule = Some 0 ->
  monthWeek rule = Some week -> monthWeekDay rule = Some w ->
  step rule d = nthWeekday (addMonths d (interval rule)) week w.
Proof.
  intros H [Hn | Hn] Hw Hd; unfold step, advance;
    rewrite H, Hn, Hw, Hd; cbn; now rewrite getNthWeekdayInMonth_eq by lia.
Qed.

Lemma step_monthly_same rule d :
  type rule = monthly ->
  monthDay rule = None \/ monthDay rule = Some 0 ->
  monthWeek rule = None \/ monthWeekDay rule = None ->
  step rule d = addMonths d (interval rule).
Proof.
  intros H [Hn | Hn] [Hw | Hw]; unfold step, advance; rewrite H, Hn, Hw;
    cbn; try reflexivity; now destruct (monthWeek rule).
Qed.

(** *** Forward progress *)

Lemma nextDayOf_range days c : 0 <= nextDayOf days c < 7.
Proof.
  unfold nextDayOf.
  assert (H : 0 <= match days with w :: _ => dayNumber w | [] => 0 end < 7)
    by (destruct days as [| w ?]; [lia | apply dayNumber_range]).
  destruct (find _ days) as [w |]; [| exact H].
  destruct (dayNumber w =? 0); [exact H | apply dayNumber_range].
Qed.

Lemma weekday_offset_nonneg nd cd :
  0 <= nd < 7 -> 0 <= cd < 7 -> 0 <= Z.rem (nd - cd + 7) 7 < 7.
Proof.
  intros Hn Hc. rewrite Z.rem_mod_nonneg by lia. divmod.
Qed.

Lemma setDate_later t n :
  1 <= n -> monthStart (monthIndex (Day t)) <= Day (setDate t n).
Proof.
  intros Hn. rewrite setDate_eq, Day_MakeDate by apply TimeWithinDay_bounds.
  lia.
Qed.

(** Every pass moves the cursor strictly forward for a rule that keeps
    the invariants of the data model. *)
Lemma step_progress rule d : validFields rule = true -> d < step rule d.
Proof.
  unfold validFields. intros H. apply andb_true_iff in H as [Hi Hv].
  apply Z.leb_le in Hi. destruct (type rule) eqn:Ht; try discriminate.
  - rewrite step_daily, addDays_eq by assumption. unfold msPerDay. lia.
  - destruct (daysOfWeek rule) as [[| w ws] |] eqn:Hd; try discriminate.
    rewrite (step_weekly_days _ _ w ws), !addDays_eq by assumption.
    pose proof (weekday_offset_nonneg
                  (nextDayOf (w :: ws) (getDay (d + 7 * interval rule * msPerDay)))
                  (getDay (d + 7 * interval rule * msPerDay))
                  (nextDayOf_range _ _) (getDay_range _)) as Ho.
    revert Ho. generalize (Z.rem
      (nextDayOf (w :: ws) (getDay (d + 7 * interval rule * msPerDay))
       - getDay (d + 7 * interval rule * msPerDay) + 7) 7).
    unfold msPerDay. lia.
  - destruct (monthDay rule) as [n |] eqn:Hn.
    + apply andb_true_iff in Hv as [Hlo _]. apply Z.leb_le in Hlo.
      rewrite (step_monthly_day _ _ n) by (assumption || lia).
      apply Day_lt.
      pose proof (setDate_later (addMonths d (interval rule)) n Hlo) as Hs.
      rewrite monthIndex_addMonths in Hs.
      destruct (monthIndex_spec (Day d)) as (Hd & _).
      pose proof (monthStart_mono (monthIndex (Day d) + 1)
                    (monthIndex (Day d) + interval rule)).
      lia.
    + destruct (monthWeek rule) as [week |] eqn:Hw;
        [destruct (monthWeekDay rule) as [w |] eqn:Hwd |].
      * rewrite (step_monthly_weekday _ _ week w) by auto.
        apply Day_lt.
        pose proof (Day_nthWeekday (addMonths d (interval rule)) week w) as Hr.
        pose proof (resolvedMonth_ge (addMonths d (interval rule))) as Hg.
        rewrite monthIndex_addMonths in Hg.
        destruct (monthIndex_spec (Day d)) as (Hd & _).
        pose proof (monthStart_mono (monthIndex (Day d) + 1)
                      (resolvedMonth (addMonths d (interval rule)))).
        lia.
      * rewrite step_monthly_same by auto. now apply addMonths_later.
      * rewrite step_monthly_same by auto. now apply addMonths_later.
  - rewrite step_yearly by assumption. unfold addYears.
    apply addMonths_later. lia.
Qed.

(* ================================================================= *)
(** * The loop of [generateOccurrences] *)
(* ================================================================= *)

Lemma generateLoop_eq rule count (n : nat) : forall fuel occurrences currentDate,
  count - Z.of_nat (length occurrences) <= Z.of_nat n ->
  (n + 8 <= fuel)%nat ->
  generateLoop fuel rule count occurrences currentDate
  = Some (occurrences
          ++ occurrencesFrom (Z.to_nat (count - Z.of_nat (length occurrences)))
               rule currentDate).
Proof.
  induction n as [| n IH]; intros fuel occ cur Hn Hf;
    (destruct fuel as [| fuel]; [lia |]); cbn [generateLoop].
  - destruct (Z.ltb_spec (Z.of_nat (length occ)) count); [lia |].
    replace (Z.to_nat (count - Z.of_nat (length occ))) with O by lia.
    cbn. now rewrite app_nil_r.
  - destruct (Z.ltb_spec (Z.of_nat (length occ)) count) as [Hlt | Hge].
    + rewrite advance_step by lia.
      destruct (Z.to_nat (count - Z.of_nat (length occ))) as [| k] eqn:Ek;
        [lia |].
      cbn [occurrencesFrom].
      destruct (pastEnd rule (step rule cur)); [now rewrite app_nil_r |].
      rewrite IH; rewrite ?length_app; cbn [length]; try lia.
      rewrite <- app_assoc. cbn [app].
      replace (Z.to_nat (count - Z.of_nat (length occ + 1))) with k by lia.
      reflexivity.
    + replace (Z.to_nat (count - Z.of_nat (length occ))) with O by lia.
      cbn. now rewrite app_nil_r.
Qed.

(** [generateOccurrences] returns, for every rule and count. *)
Lemma generateOccurrences_returns rule count :
  returns rule count
    (startDate rule
     :: occurrencesFrom (Z.to_nat (count - 1)) rule (startDate rule)).
Proof.
  exists (Z.to_nat (count - 1) + 8)%nat. intros fuel Hf.
  unfold generateOccurrences.
  rewrite (generateLoop_eq rule count (Z.to_nat (count - 1))); cbn [length];
    try lia.
  reflexivity.
Qed.

Lemma returns_unique rule count l1 l2 :
  returns rule count l1 -> returns rule count l2 -> l1 = l2.
Proof.
  intros [n1 H1] [n2 H2].
  specialize (H1 (Nat.max n1 n2) (Nat.le_max_l _ _)).
  specialize (H2 (Nat.max n1 n2) (Nat.le_max_r _ _)).
  congruence.
Qed.

Lemma occurrencesFrom_length n rule cur :
  (length (occurrencesFrom n rule cur) <= n)%nat.
Proof.
  revert cur. induction n as [| n IH]; intros cur; cbn; [lia |].
  destruct (pastEnd rule (step rule cur)); cbn; [lia |].
  specialize (IH (step rule cur)). lia.
Qed.

Lemma occurrencesFrom_no_end n rule cur :
  endDate rule = None -> length (occurrencesFrom n rule cur) = n.
Proof.
  intros He. revert cur. induction n as [| n IH]; intros cur; cbn; [easy |].
  unfold pastEnd. rewrite He. cbn. now rewrite IH.
Qed.

Lemma occurrencesFrom_stop n rule cur e :
  endDate rule = Some e -> e < step rule cur ->
  occurrencesFrom n rule cur = [].
Proof.
  intros He Hlt. destruct n as [| n]; cbn; [easy |].
  unfold pastEnd. rewrite He.
  apply Z.ltb_lt in Hlt. now rewrite Hlt.
Qed.

Lemma occurrencesFrom_bounded n rule cur e :
  endDate rule = Some e -> Forall (fun d => d <= e) (occurrencesFrom n rule cur).
Proof.
  intros He. revert cur. induction n as [| n IH]; intros cur; cbn; [constructor |].
  unfold pastEnd. rewrite He.
  destruct (Z.ltb_spec e (step rule cur)); constructor; [lia | apply IH].
Qed.



Lemma strictlyIncreasing_NoDup l : strictlyIncreasing l -> NoDup l.
Proof.
  induction 1 as [| d l Hs IH Hd]; constructor; [| assumption].
  intros Hin. rewrite Forall_forall in Hd. specialize (Hd d Hin). lia.
Qed.

(* ================================================================= *)
(** * Properties of the generated sequence *)
(* ================================================================= *)

(** [generateOccurrences] is bounded by its count.  With a count of 5 and
    no [endDate] it returns exactly 5 dates, for every rule; with [endDate]
    equal to [startDate] a rule that keeps the invariants yields exactly
    [[startDate]]; and the call returns for every rule and count. *)
Lemma generateOccurrences_bounded :
  (forall rule, endDate rule = None ->
     exists l, returns rule 5 l /\ length l = 5%nat)
  /\ (forall rule count,
        validFields rule = true -> endDate rule = Some (startDate rule) ->
        returns rule count [startDate rule])
  /\ (forall rule count, exists l, returns rule count l).
Proof.
  split; [| split].
  - intros rule He. eexists. split; [apply generateOccurrences_returns |].
    cbn [length]. now rewrite occurrencesFrom_no_end.
  - intros rule count Hv He.
    pose proof (generateOccurrences_returns rule count) as H.
    rewrite (occurrencesFrom_stop _ _ _ (startDate rule)) in H;
      auto using step_progress.
  - intros rule count. eexists. apply generateOccurrences_returns.
Qed.

Lemma generateOccurrences_bounded_witness :
  (exists l, returns (ruleOf weekly 2 jan1_2024 None) 5 l /\ length l = 5%nat)
  /\ returns (ruleOf monthly 1 jan1_2024 (Some jan1_2024)) 30 [jan1_2024].
Proof.
  split.
  - apply (proj1 generateOccurrences_bounded (ruleOf weekly 2 jan1_2024 None)).
    reflexivity.
  - apply (proj1 (proj2 generateOccurrences_bounded)
             (ruleOf monthly 1 jan1_2024 (Some jan1_2024)) 30);
      reflexivity.
Defined.



(* ================================================================= *)
(** * Weekly rules with selected weekdays *)
(* ================================================================= *)

Lemma daysAfter_eq t n : daysAfter t n = t + n * msPerDay.
Proof. reflexivity. Qed.

Lemma getDay_daysAfter t n : getDay (daysAfter t n) = (getDay t + n) mod 7.
Proof. rewrite daysAfter_eq, <- addDays_eq. apply getDay_addDays. Qed.

Lemma occurrencesFrom_S_no_end n rule d :
  endDate rule = None ->
  occurrencesFrom (S n) rule d
  = step rule d :: occurrencesFrom n rule (step rule d).
Proof. intros He. cbn. unfold pastEnd. now rewrite He. Qed.

Section MonWedFri.

Variable rule : RecurrenceRule.
Hypothesis Htype : type rule = weekly.
Hypothesis Hinterval : interval rule = 1.
Hypothesis Hdays : daysOfWeek rule = Some [Monday; Wednesday; Friday].

(** From a cursor on weekday [c], the pass jumps a whole week and then on
    to the next selected weekday. *)
Lemma step_monWedFri d c off :
  getDay d = c ->
  Z.rem (nextDayOf [Monday; Wednesday; Friday] ((c + 7) mod 7)
         - (c + 7) mod 7 + 7) 7 = off ->
  step rule d = daysAfter d (7 + off).
Proof.
  intros Hc Hoff.
  rewrite (step_weekly_days rule d Monday [Wednesday; Friday]) by assumption.
  rewrite Hinterval. replace (7 * 1) with 7 by reflexivity.
  rewrite getDay_addDays, Hc, Hoff, !addDays_eq, daysAfter_eq. lia.
Qed.

Lemma step_from_monday d : getDay d = 1 -> step rule d = daysAfter d 9.
Proof. intros H. now apply (step_monWedFri d 1 2). Qed.

Lemma step_from_wednesday d : getDay d = 3 -> step rule d = daysAfter d 9.
Proof. intros H. now apply (step_monWedFri d 3 2). Qed.

Lemma step_from_friday d : getDay d = 5 -> step rule d = daysAfter d 10.
Proof. intros H. now apply (step_monWedFri d 5 3). Qed.

End MonWedFri.

Lemma daysAfter_daysAfter t a b : daysAfter (daysAfter t a) b = daysAfter t (a + b).
Proof. rewrite !daysAfter_eq. lia. Qed.

(** Weekly, every week, Monday/Wednesday/Friday, starting on a Monday:
    the code emits the start, then the Wednesday 9 days later, the Friday
    18 days later, and Monday, Wednesday, Friday 28, 37 and 46 days later;
    not the dates 0, 2, 4, 7, 9, 11 days after the start. *)
Lemma monWedFri_first_six start :
  getDay start = 1 ->
  returns (monWedFri start) 6 (map (daysAfter start) [0; 9; 18; 28; 37; 46])
  /\ map getDay (map (daysAfter start) [0; 9; 18; 28; 37; 46])
     = [1; 3; 5; 1; 3; 5]
  /\ ~ returns (monWedFri start) 6 (map (daysAfter start) [0; 2; 4; 7; 9; 11]).
Proof.
  intros Hmon.
  assert (Hday : forall n, getDay (daysAfter start n) = (1 + n) mod 7)
    by (intros n; now rewrite getDay_daysAfter, Hmon).
  assert (Hret : returns (monWedFri start) 6
                   (map (daysAfter start) [0; 9; 18; 28; 37; 46])).
  { pose proof (generateOccurrences_returns (monWedFri start) 6) as H.
    replace (Z.to_nat (6 - 1)) with 5%nat in H by reflexivity.
    replace (startDate (monWedFri start)) with start in H by reflexivity.
    rewrite !occurrencesFrom_S_no_end in H by reflexivity.
    cbn [occurrencesFrom] in H.
    assert (S1 : step (monWedFri start) start = daysAfter start 9)
      by (now apply step_from_monday).
    assert (S2 : step (monWedFri start) (daysAfter start 9)
                 = daysAfter start 18)
      by (rewrite (step_from_wednesday (monWedFri start)),
            daysAfter_daysAfter; try reflexivity; now rewrite Hday).
    assert (S3 : step (monWedFri start) (daysAfter start 18)
                 = daysAfter start 28)
      by (rewrite (step_from_friday (monWedFri start)),
            daysAfter_daysAfter; try reflexivity; now rewrite Hday).
    assert (S4 : step (monWedFri start) (daysAfter start 28)
                 = daysAfter start 37)
      by (rewrite (step_from_monday (monWedFri start)),
            daysAfter_daysAfter; try reflexivity; now rewrite Hday).
    assert (S5 : step (monWedFri start) (daysAfter start 37)
                 = daysAfter start 46)
      by (rewrite (step_from_wednesday (monWedFri start)),
            daysAfter_daysAfter; try reflexivity; now rewrite Hday).
    rewrite S1, S2, S3, S4, S5 in H.
    cbn [map]. replace (daysAfter start 0) with start
      by (rewrite daysAfter_eq; lia).
    exact H. }
  split; [exact Hret |]. split.
  - cbn [map]. now rewrite !Hday.
  - intros Hbad. pose proof (returns_unique _ _ _ _ Hret Hbad) as E.
    cbn [map] in E. injection E as _ E _. rewrite !daysAfter_eq in E.
    unfold msPerDay in E. lia.
Qed.

(** C3 -- From Monday 1 January 2024 the first six occurrences of the
    weekly Monday/Wednesday/Friday rule are 1, 10, 19, 29 January and 7,
    16 February 2024: they fall on Mon, Wed, Fri, Mon, Wed, Fri, but not in
    the start week and the week after it (1, 3, 5, 8, 10, 12 January). *)
Theorem monWedFri_from_monday_1_january_2024 :
  returns (monWedFri jan1_2024) 6
    [newDate 2024 0 1; newDate 2024 0 10; newDate 2024 0 19;
     newDate 2024 0 29; newDate 2024 1 7; newDate 2024 1 16]
  /\ map getDay [newDate 2024 0 1; newDate 2024 0 10; newDate 2024 0 19;
                 newDate 2024 0 29; newDate 2024 1 7; newDate 2024 1 16]
     = [1; 3; 5; 1; 3; 5]
  /\ ~ returns (monWedFri jan1_2024) 6
         [newDate 2024 0 1; newDate 2024 0 3; newDate 2024 0 5;
          newDate 2024 0 8; newDate 2024 0 10; newDate 2024 0 12].
Proof.
  destruct (monWedFri_first_six jan1_2024 eq_refl) as (Hret & Hdays & Hnot).
  assert (E1 : map (daysAfter jan1_2024) [0; 9; 18; 28; 37; 46]
               = [newDate 2024 0 1; newDate 2024 0 10; newDate 2024 0 19;
                  newDate 2024 0 29; newDate 2024 1 7; newDate 2024 1 16])
    by (vm_compute; reflexivity).
  assert (E2 : map (daysAfter jan1_2024) [0; 2; 4; 7; 9; 11]
               = [newDate 2024 0 1; newDate 2024 0 3; newDate 2024 0 5;
                  newDate 2024 0 8; newDate 2024 0 10; newDate 2024 0 12])
    by (vm_compute; reflexivity).
  rewrite E1 in Hret, Hdays. rewrite E2 in Hnot. auto.
Qed.

(* ================================================================= *)
(** * Monthly rules on a day of the month *)
(* ================================================================= *)

(** [setDate] past the end of the month carries into the next month. *)
Lemma setDate_overflow t n :
  monthLength (monthIndex (Day t)) < n <= 31 ->
  monthIndex (Day (setDate t n)) = monthIndex (Day t) + 1
  /\ getDate (setDate t n) = n - monthLength (monthIndex (Day t)).
Proof.
  intros Hn.
  pose proof (monthLength_bounds (monthIndex (Day t))) as H0.
  pose proof (monthLength_bounds (monthIndex (Day t) + 1)) as H1.
  rewrite monthLength_eq in *.
  replace (monthIndex (Day t) + 1 + 1) with (monthIndex (Day t) + 2) in H1
    by lia.
  assert (Hd : Day (setDate t n) = monthStart (monthIndex (Day t)) + n - 1)
    by (rewrite setDate_eq; apply Day_MakeDate, TimeWithinDay_bounds).
  assert (Hi : monthIndex (Day (setDate t n)) = monthIndex (Day t) + 1).
  { apply monthIndex_unique. rewrite Hd.
    replace (monthIndex (Day t) + 1 + 1) with (monthIndex (Day t) + 2) by lia.
    lia. }
  split; [exact Hi |].
  unfold getDate. destruct (monthIndex_spec (Day (setDate t n))) as (_ & _ & ->).
  rewrite Hi, Hd. lia.
Qed.

(** A monthly rule on day [monthDay] whose target month is shorter than
    [monthDay]: the code does not clamp, the candidate is in the month
    after the target month, on day [monthDay] minus the length of the
    target month. *)
Lemma monthDay_rolls_into_next_month rule d n :
  type rule = monthly -> monthDay rule = Some n ->
  monthLength (monthIndex (Day d) + interval rule) < n <= 31 ->
  monthIndex (Day (step rule d)) = monthIndex (Day d) + interval rule + 1
  /\ getDate (step rule d)
     = n - monthLength (monthIndex (Day d) + interval rule).
Proof.
  intros Ht Hn Hlen.
  pose proof (monthLength_bounds (monthIndex (Day d) + interval rule)).
  rewrite (step_monthly_day rule d n) by (assumption || lia).
  rewrite <- (monthIndex_addMonths d (interval rule)) in *.
  now apply setDate_overflow.
Qed.

Lemma monthDay_rolls_into_next_month_example :
  let rule := withMonthDay (ruleOf monthly 1 (newDate 2024 2 31) None) 31 in
  monthIndex (Day (step rule (newDate 2024 2 31)))
  = monthIndex (Day (newDate 2024 2 31)) + interval rule + 1
  /\ getDate (step rule (newDate 2024 2 31))
     = 31 - monthLength (monthIndex (Day (newDate 2024 2 31)) + interval rule).
Proof.
  apply (monthDay_rolls_into_next_month
           (withMonthDay (ruleOf monthly 1 (newDate 2024 2 31) None) 31)
           (newDate 2024 2 31) 31); [reflexivity | reflexivity |].
  vm_compute. split; [reflexivity | discriminate].
Qed.

(** C4 -- 31 March 2024, every month on day 31.  The target month April
    has 30 days; [addMonths] gives 30 April and [setDate(31)] moves on to
    1 May 2024: the occurrences are 31 March, 1 May, 1 July, and 30 April
    is not among them.  The monthly branch without [monthDay] keeps
    30 April. *)
Theorem monthDay_31_not_clamped :
  addMonths (newDate 2024 2 31) 1 = newDate 2024 3 30
  /\ setDate (newDate 2024 3 30) 31 = newDate 2024 4 1
  /\ returns (withMonthDay (ruleOf monthly 1 (newDate 2024 2 31) None) 31) 3
       [newDate 2024 2 31; newDate 2024 4 1; newDate 2024 6 1]
  /\ returns (ruleOf monthly 1 (newDate 2024 2 31) None) 3
       [newDate 2024 2 31; newDate 2024 3 30; newDate 2024 4 30].
Proof.
  split; [vm_compute; reflexivity |]. split; [vm_compute; reflexivity |].
  split.
  - pose proof (generateOccurrences_returns
                  (withMonthDay (ruleOf monthly 1 (newDate 2024 2 31) None) 31) 3)
      as H.
    assert (E : startDate
                  (withMonthDay (ruleOf monthly 1 (newDate 2024 2 31) None) 31)
                :: occurrencesFrom (Z.to_nat (3 - 1))
                     (withMonthDay (ruleOf monthly 1 (newDate 2024 2 31) None) 31)
                     (startDate
                        (withMonthDay
                           (ruleOf monthly 1 (newDate 2024 2 31) None) 31))
                = [newDate 2024 2 31; newDate 2024 4 1; newDate 2024 6 1])
      by (vm_compute; reflexivity).
    rewrite E in H. exact H.
  - pose proof (generateOccurrences_returns
                  (ruleOf monthly 1 (newDate 2024 2 31) None) 3) as H.
    assert (E : startDate (ruleOf monthly 1 (newDate 2024 2 31) None)
                :: occurrencesFrom (Z.to_nat (3 - 1))
                     (ruleOf monthly 1 (newDate 2024 2 31) None)
                     (startDate (ruleOf monthly 1 (newDate 2024 2 31) None))
                = [newDate 2024 2 31; newDate 2024 3 30; newDate 2024 4 30])
      by (vm_compute; reflexivity).
    rewrite E in H. exact H.
Qed.

(* ================================================================= *)
(** * Rules that do not advance *)
(* ================================================================= *)

Lemma occurrencesFrom_stuck n rule d :
  step rule d = d -> pastEnd rule d = false ->
  occurrencesFrom n rule d = repeat d n.
Proof.
  intros Hs Hp. induction n as [| n IH]; cbn; [reflexivity |].
  now rewrite Hs, Hp, IH.
Qed.

Lemma step_interval_zero rule d :
  type rule = daily \/ type rule = yearly -> interval rule = 0 ->
  step rule d = d.
Proof.
  intros [Ht | Ht] Hi.
  - rewrite step_daily, Hi by assumption. reflexivity.
  - rewrite step_yearly, Hi by assumption. reflexivity.
Qed.

(** C5 (as the code has it) -- There is no forward-progress check and no
    error result.  A daily or yearly rule with interval 0 whose [endDate]
    is absent or not before [startDate] makes the generator return [count]
    copies of [startDate]; only the count ends the loop. *)
Theorem generateOccurrences_no_progress_check rule count :
  type rule = daily \/ type rule = yearly -> interval rule = 0 ->
  (forall e, endDate rule = Some e -> startDate rule <= e) ->
  1 <= count ->
  returns rule count (repeat (startDate rule) (Z.to_nat count)).
Proof.
  intros Ht Hi He Hc.
  pose proof (generateOccurrences_returns rule count) as H.
  rewrite occurrencesFrom_stuck in H.
  - replace (Z.to_nat count) with (S (Z.to_nat (count - 1))) by lia. exact H.
  - now apply step_interval_zero.
  - unfold pastEnd. destruct (endDate rule) as [e |]; [| reflexivity].
    apply Z.ltb_ge. now apply He.
Qed.

Lemma generateOccurrences_no_progress_check_witness :
  returns (ruleOf daily 0 jan1_2024 None) 3 [jan1_2024; jan1_2024; jan1_2024].
Proof.
  apply (generateOccurrences_no_progress_check (ruleOf daily 0 jan1_2024 None) 3).
  - left. reflexivity.
  - reflexivity.
  - discriminate.
  - lia.
Defined.

(** C5 (as stated) fails: with interval 0 the generator does not stop at
    the prefix [[startDate]]; it returns a list that is not strictly
    increasing. *)
Lemma interval_zero_emits_repeats :
  exists l, returns (ruleOf daily 0 jan1_2024 None) 3 l
            /\ l <> [jan1_2024] /\ ~ strictlyIncreasing l.
Proof.
  exists [jan1_2024; jan1_2024; jan1_2024]. split; [| split].
  - pose proof (generateOccurrences_returns (ruleOf daily 0 jan1_2024 None) 3)
      as H.
    rewrite occurrencesFrom_stuck in H; [exact H | reflexivity | reflexivity].
  - discriminate.
  - intros H. inversion H as [| ? ? _ Hall]; subst.
    inversion Hall as [| ? ? Hlt _]; subst. lia.
Qed.

(* ================================================================= *)
(** * The end-date test *)
(* ================================================================= *)

Lemma last_default_irrelevant (x : Date) xs d d' :
  List.last (x :: xs) d = List.last (x :: xs) d'.
Proof.
  revert x. induction xs as [| y ys IH]; intros x; [reflexivity |].
  change (List.last (y :: ys) d = List.last (y :: ys) d'). apply IH.
Qed.

(** The loop stops for one of two reasons: the count is reached, or the
    next candidate is past [endDate]. *)
Lemma occurrencesFrom_stop_reason n rule : forall cur,
  length (occurrencesFrom n rule cur) = n
  \/ pastEnd rule (step rule (List.last (occurrencesFrom n rule cur) cur)) = true.
Proof.
  induction n as [| n IH]; intros cur; [now left |].
  cbn [occurrencesFrom].
  destruct (pastEnd rule (step rule cur)) eqn:E; [now right |].
  destruct (IH (step rule cur)) as [H | H].
  - left. cbn. now rewrite H.
  - right.
    destruct (occurrencesFrom n rule (step rule cur)) as [| x xs] eqn:El;
      [exact H |].
    change (List.last (step rule cur :: x :: xs) cur)
      with (List.last (x :: xs) cur).
    now rewrite (last_default_irrelevant x xs cur (step rule cur)).
Qed.

(** [currentDate > rule.endDate] compares time values: on the calendar
    day of [endDate] it is the time of day that decides. *)
Lemma pastEnd_same_day rule d e :
  endDate rule = Some e -> Day d = Day e ->
  pastEnd rule d = (TimeWithinDay e <? TimeWithinDay d).
Proof.
  intros He Hd. unfold pastEnd. rewrite He.
  rewrite <- (MakeDate_Day d) at 1. rewrite <- (MakeDate_Day e) at 1.
  rewrite Hd. generalize (Day e), (TimeWithinDay e), (TimeWithinDay d).
  intros x te td. unfold MakeDate.
  destruct (Z.ltb_spec (x * msPerDay + te) (x * msPerDay + td)),
    (Z.ltb_spec te td); try reflexivity; lia.
Qed.

(** C6 -- Start on 1 January 2024 at 12:00, daily, [endDate] 3 January
    2024 at 00:00: the candidate of 3 January 12:00 is on the calendar day
    of [endDate], and [generateOccurrences] leaves it out, while
    [calculateRecurringDates] keeps it. *)
Theorem endDate_compared_with_time_of_day :
  returns (ruleOf daily 1 jan1_2024_noon (Some (newDate 2024 0 3))) 30
    [jan1_2024_noon; daysAfter jan1_2024_noon 1]
  /\ sameDateString (daysAfter jan1_2024_noon 2) (newDate 2024 0 3) = true
  /\ App.calculateRecurringDates 10 App.daily 1 jan1_2024_noon
       (Some (newDate 2024 0 3))
     = Some [jan1_2024_noon; daysAfter jan1_2024_noon 1;
             daysAfter jan1_2024_noon 2].
Proof.
  split; [| split; vm_compute; reflexivity].
  pose proof (generateOccurrences_returns
                (ruleOf daily 1 jan1_2024_noon (Some (newDate 2024 0 3))) 30)
    as H.
  assert (E : startDate (ruleOf daily 1 jan1_2024_noon (Some (newDate 2024 0 3)))
              :: occurrencesFrom (Z.to_nat (30 - 1))
                   (ruleOf daily 1 jan1_2024_noon (Some (newDate 2024 0 3)))
                   (startDate
                      (ruleOf daily 1 jan1_2024_noon (Some (newDate 2024 0 3))))
              = [jan1_2024_noon; daysAfter jan1_2024_noon 1])
    by (vm_compute; reflexivity).
  rewrite E in H. exact H.
Qed.

(** With both dates at midnight the candidate on [endDate] is kept. *)
Example endDate_at_same_time_included :
  generateOccurrences 40 (ruleOf daily 1 jan1_2024 (Some (newDate 2024 0 3))) 30
  = Some [jan1_2024; daysAfter jan1_2024 1; daysAfter jan1_2024 2].
Proof. vm_compute. reflexivity. Qed.

(* ================================================================= *)
(** * App.js: [calculateRecurringDates] *)
(* ================================================================= *)

(** Without an end date the loop condition is always true. *)
Lemma calculateLoop_no_end fuel : forall freq interval dates current,
  App.calculateLoop fuel freq interval None dates current = None.
Proof.
  induction fuel as [| fuel IH]; intros; cbn; [reflexivity | apply IH].
Qed.

Lemma calculateRecurringDates_no_end fuel freq interval start :
  App.calculateRecurringDates fuel freq interval start None = None.
Proof. apply calculateLoop_no_end. Qed.

(** With interval 0 the cursor never moves: no fuel is enough once the
    loop is entered. *)
Lemma calculateLoop_interval_zero fuel : forall end_ dates current,
  App.keepGoing current end_ = true ->
  App.calculateLoop fuel App.daily 0 end_ dates current = None.
Proof.
  induction fuel as [| fuel IH]; intros end_ dates current Hk; cbn;
    [reflexivity |].
  rewrite Hk. apply IH, Hk.
Qed.

(** An end date on an earlier calendar day gives the empty list. *)
Lemma calculateRecurringDates_end_before_start fuel freq interval start e :
  Day e < Day start ->
  App.calculateRecurringDates (S fuel) freq interval start (Some e) = Some [].
Proof.
  intros H. cbn. unfold isBefore, sameDateString.
  replace (start <? e) with false
    by (symmetry; apply Z.ltb_ge; apply Day_lt in H; lia).
  replace (Day start =? Day e) with false
    by (symmetry; apply Z.eqb_neq; lia).
  reflexivity.
Qed.

(* ================================================================= *)
(** * [getNthWeekdayInMonth] *)
(* ================================================================= *)

Lemma getDate_in_month M t :
  monthStart M <= Day t < monthStart (M + 1) ->
  monthIndex (Day t) = M /\ getDate t = Day t - monthStart M + 1.
Proof.
  intros H. pose proof (monthIndex_unique M (Day t) H) as Hi.
  split; [exact Hi |]. unfold getDate.
  destruct (monthIndex_spec (Day t)) as (_ & _ & ->). now rewrite Hi.
Qed.

Lemma Day_addDays t n : Day (addDays t n) = Day t + n.
Proof. rewrite addDays_eq. apply Day_add_days. Qed.

Lemma forward_scan_minimal g w i :
  0 <= g < 7 -> 0 <= w < 7 -> 0 <= i < (w - g) mod 7 -> (g + i) mod 7 <> w.
Proof. intros. divmod. Qed.

Lemma backward_scan_minimal g w i :
  0 <= g < 7 -> 0 <= w < 7 -> 0 <= i < (g - w) mod 7 -> (g + - i) mod 7 <> w.
Proof. intros. divmod. Qed.

Lemma midnight_le d1 d2 : d1 <= d2 -> MakeDate d1 0 <= MakeDate d2 0.
Proof. unfold MakeDate, msPerDay. lia. Qed.

(** On time values.  [getNthWeekdayInMonth] returns for every input.  The
    result is the first date with the given weekday on or after the first day
    of the month (at most 6 days after it), plus 0, 7, 14 or 21 days for first
    to fourth, and, for last, the last date with the weekday on or before the
    final day of the month (at most 6 days before it); it lies inside the
    month.  When the first such weekday is the 3rd the second is the 10th;
    when the month ends on a Thursday the last Friday is 6 days earlier. *)
Lemma getNthWeekdayInMonth_scans date week weekday :
  exists r firstWeekday,
    (forall fuel, (7 <= fuel)%nat ->
       getNthWeekdayInMonth fuel date week weekday = Some r)
    /\ (getDate (firstDayOfMonth date) = 1
        /\ monthIndex (Day (lastDayOfMonth date))
           = monthIndex (Day (firstDayOfMonth date))
        /\ getDate (addDays (lastDayOfMonth date) 1) = 1)
    /\ (firstWeekday = addDays (firstDayOfMonth date) (forwardSteps date weekday)
        /\ 0 <= forwardSteps date weekday < 7
        /\ getDay firstWeekday = dayNumber weekday
        /\ forall i, 0 <= i < forwardSteps date weekday ->
             getDay (addDays (firstDayOfMonth date) i) <> dayNumber weekday)
    /\ (0 <= backwardSteps date weekday < 7
        /\ forall i, 0 <= i < backwardSteps date weekday ->
             getDay (addDays (lastDayOfMonth date) (- i)) <> dayNumber weekday)
    /\ r = match week with
           | first => firstWeekday
           | second => addDays firstWeekday 7
           | third => addDays firstWeekday 14
           | fourth => addDays firstWeekday 21
           | last => addDays (lastDayOfMonth date) (- backwardSteps date weekday)
           end
    /\ getDay r = dayNumber weekday
    /\ firstDayOfMonth date <= r <= lastDayOfMonth date
    /\ (week = second -> getDate firstWeekday = 3 -> getDate r = 10)
    /\ (week = last -> weekday = Friday -> getDay (lastDayOfMonth date) = 4 ->
        r = addDays (lastDayOfMonth date) (-6)).
Proof.
  pose proof (forwardSteps_range date weekday) as Hk.
  pose proof (backwardSteps_range date weekday) as Hj.
  pose proof (dayNumber_range weekday) as Hw.
  pose proof (getDay_range (firstDayOfMonth date)) as HgF.
  pose proof (getDay_range (lastDayOfMonth date)) as HgL.
  pose proof (monthLength_bounds (resolvedMonth date)) as HL.
  pose proof (monthLength_bounds (resolvedMonth date + 1)) as HL1.
  rewrite monthLength_eq in HL, HL1.
  pose proof (Day_firstDayOfMonth date) as HF.
  pose proof (Day_lastDayOfMonth date) as HLd.
  pose proof (Day_nthWeekday date week weekday) as Hr.
  exists (nthWeekday date week weekday),
    (addDays (firstDayOfMonth date) (forwardSteps date weekday)).
  split; [intros fuel Hf; now apply getNthWeekdayInMonth_eq |].
  split; [| split; [| split; [| split; [| split; [| split; [| split]]]]]].
  - destruct (getDate_in_month (resolvedMonth date) (firstDayOfMonth date))
      as [Hi1 Hd1]; [lia |].
    destruct (getDate_in_month (resolvedMonth date) (lastDayOfMonth date))
      as [Hi2 _]; [lia |].
    destruct (getDate_in_month (resolvedMonth date + 1)
                (addDays (lastDayOfMonth date) 1)) as [_ Hd3];
      [rewrite Day_addDays; lia |].
    rewrite Day_addDays in Hd3. repeat split; lia || congruence.
  - repeat split; try lia.
    + apply (getDay_nthWeekday date first weekday).
    + intros i Hi. rewrite getDay_addDays. rewrite forwardSteps_eq in Hi.
      now apply forward_scan_minimal.
  - repeat split; try lia.
    intros i Hi. rewrite getDay_addDays. rewrite backwardSteps_eq in Hi.
    now apply backward_scan_minimal.
  - unfold nthWeekday. destruct week; rewrite ?addDays_eq; lia.
  - apply getDay_nthWeekday.
  - rewrite nthWeekday_midnight, firstDayOfMonth_midnight,
      lastDayOfMonth_midnight.
    split; apply midnight_le; lia.
  - intros -> H3.
    destruct (getDate_in_month (resolvedMonth date)
                (addDays (firstDayOfMonth date) (forwardSteps date weekday)))
      as [_ Hd]; [rewrite Day_addDays; lia |].
    destruct (getDate_in_month (resolvedMonth date)
                (nthWeekday date second weekday)) as [_ Hd2]; [lia |].
    rewrite Hd2. rewrite Hd in H3. rewrite Day_addDays in H3.
    change (nthWeekday date second weekday)
      with (addDays (firstDayOfMonth date) (forwardSteps date weekday + 7)).
    rewrite Day_addDays. lia.
  - intros -> -> H4.
    change (nthWeekday date last Friday)
      with (addDays (lastDayOfMonth date) (- backwardSteps date Friday)).
    rewrite backwardSteps_eq, H4. reflexivity.
Qed.

Example second_tuesday_september_2024 :
  getNthWeekdayInMonth 7 (newDate 2024 8 15) second Tuesday
  = Some (newDate 2024 8 10).
Proof. vm_compute. reflexivity. Qed.

(** October 2024 has 31 days and ends on a Thursday. *)
Example last_friday_october_2024 :
  getDay (lastDayOfMonth (newDate 2024 9 15)) = 4
  /\ getDate (lastDayOfMonth (newDate 2024 9 15)) = 31
  /\ getNthWeekdayInMonth 7 (newDate 2024 9 15) last Friday
     = Some (newDate 2024 9 25).
Proof. vm_compute. repeat split. Qed.

(** February 2026 has four Sundays: fourth and last coincide. *)
Example fourth_is_last_february_2026 :
  getNthWeekdayInMonth 7 (newDate 2026 1 10) fourth Sunday
  = getNthWeekdayInMonth 7 (newDate 2026 1 10) last Sunday.
Proof. vm_compute. reflexivity. Qed.

(** The constructor reads a year in 0..99 as 1900 + year: for a date in
    March of the year 50 the month resolved is March 1950. *)
Example two_digit_year :
  let date := setFullYear 0 50 2 15 in
  (getFullYear date, getMonth date) = (50, 2)
  /\ (getFullYear (firstDayOfMonth date), getMonth (firstDayOfMonth date))
     = (1950, 2).
Proof. vm_compute. split; reflexivity. Qed.

(* ================================================================= *)
(** * The edit handlers: what reaches the generator *)
(* ================================================================= *)

Lemma sameDay_refl d : Options.sameDay d d = true.
Proof. apply Z.eqb_refl. Qed.

Lemma handleDayToggle_only_day rule day :
  daysOfWeek rule = Some [day] ->
  daysOfWeek (Options.handleDayToggle rule day) = Some [].
Proof.
  intros H. unfold Options.handleDayToggle. rewrite H. cbn.
  now rewrite sameDay_refl.
Qed.

(** C9 (as the code has it) -- The source has no [validate] and no
    validation error: the edit handlers hand their rule to the generator
    unchecked.  An interval typed as 0 or as no number becomes 1, a
    negative one is kept; toggling off the only selected weekday leaves a
    weekly rule with an empty [daysOfWeek].  Both rules break the
    invariants, and [generateOccurrences] still returns a list for them. *)
Theorem edit_handlers_do_not_validate rule day n count start end_ :
  type rule = weekly -> daysOfWeek rule = Some [day] -> n < 0 ->
  (Options.intervalInput (Some 0) = 1 /\ Options.intervalInput None = 1
   /\ Options.intervalInput (Some n) = n)
  /\ (validRule (Options.onChange start end_
                   (Options.handleIntervalChange rule
                      (Options.intervalInput (Some n)))) = false
      /\ exists l,
           returns (Options.onChange start end_
                      (Options.handleIntervalChange rule
                         (Options.intervalInput (Some n)))) count l)
  /\ (daysOfWeek (Options.onChange start end_
                    (Options.handleDayToggle rule day)) = Some []
      /\ validRule (Options.onChange start end_
                      (Options.handleDayToggle rule day)) = false
      /\ exists l,
           returns (Options.onChange start end_
                      (Options.handleDayToggle rule day)) count l).
Proof.
  intros Ht Hd Hn.
  assert (Hin : Options.intervalInput (Some n) = n).
  { unfold Options.intervalInput.
    destruct (Z.eqb_spec n 0); [lia | reflexivity]. }
  split; [repeat split; exact Hin |]. split.
  - split; [| eexists; apply generateOccurrences_returns].
    rewrite Hin. unfold validRule, validFields. cbn.
    destruct (Z.leb_spec 1 n); [lia | reflexivity].
  - assert (He : daysOfWeek (Options.onChange start end_
                               (Options.handleDayToggle rule day)) = Some [])
      by (cbn [Options.onChange daysOfWeek];
          now apply handleDayToggle_only_day).
    split; [exact He |].
    split; [| eexists; apply generateOccurrences_returns].
    unfold validRule, validFields. rewrite He.
    replace (type (Options.onChange start end_
                     (Options.handleDayToggle rule day))) with weekly
      by (cbn; now rewrite Ht).
    now rewrite andb_false_r.
Qed.

Lemma edit_handlers_do_not_validate_witness :
  validRule (Options.onChange jan1_2024 None
               (Options.handleDayToggle
                  (withDays (ruleOf weekly 1 jan1_2024 None) [Monday]) Monday))
  = false
  /\ validRule (Options.onChange jan1_2024 None
                  (Options.handleIntervalChange
                     (withDays (ruleOf weekly 1 jan1_2024 None) [Monday])
                     (Options.intervalInput (Some (-2))))) = false.
Proof.
  destruct (edit_handlers_do_not_validate
              (withDays (ruleOf weekly 1 jan1_2024 None) [Monday])
              Monday (-2) 30 jan1_2024 None)
    as (_ & (H1 & _) & (_ & H2 & _)); [reflexivity | reflexivity | lia |].
  split; [exact H2 | exact H1].
Defined.

(** C9 (as stated) fails: a valid weekly rule on Mondays, after the edit
    that toggles Monday off, is an invalid rule (empty [daysOfWeek]); it
    is handed to [generateOccurrences], which evaluates it as a flat
    weekly rule. *)
Lemma invalid_rule_reaches_generator :
  validRule (withDays (ruleOf weekly 1 jan1_2024 None) [Monday]) = true
  /\ validRule (Options.onChange jan1_2024 None
                  (Options.handleDayToggle
                     (withDays (ruleOf weekly 1 jan1_2024 None) [Monday])
                     Monday)) = false
  /\ generateOccurrences 20
       (Options.onChange jan1_2024 None
          (Options.handleDayToggle
             (withDays (ruleOf weekly 1 jan1_2024 None) [Monday]) Monday)) 3
     = Some [jan1_2024; daysAfter jan1_2024 7; daysAfter jan1_2024 14].
Proof. vm_compute. repeat split. Qed.

Example toggle_adds_sorted :
  daysOfWeek (Options.handleDayToggle
                (withDays (ruleOf weekly 1 jan1_2024 None) [Monday; Friday])
                Wednesday)
  = Some [Monday; Wednesday; Friday].
Proof. reflexivity. Qed.

(* ================================================================= *)
(** * [calculateRecurringDates] with an end date *)
(* ================================================================= *)

Lemma TimeWithinDay_addDays t n : TimeWithinDay (addDays t n) = TimeWithinDay t.
Proof.
  rewrite addDays_eq. unfold TimeWithinDay, msPerDay. divmod.
Qed.

(** With an interval of at least 1, [next] lands on a later calendar day. *)
Lemma next_advances freq interval current :
  1 <= interval -> Day current + 1 <= Day (App.next freq interval current).
Proof.
  intros Hi.
  assert (Hm : forall n, 1 <= n -> Day current + 1 <= Day (addMonths current n)).
  { intros n Hn. pose proof (Day_addMonths current n) as H.
    destruct (monthIndex_spec (Day current)) as (Hc & _).
    pose proof (monthStart_mono (monthIndex (Day current) + 1)
                  (monthIndex (Day current) + n)).
    lia. }
  destruct freq; cbn [App.next].
  - rewrite Day_addDays. lia.
  - unfold addWeeks. rewrite Day_addDays. lia.
  - now apply Hm.
  - unfold addYears. apply Hm. lia.
Qed.

Lemma keepGoing_day current e :
  App.keepGoing current (Some e) = true -> Day current <= Day e.
Proof.
  cbn. unfold isBefore, sameDateString. intros H.
  apply orb_true_iff in H as [H | H].
  - apply Z.ltb_lt in H. apply Day_mono. lia.
  - apply Z.eqb_eq in H. lia.
Qed.

Lemma calculateLoop_eq freq interval e (k : nat) : forall fuel dates current,
  1 <= interval ->
  Day e - Day current < Z.of_nat k -> (k < fuel)%nat ->
  App.calculateLoop fuel freq interval (Some e) dates current
  = Some (dates ++ datesFrom k freq interval e current).
Proof.
  induction k as [| k IH]; intros fuel dates current Hi Hk Hf;
    (destruct fuel as [| fuel]; [lia |]); cbn [App.calculateLoop datesFrom].
  - destruct (App.keepGoing current (Some e)) eqn:E.
    + apply keepGoing_day in E. lia.
    + now rewrite app_nil_r.
  - destruct (App.keepGoing current (Some e)) eqn:E.
    + rewrite IH; try lia.
      * now rewrite <- app_assoc.
      * pose proof (next_advances freq interval current Hi). lia.
    + now rewrite app_nil_r.
Qed.

Lemma datesFrom_above k freq interval e : forall current,
  1 <= interval ->
  Forall (fun d => current <= d) (datesFrom k freq interval e current).
Proof.
  induction k as [| k IH]; intros current Hi; cbn [datesFrom];
    [constructor |].
  destruct (App.keepGoing current (Some e)); constructor; [lia |].
  eapply Forall_impl; [| apply IH, Hi]. cbn. intros d Hd.
  pose proof (next_advances freq interval current Hi) as Hn.
  assert (current < App.next freq interval current) by (apply Day_lt; lia).
  lia.
Qed.

Lemma datesFrom_increasing k freq interval e : forall current,
  1 <= interval ->
  strictlyIncreasing (datesFrom k freq interval e current).
Proof.
  induction k as [| k IH]; intros current Hi; cbn [datesFrom];
    [constructor |].
  destruct (App.keepGoing current (Some e)); constructor.
  - apply IH, Hi.
  - eapply Forall_impl; [| apply datesFrom_above, Hi]. cbn. intros d Hd.
    pose proof (next_advances freq interval current Hi) as Hn.
    assert (current < App.next freq interval current) by (apply Day_lt; lia).
    lia.
Qed.

(** Given an end date and an interval of at least 1,
    [calculateRecurringDates] returns a strictly increasing list, which
    starts at [start] unless the end date is on an earlier calendar day. *)
Lemma calculateRecurringDates_with_end freq interval start e :
  1 <= interval ->
  exists l, calculates freq interval start (Some e) l
            /\ strictlyIncreasing l /\ NoDup l
            /\ (Day start <= Day e -> hd_error l = Some start).
Proof.
  intros Hi.
  exists (datesFrom (S (Z.to_nat (Day e - Day start + 1))) freq interval e start).
  split; [| split; [| split]].
  - exists (S (S (Z.to_nat (Day e - Day start + 1)))). intros fuel Hf.
    unfold App.calculateRecurringDates.
    rewrite (calculateLoop_eq freq interval e
               (S (Z.to_nat (Day e - Day start + 1)))); try lia.
    reflexivity.
  - now apply datesFrom_increasing.
  - now apply strictlyIncreasing_NoDup, datesFrom_increasing.
  - intros Hd. cbn [datesFrom].
    replace (App.keepGoing start (Some e)) with true; [reflexivity |].
    symmetry. cbn. unfold isBefore, sameDateString.
    destruct (Z.eqb_spec (Day start) (Day e)) as [| Hne];
      [apply orb_true_r |].
    apply orb_true_iff. left. apply Z.ltb_lt, Day_lt. lia.
Qed.

(** C1 -- [calculateRecurringDates] has no count: in the initial state of
    the store (weekly, interval 1, no end date) the loop never ends,
    whatever the fuel; [generateOccurrences] with a count of 5 returns
    exactly 5 dates for the same rule. *)
Theorem calculateRecurringDates_unbounded :
  (forall fuel,
     App.calculateRecurringDates fuel App.weekly 1 jan1_2024 None = None)
  /\ (forall l, ~ calculates App.weekly 1 jan1_2024 None l)
  /\ (exists l, returns (ruleOf weekly 1 jan1_2024 None) 5 l
                /\ length l = 5%nat).
Proof.
  split; [| split].
  - intros fuel. apply calculateRecurringDates_no_end.
  - intros l [n H]. specialize (H n (Nat.le_refl n)).
    rewrite calculateRecurringDates_no_end in H. discriminate.
  - now apply (proj1 generateOccurrences_bounded).
Qed.

(* ================================================================= *)
(** * Further properties of [generateOccurrences] *)
(* ================================================================= *)

Lemma occurrencesFrom_prefix n rule : forall m cur,
  (n <= m)%nat ->
  occurrencesFrom n rule cur = firstn n (occurrencesFrom m rule cur).
Proof.
  induction n as [| n IH]; intros m cur Hm; [reflexivity |].
  destruct m as [| m]; [lia |]. cbn [occurrencesFrom].
  destruct (pastEnd rule (step rule cur)); [reflexivity |].
  cbn [firstn]. f_equal. apply IH. lia.
Qed.

(** On time values.  With an end date, every date after the first is at or
    before [endDate] (as time values), and when fewer dates than the count are
    returned the candidate after the last one was later than [endDate]. *)
Lemma occurrences_stop_at_endDate rule count e :
  endDate rule = Some e ->
  exists l,
    returns rule count l
    /\ Forall (fun d => d <= e) (tl l)
    /\ (Z.of_nat (length l) < count ->
        forall fuel, (7 <= fuel)%nat ->
        exists c, advance fuel rule (List.last l (startDate rule)) = Some c
                  /\ e < c).
Proof.
  intros He. eexists. split; [apply generateOccurrences_returns |].
  cbn [tl]. split; [now apply occurrencesFrom_bounded |].
  intros Hlen fuel Hf. exists (step rule (List.last
    (startDate rule :: occurrencesFrom (Z.to_nat (count - 1)) rule
                         (startDate rule)) (startDate rule))).
  split; [now apply advance_step |].
  cbn [length] in Hlen.
  destruct (occurrencesFrom_stop_reason (Z.to_nat (count - 1)) rule
              (startDate rule)) as [H | H]; [lia |].
  assert (Hl : List.last
                 (startDate rule
                  :: occurrencesFrom (Z.to_nat (count - 1)) rule (startDate rule))
                 (startDate rule)
               = List.last (occurrencesFrom (Z.to_nat (count - 1)) rule
                              (startDate rule)) (startDate rule)).
  { destruct (occurrencesFrom (Z.to_nat (count - 1)) rule (startDate rule));
      reflexivity. }
  rewrite Hl. unfold pastEnd in H. rewrite He in H. now apply Z.ltb_lt.
Qed.

(** X3 -- A smaller count gives a prefix: the result for count [n] is the
    first [n] dates of the result for any count [m >= n]. *)
Theorem generateOccurrences_prefix rule n m l1 l2 :
  1 <= n <= m ->
  returns rule n l1 -> returns rule m l2 ->
  l1 = firstn (Z.to_nat n) l2.
Proof.
  intros Hnm H1 H2.
  rewrite (returns_unique _ _ _ _ H1 (generateOccurrences_returns rule n)).
  rewrite (returns_unique _ _ _ _ H2 (generateOccurrences_returns rule m)).
  replace (Z.to_nat n) with (S (Z.to_nat (n - 1))) by lia.
  cbn [firstn]. f_equal. apply occurrencesFrom_prefix. lia.
Qed.

Lemma generateOccurrences_prefix_witness :
  exists l1 l2,
    returns (monWedFri jan1_2024) 10 l1
    /\ returns (monWedFri jan1_2024) 30 l2
    /\ l1 = firstn 10 l2.
Proof.
  eexists. eexists.
  split; [apply generateOccurrences_returns |].
  split; [apply generateOccurrences_returns |].
  apply (generateOccurrences_prefix (monWedFri jan1_2024) 10 30);
    [lia | apply generateOccurrences_returns
     | apply generateOccurrences_returns].
Defined.

(* ================================================================= *)
(** * The sequence, type by type *)
(* ================================================================= *)

Lemma Sorted_weaken (R R' : Date -> Date -> Prop) l :
  (forall a b, R a b -> R' a b) -> Sorted R l -> Sorted R' l.
Proof.
  intros HR. induction 1 as [| a l Hs IH Hh]; constructor; [exact IH |].
  destruct Hh; constructor. now apply HR.
Qed.

(** Consecutive occurrences are one pass apart, and a property of the
    cursor that every pass keeps holds of all of them. *)
Lemma occurrences_chain (I : Date -> Prop) rule n : forall cur,
  I cur -> (forall a, I a -> I (step rule a)) ->
  Sorted (fun a b => I a /\ b = step rule a)
    (cur :: occurrencesFrom n rule cur)
  /\ Forall I (cur :: occurrencesFrom n rule cur).
Proof.
  induction n as [| n IH]; intros cur Hc Hstep.
  - split; repeat constructor; assumption.
  - cbn [occurrencesFrom].
    destruct (pastEnd rule (step rule cur));
      [split; repeat constructor; assumption |].
    destruct (IH (step rule cur) (Hstep cur Hc) Hstep) as [Hs Hf].
    split; constructor; auto.
Qed.

Lemma returns_chain (I : Date -> Prop) rule count l :
  returns rule count l ->
  I (startDate rule) -> (forall a, I a -> I (step rule a)) ->
  Sorted (fun a b => I a /\ b = step rule a) l /\ Forall I l.
Proof.
  intros Hr H0 Hstep.
  rewrite (returns_unique _ _ _ _ Hr (generateOccurrences_returns rule count)).
  now apply occurrences_chain.
Qed.

Lemma daily_nth rule n : forall cur k d,
  type rule = daily ->
  nth_error (cur :: occurrencesFrom n rule cur) k = Some d ->
  d = daysAfter cur (Z.of_nat k * interval rule).
Proof.
  induction n as [| n IH]; intros cur k d Ht Hk.
  - destruct k as [| k]; cbn in Hk.
    + injection Hk as <-. rewrite daysAfter_eq. lia.
    + destruct k; discriminate.
  - destruct k as [| k].
    + cbn in Hk. injection Hk as <-. rewrite daysAfter_eq. lia.
    + cbn [nth_error occurrencesFrom] in Hk.
      destruct (pastEnd rule (step rule cur)); [destruct k; discriminate |].
      apply IH in Hk; [| assumption]. subst d.
      rewrite step_daily, addDays_eq, !daysAfter_eq by assumption. lia.
Qed.

(** On time values.  A daily rule: the date at index [k] of the result is [k *
    interval] days after [startDate], at the same time of day. *)
Lemma daily_dates rule count l k d :
  type rule = daily -> returns rule count l -> nth_error l k = Some d ->
  d = daysAfter (startDate rule) (Z.of_nat k * interval rule)
  /\ TimeWithinDay d = TimeWithinDay (startDate rule).
Proof.
  intros Ht Hr Hk.
  rewrite (returns_unique _ _ _ _ Hr (generateOccurrences_returns rule count))
    in Hk.
  apply daily_nth in Hk; [| assumption]. split; [exact Hk |].
  rewrite Hk, daysAfter_eq, <- addDays_eq. apply TimeWithinDay_addDays.
Qed.

(** *** Weekly rules *)

Lemma nextDayOf_selected w ws c :
  In (nextDayOf (w :: ws) c) (map dayNumber (w :: ws)).
Proof.
  unfold nextDayOf.
  destruct (find (fun d => c <? dayNumber d) (w :: ws)) as [d |] eqn:E.
  - destruct (dayNumber d =? 0); [now left |].
    apply find_some in E as [Hin _]. now apply in_map.
  - now left.
Qed.

Lemma snap_weekday g nd :
  0 <= g < 7 -> 0 <= nd < 7 -> (g + Z.rem (nd - g + 7) 7) mod 7 = nd.
Proof. intros Hg Hn. rewrite Z.rem_mod_nonneg by lia. divmod. Qed.

Lemma step_weekly_selected rule d w ws :
  type rule = weekly -> daysOfWeek rule = Some (w :: ws) ->
  In (getDay (step rule d)) (map dayNumber (w :: ws))
  /\ exists k, 0 <= k <= 6
               /\ step rule d = daysAfter d (7 * interval rule + k).
Proof.
  intros Ht Hd. rewrite (step_weekly_days rule d w ws) by assumption.
  pose proof (nextDayOf_selected w ws
                (getDay (addDays d (7 * interval rule)))) as Hin.
  pose proof (nextDayOf_range (w :: ws)
                (getDay (addDays d (7 * interval rule)))) as Hn.
  pose proof (getDay_range (addDays d (7 * interval rule))) as Hg.
  revert Hin Hn.
  generalize (nextDayOf (w :: ws) (getDay (addDays d (7 * interval rule)))).
  intros nd Hin Hn. split.
  - rewrite getDay_addDays.
    rewrite (snap_weekday _ nd Hg Hn). exact Hin.
  - pose proof (weekday_offset_nonneg nd
                  (getDay (addDays d (7 * interval rule))) Hn Hg) as Ho.
    exists (Z.rem (nd - getDay (addDays d (7 * interval rule)) + 7) 7).
    split; [lia |]. rewrite !addDays_eq, daysAfter_eq. lia.
Qed.

(** On time values.  A weekly rule with selected weekdays: every date after
    the first falls on one of the selected weekdays, and each date is between
    [7 * interval] and [7 * interval + 6] days after the one before it. *)
Lemma weekly_selected_dates rule count l w ws :
  type rule = weekly -> daysOfWeek rule = Some (w :: ws) ->
  returns rule count l ->
  Forall (fun d => In (getDay d) (map dayNumber (w :: ws))) (tl l)
  /\ Sorted (fun a b => exists k, 0 <= k <= 6
                          /\ b = daysAfter a (7 * interval rule + k)) l.
Proof.
  intros Ht Hd Hr.
  destruct (returns_chain (fun _ => True) rule count l Hr I (fun _ _ => I))
    as [Hs _].
  split.
  - clear Hr. induction Hs as [| a l Hs IH Hh]; [constructor |].
    cbn [tl]. destruct Hh as [| b l [_ ->]]; constructor.
    + now apply (step_weekly_selected rule a w ws).
    + apply IH.
  - eapply Sorted_weaken; [| exact Hs]. cbn. intros a b [_ ->].
    now apply (step_weekly_selected rule a w ws).
Qed.

Lemma chain_days c : forall l x k d,
  Sorted (fun a b => b = daysAfter a c) (x :: l) ->
  nth_error (x :: l) k = Some d -> d = daysAfter x (Z.of_nat k * c).
Proof.
  induction l as [| y l IH]; intros x k d Hs Hk.
  - destruct k as [| k]; cbn in Hk; [| destruct k; discriminate].
    injection Hk as <-. rewrite daysAfter_eq. lia.
  - destruct k as [| k].
    + cbn in Hk. injection Hk as <-. rewrite daysAfter_eq. lia.
    + inversion Hs as [| ? ? Hs' Hh]; subst.
      inversion Hh as [| ? ? Hy]; subst.
      cbn [nth_error] in Hk. apply (IH _ _ _ Hs') in Hk. subst d.
      rewrite !daysAfter_eq. lia.
Qed.

Lemma step_weekly_own_day rule d w :
  type rule = weekly -> daysOfWeek rule = Some [w] ->
  dayNumber w = getDay d ->
  step rule d = daysAfter d (7 * interval rule).
Proof.
  intros Ht Hd Hw. rewrite (step_weekly_days rule d w []) by assumption.
  assert (Hg : getDay (addDays d (7 * interval rule)) = dayNumber w).
  { rewrite getDay_addDays, <- Hw. pose proof (dayNumber_range w). divmod. }
  rewrite Hg. unfold nextDayOf. cbn [find].
  rewrite Z.ltb_irrefl.
  replace (dayNumber w - dayNumber w + 7) with 7 by lia.
  replace (Z.rem 7 7) with 0 by reflexivity.
  rewrite !addDays_eq, daysAfter_eq. lia.
Qed.

(** On time values.  A weekly rule with no selected weekdays, or whose only
    selected weekday is the weekday of [startDate] (the default the type
    button sets): the date at index [k] is [7 * interval * k] days after
    [startDate]. *)
Lemma weekly_flat_dates rule count l k d :
  type rule = weekly ->
  (daysOfWeek rule = None \/ daysOfWeek rule = Some []
   \/ exists w, daysOfWeek rule = Some [w]
                /\ dayNumber w = getDay (startDate rule)) ->
  returns rule count l -> nth_error l k = Some d ->
  d = daysAfter (startDate rule) (Z.of_nat k * (7 * interval rule)).
Proof.
  intros Ht Hd Hr Hk.
  destruct (returns_chain (fun a => getDay a = getDay (startDate rule))
              rule count l Hr eq_refl) as [Hs _].
  - intros a Ha.
    assert (E : step rule a = daysAfter a (7 * interval rule)).
    { destruct Hd as [Hd | [Hd | (w & Hd & Hw)]].
      - rewrite step_weekly_flat, addDays_eq, daysAfter_eq; auto.
      - rewrite step_weekly_flat, addDays_eq, daysAfter_eq; auto.
      - apply (step_weekly_own_day rule a w); congruence. }
    rewrite E, getDay_daysAfter, Ha.
    pose proof (getDay_range (startDate rule)). divmod.
  - assert (Hs' : Sorted (fun a b => b = daysAfter a (7 * interval rule)) l).
    { eapply Sorted_weaken; [| exact Hs]. cbn. intros a b [Ha ->].
      destruct Hd as [Hd | [Hd | (w & Hd & Hw)]].
      - rewrite step_weekly_flat, addDays_eq, daysAfter_eq; auto.
      - rewrite step_weekly_flat, addDays_eq, daysAfter_eq; auto.
      - apply (step_weekly_own_day rule a w); congruence. }
    rewrite (returns_unique _ _ _ _ Hr (generateOccurrences_returns rule count))
      in Hk, Hs'.
    apply (chain_days _ _ _ _ _ Hs' Hk).
Qed.

(** *** Monthly and yearly rules *)

Lemma monthIndex_getters t :
  monthIndex (Day t) = 12 * getFullYear t + getMonth t.
Proof. reflexivity. Qed.

Lemma TimeWithinDay_setDate t n : TimeWithinDay (setDate t n) = TimeWithinDay t.
Proof.
  rewrite setDate_eq. apply TimeWithinDay_MakeDate, TimeWithinDay_bounds.
Qed.

Lemma setDate_fits t n :
  1 <= n <= monthLength (monthIndex (Day t)) ->
  monthIndex (Day (setDate t n)) = monthIndex (Day t)
  /\ getDate (setDate t n) = n.
Proof.
  intros Hn. rewrite monthLength_eq in Hn.
  assert (Hd : Day (setDate t n) = monthStart (monthIndex (Day t)) + n - 1)
    by (rewrite setDate_eq; apply Day_MakeDate, TimeWithinDay_bounds).
  destruct (getDate_in_month (monthIndex (Day t)) (setDate t n)) as [Hi Hg];
    [lia |].
  split; [exact Hi |]. rewrite Hg, Hd. lia.
Qed.

Lemma getDate_addMonths t n :
  getDate (addMonths t n)
  = Z.min (getDate t) (monthLength (monthIndex (Day t) + n)).
Proof.
  pose proof (Day_addMonths t n) as Hd.
  destruct (getDate_in_month (monthIndex (Day t) + n) (addMonths t n) Hd)
    as [_ Hg].
  rewrite Hg, addMonths_eq, Day_MakeDate by apply TimeWithinDay_bounds. lia.
Qed.

Lemma monthLength_split y m :
  0 <= m < 12 ->
  monthLength (12 * y + m)
  = firstDayOfMonthInYear (leapDays y) (m + 1)
    - firstDayOfMonthInYear (leapDays y) m.
Proof.
  intros Hm. rewrite monthLength_eq.
  destruct (Z.eq_dec m 11) as [-> | Hne].
  - replace (12 * y + 11 + 1) with (12 * y + 12) by lia.
    rewrite monthStart_year_end, monthStart_split by lia.
    change (firstDayOfMonthInYear (leapDays y) (11 + 1))
      with (365 + leapDays y).
    lia.
  - replace (12 * y + m + 1) with (12 * y + (m + 1)) by lia.
    rewrite !monthStart_split by lia. lia.
Qed.

(** Only February changes its length from year to year. *)
Lemma monthLength_same_month y y' m :
  0 <= m < 12 -> m <> 1 ->
  monthLength (12 * y + m) = monthLength (12 * y' + m).
Proof.
  intros Hm H1. rewrite !monthLength_split by assumption.
  destruct (leapDays_01 y) as [-> | ->], (leapDays_01 y') as [-> | ->];
    month_split Hm; try lia; reflexivity.
Qed.

Lemma monthLength_february y : 28 <= monthLength (12 * y + 1) <= 29.
Proof.
  rewrite monthLength_split by lia.
  destruct (leapDays_01 y) as [-> | ->]; cbn; lia.
Qed.

(** On time values.  A monthly rule on a day of the month from 1 to 28: every
    date after the first is on that day, each one exactly [interval] months
    after the one before it, at the same time of day. *)
Lemma monthly_on_day_dates rule count l n :
  type rule = monthly -> monthDay rule = Some n -> 1 <= n <= 28 ->
  returns rule count l ->
  Forall (fun d => getDate d = n) (tl l)
  /\ Sorted (fun a b =>
               12 * getFullYear b + getMonth b
               = 12 * getFullYear a + getMonth a + interval rule
               /\ TimeWithinDay b = TimeWithinDay a) l.
Proof.
  intros Ht Hn Hr28 Hr.
  assert (Hstep : forall a,
             getDate (step rule a) = n
             /\ monthIndex (Day (step rule a))
                = monthIndex (Day a) + interval rule
             /\ TimeWithinDay (step rule a) = TimeWithinDay a).
  { intros a. rewrite (step_monthly_day rule a n) by (assumption || lia).
    pose proof (monthLength_bounds
                  (monthIndex (Day (addMonths a (interval rule))))) as HL.
    destruct (setDate_fits (addMonths a (interval rule)) n) as [Hi Hg];
      [lia |].
    rewrite Hi, Hg, monthIndex_addMonths, TimeWithinDay_setDate,
      TimeWithinDay_addMonths.
    auto. }
  destruct (returns_chain (fun _ => True) rule count l Hr I (fun _ _ => I))
    as [Hs _].
  split.
  - clear Hr. induction Hs as [| a l Hs IH Hh]; [constructor |].
    cbn [tl]. destruct Hh as [| b l [_ ->]]; constructor;
      [apply Hstep | apply IH].
  - eapply Sorted_weaken; [| exact Hs]. cbv beta. intros a b [_ ->].
    rewrite <- !monthIndex_getters. split; apply Hstep.
Qed.

Lemma addMonths_day t n :
  monthIndex (Day (addMonths t n)) = monthIndex (Day t) + n
  /\ getDate (addMonths t n) <= getDate t
  /\ (getDate t <= 28 -> getDate (addMonths t n) = getDate t)
  /\ (getDate (addMonths t n) = getDate t
      \/ getDate (addDays (addMonths t n) 1) = 1)
  /\ TimeWithinDay (addMonths t n) = TimeWithinDay t.
Proof.
  pose proof (monthLength_bounds (monthIndex (Day t) + n)) as HL.
  pose proof (getDate_range t) as Hg.
  pose proof (getDate_addMonths t n) as Hd.
  split; [apply monthIndex_addMonths |].
  split; [lia |]. split; [lia |].
  split; [| apply TimeWithinDay_addMonths].
  destruct (Z.le_gt_cases (getDate t) (monthLength (monthIndex (Day t) + n)))
    as [Hle | Hgt]; [left; lia | right].
  assert (Hday : Day (addMonths t n)
                 = monthStart (monthIndex (Day t) + n + 1) - 1).
  { rewrite addMonths_eq, Day_MakeDate by apply TimeWithinDay_bounds.
    rewrite monthLength_eq in *. lia. }
  pose proof (monthLength_bounds (monthIndex (Day t) + n + 1)) as HL1.
  rewrite monthLength_eq in HL1.
  destruct (getDate_in_month (monthIndex (Day t) + n + 1)
              (addDays (addMonths t n) 1)) as [_ Hg1];
    [rewrite Day_addDays; lia |].
  rewrite Hg1, Day_addDays. lia.
Qed.

(** On time values.  A monthly rule with neither a day of the month nor an nth
    weekday: each date is exactly [interval] months after the one before it,
    on the same day of the month or, when that month is shorter, on its last
    day; the day of the month never grows back. *)
Lemma monthly_same_day_dates rule count l :
  type rule = monthly ->
  monthDay rule = None \/ monthDay rule = Some 0 ->
  monthWeek rule = None \/ monthWeekDay rule = None ->
  returns rule count l ->
  Sorted (fun a b =>
            12 * getFullYear b + getMonth b
            = 12 * getFullYear a + getMonth a + interval rule
            /\ getDate b <= getDate a
            /\ (getDate a <= 28 -> getDate b = getDate a)
            /\ (getDate b = getDate a \/ getDate (addDays b 1) = 1)
            /\ TimeWithinDay b = TimeWithinDay a) l.
Proof.
  intros Ht Hn Hw Hr.
  destruct (returns_chain (fun _ => True) rule count l Hr I (fun _ _ => I))
    as [Hs _].
  eapply Sorted_weaken; [| exact Hs]. cbv beta. intros a b [_ ->].
  rewrite step_monthly_same by assumption.
  rewrite <- !monthIndex_getters. apply addMonths_day.
Qed.

Lemma monthIndex_split t :
  monthIndex (Day t) = 12 * getFullYear t + getMonth t
  /\ 0 <= getMonth t < 12.
Proof. split; [reflexivity | apply getMonth_range]. Qed.

Lemma monthLength_february_eq y : monthLength (12 * y + 1) = 28 + leapDays y.
Proof.
  rewrite monthLength_split by lia.
  destruct (leapDays_01 y) as [-> | ->]; reflexivity.
Qed.

Lemma addYears_fields t n :
  getFullYear (addYears t n) = getFullYear t + n
  /\ getMonth (addYears t n) = getMonth t
  /\ (getDate (addYears t n) = getDate t
      \/ (getMonth t = 1 /\ getDate t = 29 /\ getDate (addYears t n) = 28
          /\ InLeapYear (getFullYear t + n) = false))
  /\ TimeWithinDay (addYears t n) = TimeWithinDay t.
Proof.
  unfold addYears.
  destruct (monthIndex_split t) as [Hi Hm].
  destruct (monthIndex_split (addMonths t (n * 12))) as [Hi' Hm'].
  rewrite monthIndex_addMonths, Hi in Hi'.
  pose proof (getDate_addMonths t (n * 12)) as Hd.
  pose proof (getDate_range t) as Hg.
  rewrite Hi in Hd, Hg.
  revert Hi' Hm' Hd Hg Hm.
  generalize (getFullYear (addMonths t (n * 12))),
    (getMonth (addMonths t (n * 12))), (getDate (addMonths t (n * 12))),
    (getFullYear t), (getMonth t), (getDate t).
  intros Y' m' d' Y m d Hi' Hm' Hd Hg Hm.
  assert (HY : Y' = Y + n) by lia. assert (Hmm : m' = m) by lia.
  split; [exact HY |]. split; [exact Hmm |].
  split; [| apply TimeWithinDay_addMonths].
  replace (12 * Y + m + n * 12) with (12 * (Y + n) + m) in Hd by lia.
  destruct (Z.eq_dec m 1) as [-> | Hne].
  - rewrite monthLength_february_eq in Hd, Hg. unfold leapDays in Hd, Hg.
    destruct (InLeapYear (Y + n)), (InLeapYear Y); lia || (right; lia)
      || (left; lia).
  - rewrite (monthLength_same_month (Y + n) Y m) in Hd by assumption. lia.
Qed.

(** On time values.  A yearly rule: each date is exactly [interval] years
    after the one before it, in the same month, at the same time of day, and
    on the same day of the month, except that 29 February becomes 28 February
    in a year without it. *)
Lemma yearly_dates rule count l :
  type rule = yearly -> returns rule count l ->
  Sorted (fun a b =>
            getFullYear b = getFullYear a + interval rule
            /\ getMonth b = getMonth a
            /\ (getDate b = getDate a
                \/ (getMonth a = 1 /\ getDate a = 29 /\ getDate b = 28
                    /\ InLeapYear (getFullYear b) = false))
            /\ TimeWithinDay b = TimeWithinDay a) l.
Proof.
  intros Ht Hr.
  destruct (returns_chain (fun _ => True) rule count l Hr I (fun _ _ => I))
    as [Hs _].
  eapply Sorted_weaken; [| exact Hs]. cbv beta. intros a b [_ ->].
  rewrite step_yearly by assumption.
  destruct (addYears_fields a (interval rule)) as (Hy & Hm & Hd & Ht').
  rewrite Hy. auto.
Qed.

Example feb29_yearly :
  option_map (map (fun d => (getFullYear d, getMonth d, getDate d)))
    (generateOccurrences 20 (ruleOf yearly 1 (newDate 2024 1 29) None) 6)
  = Some [(2024, 1, 29); (2025, 1, 28); (2026, 1, 28); (2027, 1, 28);
          (2028, 1, 28); (2029, 1, 28)].
Proof. vm_compute. reflexivity. Qed.

(** *** The nth-weekday branch and the time of day *)

Lemma usesNthWeekday_true rule :
  usesNthWeekday rule = true ->
  type rule = monthly
  /\ (monthDay rule = None \/ monthDay rule = Some 0)
  /\ exists week w, monthWeek rule = Some week /\ monthWeekDay rule = Some w.
Proof.
  unfold usesNthWeekday.
  destruct (type rule); try discriminate.
  destruct (monthDay rule) as [n |], (monthWeek rule) as [week |],
    (monthWeekDay rule) as [w |]; try discriminate; intros H.
  - apply Z.eqb_eq in H. subst n.
    split; [reflexivity |]. split; [now right | now exists week, w].
  - split; [reflexivity |]. split; [now left | now exists week, w].
Qed.

Lemma step_time_of_day rule d :
  usesNthWeekday rule = false ->
  TimeWithinDay (step rule d) = TimeWithinDay d.
Proof.
  unfold usesNthWeekday. intros H.
  destruct (type rule) eqn:Ht.
  - rewrite step_daily by assumption. apply TimeWithinDay_addDays.
  - destruct (daysOfWeek rule) as [[| w ws] |] eqn:Hd.
    + rewrite step_weekly_flat by auto. apply TimeWithinDay_addDays.
    + rewrite (step_weekly_days rule d w ws) by assumption.
      now rewrite !TimeWithinDay_addDays.
    + rewrite step_weekly_flat by auto. apply TimeWithinDay_addDays.
  - destruct (monthDay rule) as [n |] eqn:Hn.
    + destruct (Z.eqb_spec n 0) as [-> | Hne].
      * rewrite step_monthly_same; auto using TimeWithinDay_addMonths.
        destruct (monthWeek rule), (monthWeekDay rule); auto; discriminate.
      * rewrite (step_monthly_day rule d n) by assumption.
        now rewrite TimeWithinDay_setDate, TimeWithinDay_addMonths.
    + rewrite step_monthly_same; auto using TimeWithinDay_addMonths.
      destruct (monthWeek rule), (monthWeekDay rule); auto; discriminate.
  - rewrite step_yearly by assumption. apply addYears_fields.
  - now rewrite step_custom.
Qed.

Lemma TimeWithinDay_midnight d : TimeWithinDay (MakeDate d 0) = 0.
Proof. apply TimeWithinDay_MakeDate. unfold msPerDay. lia. Qed.

(** On time values.  The time of day.  Unless the rule takes the nth-weekday
    branch, every returned date has the time of day of [startDate]; on that
    branch every date after the first is a local midnight, whatever the time
    of day of [startDate]. *)
Lemma time_of_day_dates rule count l :
  returns rule count l ->
  (usesNthWeekday rule = false ->
   Forall (fun d => TimeWithinDay d = TimeWithinDay (startDate rule)) l)
  /\ (usesNthWeekday rule = true ->
      Forall (fun d => TimeWithinDay d = 0) (tl l)).
Proof.
  intros Hr. split; intros Hu.
  - apply (returns_chain
             (fun d => TimeWithinDay d = TimeWithinDay (startDate rule))
             rule count l Hr eq_refl).
    intros a Ha. now rewrite step_time_of_day.
  - destruct (usesNthWeekday_true rule Hu) as (Ht & Hn & week & w & Hw & Hd).
    destruct (returns_chain (fun _ => True) rule count l Hr I (fun _ _ => I))
      as [Hs _].
    clear Hr. induction Hs as [| a l Hs IH Hh]; [constructor |].
    cbn [tl]. destruct Hh as [| b l [_ ->]]; constructor; [| apply IH].
    rewrite (step_monthly_weekday rule a week w) by assumption.
    rewrite nthWeekday_midnight. apply TimeWithinDay_midnight.
Qed.

(* ================================================================= *)
(** * The five ordinals of [getNthWeekdayInMonth] *)
(* ================================================================= *)

Lemma getDay_eq t : getDay t = (Day t + 4) mod 7.
Proof. reflexivity. Qed.

Lemma same_weekday_close a b :
  (a + 4) mod 7 = (b + 4) mod 7 -> -6 <= a - b <= 9 -> a = b \/ a = b + 7.
Proof. intros H Hr. divmod. Qed.

Lemma getDate_nthWeekday date week w :
  getDate (nthWeekday date week w)
  = Day (nthWeekday date week w) - monthStart (resolvedMonth date) + 1.
Proof.
  apply (getDate_in_month (resolvedMonth date)), Day_nthWeekday.
Qed.

(** On time values.  The five ordinals for one month and weekday: the first
    falls on day 1..7 of the month, the second, third and fourth exactly 7, 14
    and 21 days of the month later (so the fourth on day 22..28), the last
    within the final 7 days of the month; the last is either the fourth or the
    date 7 days after the fourth. *)
Lemma nth_weekday_day_numbers fuel date weekday :
  (7 <= fuel)%nat ->
  exists r1 r2 r3 r4 rl,
    getNthWeekdayInMonth fuel date first weekday = Some r1
    /\ getNthWeekdayInMonth fuel date second weekday = Some r2
    /\ getNthWeekdayInMonth fuel date third weekday = Some r3
    /\ getNthWeekdayInMonth fuel date fourth weekday = Some r4
    /\ getNthWeekdayInMonth fuel date last weekday = Some rl
    /\ 1 <= getDate r1 <= 7
    /\ getDate r2 = getDate r1 + 7
    /\ getDate r3 = getDate r1 + 14
    /\ getDate r4 = getDate r1 + 21
    /\ getDate (lastDayOfMonth date) - 6 <= getDate rl
       <= getDate (lastDayOfMonth date)
    /\ (rl = r4 \/ rl = addDays r4 7).
Proof.
  intros Hf.
  exists (nthWeekday date first weekday), (nthWeekday date second weekday),
    (nthWeekday date third weekday), (nthWeekday date fourth weekday),
    (nthWeekday date last weekday).
  rewrite !getNthWeekdayInMonth_eq by assumption.
  do 5 (split; [reflexivity |]).
  pose proof (forwardSteps_range date weekday) as Hk.
  pose proof (backwardSteps_range date weekday) as Hj.
  pose proof (monthLength_bounds (resolvedMonth date)) as HL.
  rewrite monthLength_eq in HL.
  pose proof (Day_firstDayOfMonth date) as HF.
  pose proof (Day_lastDayOfMonth date) as HLd.
  assert (D1 : Day (nthWeekday date first weekday)
               = monthStart (resolvedMonth date) + forwardSteps date weekday)
    by (unfold nthWeekday; rewrite Day_addDays; lia).
  assert (D2 : Day (nthWeekday date second weekday)
               = monthStart (resolvedMonth date) + forwardSteps date weekday + 7)
    by (unfold nthWeekday; rewrite Day_addDays; lia).
  assert (D3 : Day (nthWeekday date third weekday)
               = monthStart (resolvedMonth date) + forwardSteps date weekday + 14)
    by (unfold nthWeekday; rewrite Day_addDays; lia).
  assert (D4 : Day (nthWeekday date fourth weekday)
               = monthStart (resolvedMonth date) + forwardSteps date weekday + 21)
    by (unfold nthWeekday; rewrite Day_addDays; lia).
  assert (DL : Day (nthWeekday date last weekday)
               = monthStart (resolvedMonth date + 1) - 1
                 - backwardSteps date weekday)
    by (unfold nthWeekday; rewrite Day_addDays; lia).
  assert (GL : getDate (lastDayOfMonth date)
               = Day (lastDayOfMonth date)
                 - monthStart (resolvedMonth date) + 1)
    by (apply (getDate_in_month (resolvedMonth date)); lia).
  rewrite !getDate_nthWeekday, GL, D1, D2, D3, D4, DL, HLd.
  do 5 (split; [lia |]).
  pose proof (getDay_nthWeekday date last weekday) as WL.
  pose proof (getDay_nthWeekday date fourth weekday) as W4.
  rewrite getDay_eq in WL, W4. rewrite <- W4 in WL.
  rewrite nthWeekday_midnight, (nthWeekday_midnight date fourth).
  rewrite addDays_eq.
  destruct (same_weekday_close _ _ WL) as [E | E]; [lia | |];
    rewrite E; [now left | right].
  unfold MakeDate. lia.
Qed.

Lemma resolvedMonth_eq t :
  resolvedMonth t = 12 * MakeFullYear (getFullYear t) + getMonth t.
Proof. reflexivity. Qed.




(* ================================================================= *)
(** * The edit handlers *)
(* ================================================================= *)

Lemma dayNumber_inj a b : dayNumber a = dayNumber b -> a = b.
Proof. destruct a, b; cbn; intros H; try reflexivity; discriminate. Qed.

Lemma sameDay_eq a b : Options.sameDay a b = true <-> a = b.
Proof.
  unfold Options.sameDay. rewrite Z.eqb_eq. split;
    [apply dayNumber_inj | now intros ->].
Qed.

Lemma sameDay_neq a b : Options.sameDay a b = false <-> a <> b.
Proof.
  rewrite <- sameDay_eq. destruct (Options.sameDay a b); split;
    congruence.
Qed.

Lemma existsb_sameDay day days :
  existsb (fun d => Options.sameDay d day) days = true <-> In day days.
Proof.
  rewrite existsb_exists. split.
  - intros (d & Hin & Hs). apply sameDay_eq in Hs. now subst.
  - intros Hin. exists day. split; [exact Hin | now apply sameDay_eq].
Qed.

Lemma strictlySortedDays_cons a l :
  strictlySortedDays (a :: l) <->
  strictlySortedDays l /\ Forall (fun b => dayNumber a < dayNumber b) l.
Proof.
  split; [intros H; inversion H; now subst | intros [H1 H2]; now constructor].
Qed.

Lemma insertDay_In day d l :
  In d (Options.insertDay day l) <-> d = day \/ In d l.
Proof.
  induction l as [| x l IH]; cbn.
  - intuition congruence.
  - destruct (dayNumber day <? dayNumber x); cbn; [intuition congruence |].
    rewrite IH. intuition congruence.
Qed.

Lemma insertDay_sorted day l :
  strictlySortedDays l -> ~ In day l ->
  strictlySortedDays (Options.insertDay day l).
Proof.
  induction l as [| x l IH]; intros Hs Hn; cbn.
  - repeat constructor.
  - apply strictlySortedDays_cons in Hs as [Hs Hx].
    destruct (Z.ltb_spec (dayNumber day) (dayNumber x)) as [Hlt | Hge].
    + apply strictlySortedDays_cons. split.
      * now apply strictlySortedDays_cons.
      * constructor; [exact Hlt |].
        eapply Forall_impl; [| exact Hx]. cbv beta. intros b Hb. lia.
    + assert (Hne : dayNumber day <> dayNumber x)
        by (intros E; apply Hn; left; symmetry; now apply dayNumber_inj).
      apply strictlySortedDays_cons. split.
      * apply IH; [exact Hs | intros Hin; apply Hn; now right].
      * apply Forall_forall. intros b Hb. apply insertDay_In in Hb as [-> | Hb].
        -- lia.
        -- rewrite Forall_forall in Hx. now apply Hx.
Qed.

(** Appending a new day and sorting is inserting it in its place. *)
Lemma sortDays_append day l :
  strictlySortedDays l -> ~ In day l ->
  Options.sortDays (l ++ [day]) = Options.insertDay day l.
Proof.
  unfold Options.sortDays. induction l as [| x l IH]; intros Hs Hn;
    [reflexivity |].
  apply strictlySortedDays_cons in Hs as [Hs Hx].
  cbn [app fold_right]. rewrite IH; [| exact Hs | intros Hin; apply Hn; now right].
  assert (Hne : dayNumber day <> dayNumber x)
    by (intros E; apply Hn; left; symmetry; now apply dayNumber_inj).
  cbn [Options.insertDay].
  destruct (Z.ltb_spec (dayNumber day) (dayNumber x)) as [Hlt | Hge].
  - destruct l as [| y l]; cbn [Options.insertDay].
    + replace (dayNumber x <? dayNumber day) with false
        by (symmetry; apply Z.ltb_ge; lia).
      reflexivity.
    + inversion Hx as [| ? ? Hxy _]; subst.
      replace (dayNumber day <? dayNumber y) with true
        by (symmetry; apply Z.ltb_lt; lia).
      cbn [Options.insertDay].
      replace (dayNumber x <? dayNumber day) with false
        by (symmetry; apply Z.ltb_ge; lia).
      replace (dayNumber x <? dayNumber y) with true
        by (symmetry; apply Z.ltb_lt; lia).
      reflexivity.
  - destruct (Options.insertDay day l) as [| z zs] eqn:E.
    + destruct l as [| y l]; [discriminate |]. cbn in E.
      destruct (dayNumber day <? dayNumber y); discriminate.
    + cbn [Options.insertDay].
      assert (Hz : In z (Options.insertDay day l)) by (rewrite E; now left).
      apply insertDay_In in Hz.
      replace (dayNumber x <? dayNumber z) with true; [reflexivity |].
      symmetry. apply Z.ltb_lt. destruct Hz as [-> | Hz]; [lia |].
      rewrite Forall_forall in Hx. now apply Hx.
Qed.

Lemma removeFirst_In day d l :
  strictlySortedDays l ->
  In d (Options.removeFirst day l) <-> d <> day /\ In d l.
Proof.
  induction l as [| x l IH]; intros Hs; cbn; [intuition |].
  apply strictlySortedDays_cons in Hs as [Hs Hx].
  rewrite Forall_forall in Hx.
  destruct (Options.sameDay x day) eqn:E.
  - apply sameDay_eq in E. subst x. split.
    + intros Hin. split; [| now right].
      intros ->. specialize (Hx day Hin). lia.
    + intros [Hne [-> | Hin]]; [congruence | exact Hin].
  - apply sameDay_neq in E. cbn. rewrite (IH Hs). intuition congruence.
Qed.

Lemma removeFirst_sorted day l :
  strictlySortedDays l -> strictlySortedDays (Options.removeFirst day l).
Proof.
  induction l as [| x l IH]; intros Hs; cbn; [exact Hs |].
  pose proof Hs as Hs0.
  apply strictlySortedDays_cons in Hs as [Hs Hx].
  destruct (Options.sameDay x day); [exact Hs |].
  apply strictlySortedDays_cons. split; [now apply IH |].
  apply Forall_forall. intros b Hb. apply (removeFirst_In day b l Hs) in Hb.
  rewrite Forall_forall in Hx. now apply Hx.
Qed.

Lemma removeFirst_insertDay day l :
  strictlySortedDays l -> ~ In day l ->
  Options.removeFirst day (Options.insertDay day l) = l.
Proof.
  induction l as [| x l IH]; intros Hs Hn; cbn.
  - now rewrite sameDay_refl.
  - apply strictlySortedDays_cons in Hs as [Hs Hx].
    destruct (dayNumber day <? dayNumber x); cbn.
    + now rewrite sameDay_refl.
    + replace (Options.sameDay x day) with false
        by (symmetry; apply sameDay_neq; intros ->; apply Hn; now left).
      f_equal. apply IH; [exact Hs | intros Hin; apply Hn; now right].
Qed.

Lemma insertDay_removeFirst day l :
  strictlySortedDays l -> In day l ->
  Options.insertDay day (Options.removeFirst day l) = l.
Proof.
  induction l as [| x l IH]; intros Hs Hin; [destruct Hin |].
  apply strictlySortedDays_cons in Hs as [Hs Hx].
  cbn [Options.removeFirst].
  destruct (Options.sameDay x day) eqn:E.
  - apply sameDay_eq in E. subst x.
    destruct l as [| y l]; [reflexivity |]. cbn [Options.insertDay].
    inversion Hx as [| ? ? Hxy _]; subst.
    apply Z.ltb_lt in Hxy. now rewrite Hxy.
  - apply sameDay_neq in E. destruct Hin as [-> | Hin]; [congruence |].
    cbn [Options.insertDay]. rewrite Forall_forall in Hx.
    specialize (Hx day Hin).
    replace (dayNumber day <? dayNumber x) with false
      by (symmetry; apply Z.ltb_ge; lia).
    f_equal. now apply IH.
Qed.

Lemma handleDayToggle_days rule day l :
  daysOfWeek rule = Some l \/ (daysOfWeek rule = None /\ l = []) ->
  daysOfWeek (Options.handleDayToggle rule day)
  = Some (if existsb (fun d => Options.sameDay d day) l
          then Options.removeFirst day l
          else Options.sortDays (l ++ [day])).
Proof.
  intros [H | [H ->]]; unfold Options.handleDayToggle; rewrite H; reflexivity.
Qed.

Lemma handleDayToggle_selection rule day l :
  daysOfWeek rule = Some l \/ (daysOfWeek rule = None /\ l = []) ->
  strictlySortedDays l ->
  exists l',
    daysOfWeek (Options.handleDayToggle rule day) = Some l'
    /\ strictlySortedDays l'
    /\ (In day l' <-> ~ In day l)
    /\ (forall d, d <> day -> (In d l' <-> In d l)).
Proof.
  intros Hd Hs. eexists.
  split; [exact (handleDayToggle_days rule day l Hd) |].
  destruct (existsb (fun d => Options.sameDay d day) l) eqn:E.
  - apply existsb_sameDay in E. split; [now apply removeFirst_sorted |].
    split.
    + rewrite (removeFirst_In day day l Hs). intuition.
    + intros d Hne. rewrite (removeFirst_In day d l Hs). intuition.
  - assert (Hn : ~ In day l)
      by (intros Hin; apply existsb_sameDay in Hin; congruence).
    rewrite sortDays_append by assumption.
    split; [now apply insertDay_sorted |]. split.
    + rewrite insertDay_In. intuition.
    + intros d Hne. rewrite insertDay_In. intuition.
Qed.

(** X13 -- Toggling a weekday, on a selection in ascending order without
    repeats (or none yet): the selection stays in ascending order without
    repeats, the toggled day changes sides, every other day stays as it
    was. *)
Theorem handleDayToggle_flips rule day l :
  daysOfWeek rule = Some l \/ (daysOfWeek rule = None /\ l = []) ->
  strictlySortedDays l ->
  exists l',
    daysOfWeek (Options.handleDayToggle rule day) = Some l'
    /\ strictlySortedDays l'
    /\ (In day l' <-> ~ In day l)
    /\ (forall d, d <> day -> (In d l' <-> In d l)).
Proof. exact (handleDayToggle_selection rule day l). Qed.

Lemma handleDayToggle_flips_witness :
  exists l',
    daysOfWeek (Options.handleDayToggle
                  (withDays (ruleOf weekly 1 jan1_2024 None) [Monday; Friday])
                  Wednesday) = Some l'
    /\ strictlySortedDays l'
    /\ (In Wednesday l' <-> ~ In Wednesday [Monday; Friday])
    /\ (forall d, d <> Wednesday -> (In d l' <-> In d [Monday; Friday])).
Proof.
  apply (handleDayToggle_flips
           (withDays (ruleOf weekly 1 jan1_2024 None) [Monday; Friday])
           Wednesday [Monday; Friday]).
  - left. reflexivity.
  - repeat constructor; cbn; lia.
Defined.

(** X14 -- Toggling the same weekday twice gives the rule back, when the
    rule has a selection in ascending order without repeats. *)
Theorem handleDayToggle_twice rule day l :
  daysOfWeek rule = Some l -> strictlySortedDays l ->
  Options.handleDayToggle (Options.handleDayToggle rule day) day = rule.
Proof.
  intros Hd Hs.
  assert (E : daysOfWeek (Options.handleDayToggle
                            (Options.handleDayToggle rule day) day) = Some l).
  { rewrite (handleDayToggle_days _ day
               (if existsb (fun d => Options.sameDay d day) l
                then Options.removeFirst day l
                else Options.sortDays (l ++ [day])))
      by (left; apply handleDayToggle_days; now left).
    f_equal.
    destruct (existsb (fun d => Options.sameDay d day) l) eqn:E1.
    - apply existsb_sameDay in E1.
      assert (Hn : ~ In day (Options.removeFirst day l))
        by (rewrite (removeFirst_In day day l Hs); intuition).
      replace (existsb (fun d => Options.sameDay d day)
                 (Options.removeFirst day l)) with false.
      + rewrite sortDays_append by (now apply removeFirst_sorted || exact Hn).
        now apply insertDay_removeFirst.
      + symmetry. destruct (existsb _ (Options.removeFirst day l)) eqn:E2;
          [| reflexivity].
        apply existsb_sameDay in E2. contradiction.
    - assert (Hn : ~ In day l)
        by (intros Hin; apply existsb_sameDay in Hin; congruence).
      rewrite sortDays_append by assumption.
      replace (existsb (fun d => Options.sameDay d day)
                 (Options.insertDay day l)) with true
        by (symmetry; apply existsb_sameDay, insertDay_In; now left).
      now apply removeFirst_insertDay. }
  destruct rule as [t i dw md mw mwd s e]. cbn in Hd. subst dw.
  unfold Options.handleDayToggle at 1. cbn [type interval monthDay monthWeek
    monthWeekDay startDate endDate].
  unfold Options.handleDayToggle at 1 in E. cbn [daysOfWeek] in E.
  injection E as E.
  unfold Options.handleDayToggle at 2 3 4 5 6 7 8.
  cbn [type interval monthDay monthWeek monthWeekDay startDate endDate].
  f_equal. f_equal. exact E.
Qed.

Lemma handleDayToggle_twice_witness :
  Options.handleDayToggle
    (Options.handleDayToggle (monWedFri jan1_2024) Tuesday) Tuesday
  = monWedFri jan1_2024.
Proof.
  apply (handleDayToggle_twice (monWedFri jan1_2024) Tuesday
           [Monday; Wednesday; Friday]); [reflexivity |].
  repeat constructor; cbn; lia.
Defined.

(** Without a selection yet, two toggles leave the empty selection. *)
Example handleDayToggle_twice_from_none :
  daysOfWeek (Options.handleDayToggle
                (Options.handleDayToggle (ruleOf weekly 1 jan1_2024 None)
                   Tuesday) Tuesday) = Some [].
Proof. reflexivity. Qed.

Lemma dayNumber_dayOfWeekOf n :
  0 <= n < 7 -> dayNumber (Options.dayOfWeekOf n) = n.
Proof.
  intros H. assert (C : n = 0 \/ n = 1 \/ n = 2 \/ n = 3 \/ n = 4 \/ n = 5
                        \/ n = 6) by lia.
  repeat (destruct C as [-> | C]; [reflexivity |]). now subst.
Qed.

Lemma getDate_1_31 t : 1 <= getDate t <= 31.
Proof.
  pose proof (getDate_range t).
  pose proof (monthLength_bounds (monthIndex (Day t))). lia.
Qed.

Lemma handleTypeChange_fields rule t :
  In t Options.typeButtons ->
  validFields (Options.handleTypeChange rule t) = true
  /\ type (Options.handleTypeChange rule t) = t
  /\ interval (Options.handleTypeChange rule t) = 1
  /\ startDate (Options.handleTypeChange rule t) = startDate rule
  /\ endDate (Options.handleTypeChange rule t) = endDate rule
  /\ Options.handleTypeChange (Options.handleTypeChange rule t) t
     = Options.handleTypeChange rule t.
Proof.
  intros Hin.
  assert (Ht : t = daily \/ t = weekly \/ t = monthly \/ t = yearly)
    by (cbn in Hin; intuition).
  pose proof (getDate_1_31 (startDate rule)) as Hg.
  destruct Ht as [-> | [-> | [-> | ->]]];
    (split; [| repeat split]);
    unfold validFields, Options.handleTypeChange;
    cbn [type interval daysOfWeek monthDay]; try reflexivity.
  replace (1 <=? getDate (startDate rule)) with true
    by (symmetry; apply Z.leb_le; lia).
  replace (getDate (startDate rule) <=? 31) with true
    by (symmetry; apply Z.leb_le; lia).
  reflexivity.
Qed.

(** X15 -- Each of the four type buttons gives a rule that keeps the
    invariants on its fields, whatever the rule before: interval 1, for
    weekly the weekday of [startDate] selected, for monthly the day of the
    month of [startDate]; the dates are untouched, and a second click on
    the same button changes nothing. *)
Theorem handleTypeChange_defaults rule t :
  In t Options.typeButtons ->
  validFields (Options.handleTypeChange rule t) = true
  /\ type (Options.handleTypeChange rule t) = t
  /\ interval (Options.handleTypeChange rule t) = 1
  /\ startDate (Options.handleTypeChange rule t) = startDate rule
  /\ endDate (Options.handleTypeChange rule t) = endDate rule
  /\ Options.handleTypeChange (Options.handleTypeChange rule t) t
     = Options.handleTypeChange rule t.
Proof. exact (handleTypeChange_fields rule t). Qed.

Lemma handleTypeChange_defaults_witness :
  validFields (Options.handleTypeChange
                 (ruleOf custom (-3) jan1_2024 None) monthly) = true
  /\ monthDay (Options.handleTypeChange
                 (ruleOf custom (-3) jan1_2024 None) monthly) = Some 1.
Proof.
  destruct (handleTypeChange_defaults (ruleOf custom (-3) jan1_2024 None)
              monthly) as (Hv & _); [cbn; auto |].
  split; [exact Hv | reflexivity].
Defined.

(** *** The selects of the "Advanced" panel *)

Lemma generateLoop_ext r1 r2 count fuel : forall occ cur,
  (forall f d, advance f r1 d = advance f r2 d) ->
  endDate r1 = endDate r2 ->
  generateLoop fuel r1 count occ cur = generateLoop fuel r2 count occ cur.
Proof.
  induction fuel as [| fuel IH]; intros occ cur Ha He; [reflexivity |].
  cbn [generateLoop]. rewrite Ha. unfold pastEnd. rewrite He.
  destruct (Z.of_nat (length occ) <? count); [| reflexivity].
  destruct (advance fuel r2 cur) as [c |]; [| reflexivity].
  destruct (match endDate r2 with Some e => e <? c | None => false end);
    [reflexivity | now apply IH].
Qed.

Lemma returns_ext r1 r2 count l :
  (forall f d, advance f r1 d = advance f r2 d) ->
  endDate r1 = endDate r2 -> startDate r1 = startDate r2 ->
  returns r1 count l -> returns r2 count l.
Proof.
  intros Ha He Hs [n H]. exists n. intros fuel Hf.
  rewrite <- (H fuel Hf). unfold generateOccurrences. rewrite <- Hs.
  symmetry. now apply generateLoop_ext.
Qed.

(** X17 -- While a monthly rule carries a day of the month (the type
    button and the "Day N" button set it, no handler clears it), the two
    selects of the "Advanced" panel change [monthWeek] and [monthWeekDay]
    but not the generated dates. *)
Theorem advanced_selects_ignored rule n week day count l :
  type rule = monthly -> monthDay rule = Some n -> n <> 0 ->
  (returns (Options.handleMonthWeekChange rule week) count l
   <-> returns rule count l)
  /\ (returns (Options.handleMonthWeekDayChange rule day) count l
      <-> returns rule count l).
Proof.
  intros Ht Hn Hz. apply Z.eqb_neq in Hz.
  assert (A1 : forall f d,
             advance f (Options.handleMonthWeekChange rule week) d
             = advance f rule d).
  { intros f d. unfold advance.
    cbn [Options.handleMonthWeekChange type interval daysOfWeek monthDay
         monthWeek monthWeekDay].
    rewrite Ht, Hn, Hz. reflexivity. }
  assert (A2 : forall f d,
             advance f (Options.handleMonthWeekDayChange rule day) d
             = advance f rule d).
  { intros f d. unfold advance.
    cbn [Options.handleMonthWeekDayChange type interval daysOfWeek monthDay
         monthWeek monthWeekDay].
    rewrite Ht, Hn, Hz. reflexivity. }
  split; split; apply returns_ext; auto.
Qed.

Lemma advanced_selects_ignored_witness :
  exists l,
    returns (Options.handleTypeChange (ruleOf weekly 1 jan1_2024 None)
               monthly) 30 l
    /\ returns (Options.handleMonthWeekChange
                  (Options.handleTypeChange (ruleOf weekly 1 jan1_2024 None)
                     monthly) last) 30 l.
Proof.
  eexists. split; [apply generateOccurrences_returns |].
  apply (proj1 (advanced_selects_ignored
                  (Options.handleTypeChange (ruleOf weekly 1 jan1_2024 None)
                     monthly) 1 last Friday 30 _ eq_refl eq_refl
                  ltac:(discriminate))).
  apply generateOccurrences_returns.
Defined.

(* ================================================================= *)
(** * The states of the page *)
(* ================================================================= *)

Lemma isType_eq t u : Component.isType t u = true <-> t = u.
Proof. destruct t, u; cbn; split; congruence. Qed.

Lemma typeButtons_In t :
  existsb (Component.isType t) Options.typeButtons = true ->
  In t Options.typeButtons.
Proof.
  intros H. apply existsb_exists in H as (u & Hin & Hu).
  apply isType_eq in Hu. now subst.
Qed.

Lemma intervalInput_nonzero parsed : Options.intervalInput parsed <> 0.
Proof.
  unfold Options.intervalInput. destruct parsed as [n |]; [| lia].
  destruct (Z.eqb_spec n 0); lia.
Qed.

Lemma pageInvariant_handle st ev :
  pageInvariant st -> Component.rendered st ev = true ->
  pageInvariant (Component.handle st ev).
Proof.
  intros (Hs & He & Hc & Hi & Hm & Hd) Hr.
  destruct ev; cbn [Component.handle]; unfold pageInvariant;
    cbn [Component.changeRule Component.withRule Component.recurrenceRule
         Component.startDate Component.endDate Options.onChange
         type interval daysOfWeek monthDay monthWeek monthWeekDay
         startDate endDate].
  - (* TypeClick *)
    cbn [Component.rendered] in Hr. apply typeButtons_In in Hr.
    destruct (handleTypeChange_fields (Component.recurrenceRule st) t Hr)
      as (_ & Ht & Hint & _).
    rewrite Ht, Hint.
    assert (Hcases : t = daily \/ t = weekly \/ t = monthly \/ t = yearly)
      by (cbn in Hr; intuition).
    repeat split; try lia.
    + destruct Hcases as [-> | [-> | [-> | ->]]]; discriminate.
    + intros ->. cbn [Options.handleTypeChange monthDay].
      eexists. split; [reflexivity | apply getDate_1_31].
    + intros l.
      destruct Hcases as [-> | [-> | [-> | ->]]];
        cbn [Options.handleTypeChange daysOfWeek]; try discriminate.
      intros [= <-]. repeat constructor.
  - (* IntervalInput *)
    cbn [Options.handleIntervalChange type interval daysOfWeek monthDay].
    repeat split; auto using intervalInput_nonzero.
  - (* DayClick *)
    cbn [Options.handleDayToggle type interval monthDay].
    repeat split; auto.
    intros l Hl.
    destruct (daysOfWeek (Component.recurrenceRule st)) as [l0 |] eqn:E.
    + destruct (handleDayToggle_selection (Component.recurrenceRule st) day l0)
        as (l' & Hl' & Hsorted & _); [now left | now apply Hd |].
      congruence.
    + destruct (handleDayToggle_selection (Component.recurrenceRule st) day [])
        as (l' & Hl' & Hsorted & _); [now right | constructor |].
      congruence.
  - (* DayOfMonthClick *)
    cbn [Options.dayOfMonthClick type interval daysOfWeek monthDay].
    repeat split; auto.
    intros _. eexists. split; [reflexivity | apply getDate_1_31].
  - (* AdvancedClick *)
    repeat split; auto.
  - (* MonthWeekSelect *)
    cbn [Options.handleMonthWeekChange type interval daysOfWeek monthDay].
    repeat split; auto.
  - (* MonthWeekDaySelect *)
    cbn [Options.handleMonthWeekDayChange type interval daysOfWeek monthDay].
    repeat split; auto.
  - (* StartDateInput *)
    repeat split; auto.
  - (* EndDateInput *)
    repeat split; auto.
  - repeat split; auto.
  - repeat split; auto.
Qed.

(** X18 -- In every state the page can reach: the rule's dates are the
    picker's dates, the type is never ['custom'], the interval is never 0,
    a monthly rule always carries a day of the month in 1..31, and the
    selected weekdays are in ascending order without repeats. *)
Theorem page_invariant now st :
  Component.reachable now st -> pageInvariant st.
Proof.
  induction 1 as [| st ev Hreach IH Hr].
  - unfold pageInvariant, Component.initial.
    cbn [Component.recurrenceRule Component.startDate Component.endDate
         type interval daysOfWeek monthDay startDate endDate].
    repeat split; try discriminate; lia.
  - now apply pageInvariant_handle.
Qed.

Lemma page_invariant_witness :
  pageInvariant
    (Component.handle
       (Component.handle
          (Component.handle (Component.initial jan1_2024_noon)
             (Component.TypeClick monthly))
          Component.AdvancedClick)
       (Component.MonthWeekSelect second)).
Proof.
  apply (page_invariant jan1_2024_noon).
  repeat (apply Component.reachable_handle; [| reflexivity]).
  apply Component.reachable_initial.
Defined.




(* ================================================================= *)
(** * The month buttons *)
(* ================================================================= *)

Lemma date_from_fields t :
  t = MakeDate (monthStart (monthIndex (Day t)) + getDate t - 1)
        (TimeWithinDay t).
Proof.
  rewrite <- (MakeDate_Day t) at 1. f_equal.
  unfold getDate. destruct (monthIndex_spec (Day t)) as (_ & _ & ->). lia.
Qed.

Lemma date_fields_eq a b :
  monthIndex (Day a) = monthIndex (Day b) -> getDate a = getDate b ->
  TimeWithinDay a = TimeWithinDay b -> a = b.
Proof.
  intros Hi Hd Ht. rewrite (date_from_fields a), (date_from_fields b).
  now rewrite Hi, Hd, Ht.
Qed.

(** X20 -- "Next" followed by "Prev" (or "Prev" followed by "Next") shows
    the same month and year again, at the same time of day, but the day of
    the month of [currentMonth] may have shrunk; it is the same date again
    when that day is at most 28. *)
Theorem month_buttons_round_trip st (ev1 ev2 : Component.Event) :
  (ev1 = Component.NextMonthClick /\ ev2 = Component.PrevMonthClick)
  \/ (ev1 = Component.PrevMonthClick /\ ev2 = Component.NextMonthClick) ->
  let c := Component.currentMonth st in
  let c' := Component.currentMonth
              (Component.handle (Component.handle st ev1) ev2) in
  getFullYear c' = getFullYear c /\ getMonth c' = getMonth c
  /\ getDate c' <= getDate c
  /\ TimeWithinDay c' = TimeWithinDay c
  /\ (getDate c <= 28 -> c' = c)
  /\ Component.recurrenceRule (Component.handle (Component.handle st ev1) ev2)
     = Component.recurrenceRule st.
Proof.
  intros Hev c c'.
  assert (H : exists k, (k = 1 \/ k = -1)
                        /\ c' = addMonths (addMonths c k) (- k)).
  { destruct Hev as [[-> ->] | [-> ->]];
      [exists 1 | exists (-1)]; split; auto. }
  destruct H as (k & Hk & ->).
  destruct (addMonths_day c k) as (I1 & L1 & E1 & _ & T1).
  destruct (addMonths_day (addMonths c k) (- k)) as (I2 & L2 & E2 & _ & T2).
  rewrite I1 in I2.
  replace (monthIndex (Day c) + k + - k) with (monthIndex (Day c)) in I2
    by lia.
  destruct (monthIndex_split c) as [Hc Hmc].
  destruct (monthIndex_split (addMonths (addMonths c k) (- k))) as [Hc' Hmc'].
  rewrite I2, Hc in Hc'.
  split; [lia |]. split; [lia |]. split; [lia |].
  split; [congruence |]. split.
  - intros H28. apply date_fields_eq; [exact I2 | | congruence].
    rewrite E2; rewrite E1; lia.
  - destruct Hev as [[-> ->] | [-> ->]]; reflexivity.
Qed.

Lemma month_buttons_round_trip_witness :
  Component.currentMonth
    (Component.handle
       (Component.handle (Component.initial jan1_2024_noon)
          Component.NextMonthClick) Component.PrevMonthClick)
  = jan1_2024_noon.
Proof.
  apply (month_buttons_round_trip (Component.initial jan1_2024_noon)
           Component.NextMonthClick Component.PrevMonthClick
           (or_introl (conj eq_refl eq_refl))).
  vm_compute. discriminate.
Defined.

(** From 31 March, "Next" then "Prev" gives 30 March. *)
Example month_buttons_shrink :
  let c := addMonths (addMonths (newDate 2024 2 31) 1) (-1) in
  (getFullYear c, getMonth c, getDate c) = (2024, 2, 30).
Proof. vm_compute. reflexivity. Qed.

(* ================================================================= *)
(** * [calculateRecurringDates]: the result *)
(* ================================================================= *)

(** The loop condition only looks at calendar days. *)
Lemma keepGoing_iff current e :
  App.keepGoing current (Some e) = (Day current <=? Day e).
Proof.
  cbn [App.keepGoing]. unfold isBefore, sameDateString.
  destruct (Z.leb_spec (Day current) (Day e)) as [Hle | Hgt].
  - destruct (Z.eqb_spec (Day current) (Day e)) as [| Hne];
      [apply orb_true_r |].
    apply orb_true_iff. left. apply Z.ltb_lt, Day_lt. lia.
  - apply orb_false_iff. split.
    + apply Z.ltb_ge. apply Day_lt in Hgt. lia.
    + apply Z.eqb_neq. lia.
Qed.

Lemma calculates_unique freq interval start end_ l1 l2 :
  calculates freq interval start end_ l1 ->
  calculates freq interval start end_ l2 -> l1 = l2.
Proof.
  intros [n1 H1] [n2 H2].
  specialize (H1 (Nat.max n1 n2) (Nat.le_max_l _ _)).
  specialize (H2 (Nat.max n1 n2) (Nat.le_max_r _ _)).
  congruence.
Qed.

Lemma calculates_datesFrom freq interval start e k :
  1 <= interval -> Day e - Day start < Z.of_nat k ->
  calculates freq interval start (Some e) (datesFrom k freq interval e start).
Proof.
  intros Hi Hk. exists (S k). intros fuel Hf.
  unfold App.calculateRecurringDates.
  rewrite (calculateLoop_eq freq interval e k); try lia. reflexivity.
Qed.

Lemma datesFrom_days k freq interval e : forall current,
  Forall (fun d => Day d <= Day e) (datesFrom k freq interval e current).
Proof.
  induction k as [| k IH]; intros current; cbn [datesFrom]; [constructor |].
  destruct (App.keepGoing current (Some e)) eqn:E; constructor; [| apply IH].
  now apply keepGoing_day.
Qed.

Lemma datesFrom_last k freq interval e : forall current,
  1 <= interval -> Day e - Day current < Z.of_nat k ->
  Day current <= Day e ->
  Day e < Day (App.next freq interval
                 (List.last (datesFrom k freq interval e current) current)).
Proof.
  induction k as [| k IH]; intros current Hi Hk Hc; [lia |].
  cbn [datesFrom]. rewrite keepGoing_iff.
  replace (Day current <=? Day e) with true by (symmetry; apply Z.leb_le; lia).
  pose proof (next_advances freq interval current Hi) as Hn.
  destruct (Z.le_gt_cases (Day (App.next freq interval current)) (Day e))
    as [Hle | Hgt].
  - specialize (IH (App.next freq interval current) Hi ltac:(lia) Hle).
    destruct (datesFrom k freq interval e (App.next freq interval current))
      as [| x xs] eqn:El.
    + destruct k; [lia |]. cbn [datesFrom] in El.
      rewrite keepGoing_iff in El.
      replace (Day (App.next freq interval current) <=? Day e) with true in El
        by (symmetry; apply Z.leb_le; lia).
      discriminate.
    + change (List.last (current :: x :: xs) current)
        with (List.last (x :: xs) current).
      now rewrite (last_default_irrelevant x xs current
                     (App.next freq interval current)).
  - destruct k as [| k]; [exact Hgt |]. cbn [datesFrom].
    rewrite keepGoing_iff.
    replace (Day (App.next freq interval current) <=? Day e) with false
      by (symmetry; apply Z.leb_gt; lia).
    exact Hgt.
Qed.

(** X21 -- Given an end date and an interval of at least 1,
    [calculateRecurringDates] returns a strictly increasing list of dates
    on calendar days up to that of the end date, whatever the times of
    day.  If the start is on a later day than the end the list is empty;
    otherwise it starts with the start date and the date after its last
    one is on a later day than the end. *)
Theorem calculateRecurringDates_result freq interval start e :
  1 <= interval ->
  exists l,
    calculates freq interval start (Some e) l
    /\ strictlyIncreasing l
    /\ Forall (fun d => Day d <= Day e) l
    /\ (Day e < Day start -> l = [])
    /\ (Day start <= Day e ->
        hd_error l = Some start
        /\ Day e < Day (App.next freq interval (List.last l start))).
Proof.
  intros Hi.
  exists (datesFrom (S (Z.to_nat (Day e - Day start + 1))) freq interval e start).
  split; [apply calculates_datesFrom; lia |].
  split; [now apply datesFrom_increasing |].
  split; [apply datesFrom_days |]. split.
  - intros Hlt. cbn [datesFrom]. rewrite keepGoing_iff.
    now replace (Day start <=? Day e) with false
      by (symmetry; apply Z.leb_gt; lia).
  - intros Hle. split.
    + cbn [datesFrom]. rewrite keepGoing_iff.
      now replace (Day start <=? Day e) with true
        by (symmetry; apply Z.leb_le; lia).
    + apply datesFrom_last; lia.
Qed.

Lemma calculateRecurringDates_result_witness :
  exists l,
    calculates App.monthly 1 jan1_2024_noon (Some (newDate 2024 3 1)) l
    /\ strictlyIncreasing l
    /\ Forall (fun d => Day d <= Day (newDate 2024 3 1)) l.
Proof.
  destruct (calculateRecurringDates_result App.monthly 1 jan1_2024_noon
              (newDate 2024 3 1)) as (l & Hc & Hs & Hd & _); [lia |].
  exists l. repeat split; assumption.
Defined.

Lemma next_interval_zero freq current : App.next freq 0 current = current.
Proof. destruct freq; reflexivity. Qed.

Lemma calculateLoop_stuck fuel freq : forall e dates current,
  Day current <= Day e ->
  App.calculateLoop fuel freq 0 (Some e) dates current = None.
Proof.
  induction fuel as [| fuel IH]; intros e dates current Hc; [reflexivity |].
  cbn [App.calculateLoop]. rewrite keepGoing_iff.
  replace (Day current <=? Day e) with true by (symmetry; apply Z.leb_le; lia).
  rewrite next_interval_zero. now apply IH.
Qed.

(** X22 -- With interval 0 and an end date that is not on an earlier day
    than the start, [calculateRecurringDates] never returns, for every
    frequency: the cursor does not move and the loop has no other bound. *)
Theorem calculateRecurringDates_interval_zero freq start e l :
  Day start <= Day e ->
  ~ calculates freq 0 start (Some e) l.
Proof.
  intros Hle [n H]. specialize (H n (Nat.le_refl n)).
  unfold App.calculateRecurringDates in H.
  rewrite calculateLoop_stuck in H by assumption. discriminate.
Qed.

Lemma calculateRecurringDates_interval_zero_witness :
  ~ calculates App.daily 0 jan1_2024 (Some (daysAfter jan1_2024 3))
      [jan1_2024].
Proof.
  apply calculateRecurringDates_interval_zero. vm_compute. discriminate.
Defined.

Lemma next_daily_weekly freq interval current :
  freq = App.daily \/ freq = App.weekly ->
  App.next freq interval current
  = daysAfter current
      (match freq with App.weekly => 7 * interval | _ => interval end).
Proof.
  intros [-> | ->]; cbn [App.next]; unfold addWeeks;
    rewrite addDays_eq, daysAfter_eq; lia.
Qed.

Lemma div_step x p : 0 < p -> p <= x -> (x - p) / p + 1 = x / p.
Proof.
  intros Hp Hx. replace x with ((x - p) + 1 * p) at 2 by lia.
  rewrite Z.div_add by lia. lia.
Qed.

Lemma datesFrom_length_days k freq interval e p : forall current,
  freq = App.daily \/ freq = App.weekly ->
  p = match freq with App.weekly => 7 * interval | _ => interval end ->
  1 <= interval ->
  Day e - Day current < Z.of_nat k -> Day current <= Day e ->
  Z.of_nat (length (datesFrom k freq interval e current))
  = (Day e - Day current) / p + 1.
Proof.
  induction k as [| k IH]; intros current Hf Hp Hi Hk Hc; [lia |].
  assert (Hpos : 0 < p) by (destruct Hf as [-> | ->]; lia).
  cbn [datesFrom]. rewrite keepGoing_iff.
  replace (Day current <=? Day e) with true by (symmetry; apply Z.leb_le; lia).
  cbn [length]. rewrite Nat2Z.inj_succ.
  assert (Hn : Day (App.next freq interval current) = Day current + p).
  { rewrite next_daily_weekly by assumption. rewrite <- Hp.
    rewrite daysAfter_eq. apply Day_add_days. }
  destruct (Z.le_gt_cases (Day current + p) (Day e)) as [Hle | Hgt].
  - rewrite (IH (App.next freq interval current)); try assumption; try lia.
    rewrite Hn. replace (Day e - (Day current + p)) with (Day e - Day current - p)
      by lia.
    pose proof (div_step (Day e - Day current) p Hpos). lia.
  - rewrite Z.div_small by lia.
    destruct k as [| k]; [reflexivity |]. cbn [datesFrom].
    rewrite keepGoing_iff, Hn.
    replace (Day current + p <=? Day e) with false
      by (symmetry; apply Z.leb_gt; lia).
    reflexivity.
Qed.

(** X23 -- How many dates: for the daily and the weekly frequency, an
    interval of at least 1 and an end date not on an earlier day than the
    start, [calculateRecurringDates] returns one date per period ([interval]
    days, or [7 * interval] days) that fits between the day of the start
    and the day of the end, both included. *)
Theorem calculateRecurringDates_count freq interval start e l :
  freq = App.daily \/ freq = App.weekly ->
  1 <= interval -> Day start <= Day e ->
  calculates freq interval start (Some e) l ->
  Z.of_nat (length l)
  = (Day e - Day start)
    / (match freq with App.weekly => 7 * interval | _ => interval end)
    + 1.
Proof.
  intros Hf Hi Hle Hc.
  rewrite (calculates_unique _ _ _ _ _ _ Hc
             (calculates_datesFrom freq interval start e
                (S (Z.to_nat (Day e - Day start))) Hi ltac:(lia))).
  apply datesFrom_length_days; auto; lia.
Qed.

Lemma calculateRecurringDates_count_witness :
  exists l,
    calculates App.weekly 2 jan1_2024_noon (Some (newDate 2024 1 26)) l
    /\ Z.of_nat (length l)
       = (Day (newDate 2024 1 26) - Day jan1_2024_noon) / (7 * 2) + 1.
Proof.
  destruct (calculateRecurringDates_with_end App.weekly 2 jan1_2024_noon
              (newDate 2024 1 26)) as (l & Hc & _); [lia |].
  exists l. split; [exact Hc |].
  apply (calculateRecurringDates_count App.weekly 2 jan1_2024_noon
           (newDate 2024 1 26) l); [now right | lia | | exact Hc].
  vm_compute. discriminate.
Defined.

(* ================================================================= *)
(** * The two generators side by side *)
(* ================================================================= *)

Lemma step_asRule freq interval start end_ current :
  step (asRule freq interval start end_) current
  = App.next freq interval current.
Proof.
  destruct freq; cbn [App.next].
  - now rewrite step_daily.
  - rewrite step_weekly_flat by (reflexivity || now left).
    cbn [Picker.interval asRule]. unfold addWeeks. now rewrite Z.mul_comm.
  - rewrite step_monthly_same by (reflexivity || now left). reflexivity.
  - now rewrite step_yearly.
Qed.

Lemma TimeWithinDay_next freq interval current :
  TimeWithinDay (App.next freq interval current) = TimeWithinDay current.
Proof.
  destruct freq; cbn [App.next]; unfold addWeeks, addYears;
    auto using TimeWithinDay_addDays, TimeWithinDay_addMonths.
Qed.

Lemma pastEnd_keepGoing rule e current :
  endDate rule = Some e -> TimeWithinDay current <= TimeWithinDay e ->
  pastEnd rule current = negb (App.keepGoing current (Some e)).
Proof.
  intros He Ht. unfold pastEnd. rewrite He, keepGoing_iff.
  rewrite <- (MakeDate_Day current) at 1. rewrite <- (MakeDate_Day e) at 1.
  pose proof (TimeWithinDay_bounds current) as Hc.
  pose proof (TimeWithinDay_bounds e) as Hb.
  revert Ht Hc Hb.
  generalize (Day current), (TimeWithinDay current), (Day e), (TimeWithinDay e).
  intros dc tc de te Ht Hc Hb. unfold MakeDate.
  destruct (Z.ltb_spec (de * msPerDay + te) (dc * msPerDay + tc)),
    (Z.leb_spec dc de); try reflexivity; unfold msPerDay in *; lia.
Qed.

Lemma datesFrom_S k freq interval e current :
  datesFrom (S k) freq interval e current
  = if Day current <=? Day e
    then current :: datesFrom k freq interval e (App.next freq interval current)
    else [].
Proof. cbn [datesFrom]. now rewrite keepGoing_iff. Qed.

Lemma datesFrom_occurrencesFrom freq interval start e n : forall current,
  TimeWithinDay current <= TimeWithinDay e ->
  Day current <= Day e ->
  datesFrom (S n) freq interval e current
  = current :: occurrencesFrom n (asRule freq interval start (Some e)) current.
Proof.
  induction n as [| n IH]; intros current Ht Hd; rewrite datesFrom_S;
    replace (Day current <=? Day e) with true
      by (symmetry; apply Z.leb_le; lia);
    [reflexivity |].
  f_equal. cbn [occurrencesFrom]. rewrite step_asRule.
  assert (Ht' : TimeWithinDay (App.next freq interval current)
                <= TimeWithinDay e) by (now rewrite TimeWithinDay_next).
  rewrite (pastEnd_keepGoing _ e) by (reflexivity || exact Ht').
  rewrite keepGoing_iff.
  destruct (Z.leb_spec (Day (App.next freq interval current)) (Day e))
    as [Hle | Hgt]; cbn [negb].
  - now apply IH.
  - rewrite datesFrom_S.
    now replace (Day (App.next freq interval current) <=? Day e) with false
      by (symmetry; apply Z.leb_gt; lia).
Qed.

(** On time values.  The two generators agree.  For an interval of at least 1,
    an end date not on an earlier day than the start and not at an earlier
    time of day, and a count larger than the number of days from start to end,
    [generateOccurrences] on the plain rule of the same type returns the list
    [calculateRecurringDates] returns. *)
Lemma generators_agree_on_time_values freq interval start e count l :
  1 <= interval -> Day start <= Day e ->
  TimeWithinDay start <= TimeWithinDay e ->
  Day e - Day start + 1 < count ->
  calculates freq interval start (Some e) l ->
  returns (asRule freq interval start (Some e)) count l.
Proof.
  intros Hi Hd Ht Hc Hl.
  rewrite (calculates_unique _ _ _ _ _ _ Hl
             (calculates_datesFrom freq interval start e
                (S (Z.to_nat (count - 1))) Hi ltac:(lia))).
  rewrite (datesFrom_occurrencesFrom freq interval start) by assumption.
  apply (generateOccurrences_returns (asRule freq interval start (Some e))
           count).
Qed.

(* ================================================================= *)
(** * [MiniCalendar] *)
(* ================================================================= *)

Lemma setHours_midnight t : setHours t 0 0 0 0 = MakeDate (Day t) 0.
Proof. reflexivity. Qed.

Lemma setHours_end_of_day t :
  setHours t 23 59 59 999 = MakeDate (Day t) (msPerDay - 1).
Proof. reflexivity. Qed.

Lemma Day_setDate_shift t n : Day (setDate t (getDate t + n)) = Day t + n.
Proof.
  unfold setDate, getFullYear, getMonth, getDate.
  rewrite MakeDay_of_day. apply Day_MakeDate, TimeWithinDay_bounds.
Qed.

Lemma startOfWeek_eq t : startOfWeek t = MakeDate (Day t - getDay t) 0.
Proof.
  unfold startOfWeek, weekStartsOn. pose proof (getDay_range t) as Hg.
  replace (getDay t <? 0) with false by (symmetry; apply Z.ltb_ge; lia).
  rewrite setHours_midnight.
  replace (getDate t - (0 + getDay t - 0)) with (getDate t + - getDay t) by lia.
  rewrite Day_setDate_shift.
  replace (Day t + - getDay t) with (Day t - getDay t) by lia. reflexivity.
Qed.

Lemma endOfWeek_eq t :
  endOfWeek t = MakeDate (Day t + 6 - getDay t) (msPerDay - 1).
Proof.
  unfold endOfWeek, weekStartsOn. pose proof (getDay_range t) as Hg.
  replace (getDay t <? 0) with false by (symmetry; apply Z.ltb_ge; lia).
  rewrite setHours_end_of_day, Day_setDate_shift.
  replace (Day t + (0 + 6 - (getDay t - 0))) with (Day t + 6 - getDay t) by lia.
  reflexivity.
Qed.

Lemma map_seq_S {A} (f : nat -> A) n :
  map f (seq 0 (S n)) = f O :: map (fun i => f (S i)) (seq 0 n).
Proof. cbn [seq map]. f_equal. now rewrite <- seq_shift, map_map. Qed.

(** The days the loop of [eachDayOfInterval] pushes, from a midnight. *)
Lemma eachDayLoop_eq endTime (k : nat) : forall fuel d dates,
  Day endTime - d + 1 = Z.of_nat k -> (k < fuel)%nat ->
  eachDayLoop fuel endTime (MakeDate d 0) dates
  = Some (dates ++ map (fun i => MakeDate (d + Z.of_nat i) 0) (seq 0 k)).
Proof.
  induction k as [| k IH]; intros fuel d dates Hk Hf;
    (destruct fuel as [| fuel]; [lia |]); cbn [eachDayLoop].
  - replace (MakeDate d 0 <=? endTime) with false.
    + cbn. now rewrite app_nil_r.
    + symmetry. apply Z.leb_gt.
      assert (H : Day endTime < Day (MakeDate d 0))
        by (rewrite Day_newDate_midnight; lia).
      now apply Day_lt.
  - replace (MakeDate d 0 <=? endTime) with true.
    + rewrite setHours_midnight, Day_setDate_shift, Day_newDate_midnight.
      rewrite IH by lia. rewrite <- app_assoc. cbn [app].
      rewrite map_seq_S. replace (d + Z.of_nat 0) with d by lia.
      rewrite (map_ext (fun i => MakeDate (d + 1 + Z.of_nat i) 0)
                 (fun i => MakeDate (d + Z.of_nat (S i)) 0))
        by (intros i; f_equal; lia).
      reflexivity.
    + symmetry. apply Z.leb_le.
      assert (H : d <= Day endTime) by lia.
      rewrite <- (MakeDate_Day endTime). pose proof (TimeWithinDay_bounds endTime).
      unfold MakeDate, msPerDay in *. lia.
Qed.

(** The interval [MiniCalendar] asks for is always 42 days long. *)
Lemma eachDayOfInterval_grid fuel currentMonth :
  (42 < fuel)%nat ->
  eachDayOfInterval fuel (startOfWeek currentMonth)
    (endOfWeek (addDays currentMonth 35))
  = Some (map (fun i => MakeDate (gridStart currentMonth + Z.of_nat i) 0)
            (seq 0 42)).
Proof.
  intros Hf.
  rewrite (startOfWeek_eq currentMonth), (endOfWeek_eq (addDays currentMonth 35)).
  unfold eachDayOfInterval.
  assert (Hg : getDay (addDays currentMonth 35) = getDay currentMonth).
  { rewrite getDay_addDays. pose proof (getDay_range currentMonth). divmod. }
  rewrite Hg, Day_addDays. fold (gridStart currentMonth).
  replace (Day currentMonth + 35 + 6 - getDay currentMonth)
    with (gridStart currentMonth + 41) by (unfold gridStart; lia).
  replace (MakeDate (gridStart currentMonth + 41) (msPerDay - 1)
           <? MakeDate (gridStart currentMonth) 0) with false
    by (symmetry; apply Z.ltb_ge; unfold MakeDate, msPerDay; lia).
  rewrite setHours_midnight, Day_newDate_midnight.
  rewrite (eachDayLoop_eq _ 42); [reflexivity | | exact Hf].
  rewrite Day_MakeDate by (unfold msPerDay; lia). lia.
Qed.

Lemma weeksLoop_eq occ c days (m : nat) : forall j fuel rows,
  length days = (7 * (j + m))%nat -> (m < fuel)%nat ->
  MiniCalendar.weeksLoop fuel occ c days (7 * j) rows
  = Some (rows
          ++ map (fun r => map (MiniCalendar.cell occ c)
                             (firstn 7 (skipn (7 * (j + r)) days)))
               (seq 0 m)).
Proof.
  induction m as [| m IH]; intros j fuel rows Hl Hf;
    (destruct fuel as [| fuel]; [lia |]); cbn [MiniCalendar.weeksLoop].
  - replace (7 * j <? length days)%nat with false
      by (symmetry; apply Nat.ltb_ge; lia).
    cbn [seq map]. now rewrite app_nil_r.
  - replace (7 * j <? length days)%nat with true
      by (symmetry; apply Nat.ltb_lt; lia).
    replace (7 * j + 7)%nat with (7 * S j)%nat by lia.
    rewrite IH by lia. rewrite <- app_assoc. cbn [app].
    rewrite map_seq_S. replace (j + 0)%nat with j by lia.
    rewrite (map_ext
               (fun r => map (MiniCalendar.cell occ c)
                           (firstn 7 (skipn (7 * (S j + r)) days)))
               (fun r => map (MiniCalendar.cell occ c)
                           (firstn 7 (skipn (7 * (j + S r)) days))))
      by (intros r; now replace (S j + r)%nat with (j + S r)%nat by lia).
    reflexivity.
Qed.

Lemma gridStart_sunday c : (gridStart c + 4) mod 7 = 0.
Proof.
  unfold gridStart. rewrite getDay_eq. generalize (Day c). intros d. divmod.
Qed.

Lemma weeks_eq fuel occ c :
  (42 < fuel)%nat -> MiniCalendar.weeks fuel occ c = Some (grid occ c).
Proof.
  intros Hf. unfold MiniCalendar.weeks, grid.
  rewrite eachDayOfInterval_grid by lia. fold (gridDays c).
  assert (Hlen : length (gridDays c) = 42%nat)
    by (unfold gridDays; now rewrite length_map, length_seq).
  generalize dependent (gridDays c). intros days Hlen.
  change 0%nat with (7 * 0)%nat.
  rewrite (weeksLoop_eq occ c days 6 0) by lia.
  reflexivity.
Qed.

Lemma grid_renders occ c : renders occ c (grid occ c).
Proof. exists 43%nat. intros fuel Hf. apply weeks_eq. lia. Qed.

Lemma renders_grid occ c rows : renders occ c rows -> rows = grid occ c.
Proof.
  intros [n H]. specialize (H (Nat.max n 43) (Nat.le_max_l _ _)).
  rewrite weeks_eq in H by lia. now injection H as <-.
Qed.

Lemma grid_nth occ c r col :
  (r < 6)%nat -> (col < 7)%nat ->
  exists row,
    nth_error (grid occ c) r = Some row /\ length row = 7%nat
    /\ nth_error row col
       = Some (MiniCalendar.cell occ c
                 (MakeDate (gridStart c + Z.of_nat (7 * r + col)) 0)).
Proof.
  intros Hr Hc.
  assert (Hlen : length (gridDays c) = 42%nat)
    by (unfold gridDays; now rewrite length_map, length_seq).
  exists (map (MiniCalendar.cell occ c) (firstn 7 (skipn (7 * r) (gridDays c)))).
  split; [| split].
  - unfold grid. rewrite nth_error_map, nth_error_seq.
    replace (r <? 6)%nat with true by (symmetry; apply Nat.ltb_lt; lia).
    reflexivity.
  - rewrite length_map, length_firstn, length_skipn, Hlen. lia.
  - rewrite nth_error_map, nth_error_firstn, nth_error_skipn.
    replace (col <? 7)%nat with true by (symmetry; apply Nat.ltb_lt; lia).
    unfold gridDays. rewrite nth_error_map, nth_error_seq.
    replace (7 * r + col <? 42)%nat with true
      by (symmetry; apply Nat.ltb_lt; lia).
    reflexivity.
Qed.

Lemma grid_cell occ c r col row x :
  nth_error (grid occ c) r = Some row -> nth_error row col = Some x ->
  (r < 6)%nat /\ (col < 7)%nat
  /\ x = MiniCalendar.cell occ c
           (MakeDate (gridStart c + Z.of_nat (7 * r + col)) 0).
Proof.
  intros Hr Hc.
  assert (Hr6 : (r < 6)%nat).
  { assert (H : (r < length (grid occ c))%nat)
      by (apply nth_error_Some; rewrite Hr; discriminate).
    unfold grid in H. now rewrite length_map, length_seq in H. }
  destruct (grid_nth occ c r 0 Hr6 ltac:(lia)) as (row' & Hr' & Hl & _).
  rewrite Hr in Hr'. injection Hr' as <-.
  assert (Hc7 : (col < 7)%nat)
    by (rewrite <- Hl; apply nth_error_Some; rewrite Hc; discriminate).
  destruct (grid_nth occ c r col Hr6 Hc7) as (row' & Hr' & _ & Hx).
  rewrite Hr in Hr'. injection Hr' as <-.
  rewrite Hc in Hx. injection Hx as ->. auto.
Qed.

Lemma isSameDay_midnight occ d : isSameDay occ (MakeDate d 0) = (Day occ =? d).
Proof.
  unfold isSameDay, startOfDay.
  rewrite !setHours_midnight, Day_newDate_midnight.
  generalize (Day occ). intros o. unfold MakeDate, msPerDay.
  destruct (Z.eqb_spec o d) as [-> | Hne].
  - apply Z.eqb_refl.
  - apply Z.eqb_neq. lia.
Qed.

Lemma isSameMonth_iff a b :
  isSameMonth a b = true <-> monthIndex (Day a) = monthIndex (Day b).
Proof.
  destruct (monthIndex_spec (Day a)) as (_ & Ha & _).
  destruct (monthIndex_spec (Day b)) as (_ & Hb & _).
  unfold isSameMonth, getFullYear, getMonth, monthIndex.
  rewrite andb_true_iff, !Z.eqb_eq.
  revert Ha Hb.
  generalize (YearFromDay (Day a)), (MonthFromDay (Day a)),
    (YearFromDay (Day b)), (MonthFromDay (Day b)).
  intros. lia.
Qed.

Lemma monthIndex_iff M d :
  monthIndex d = M <-> monthStart M <= d < monthStart (M + 1).
Proof.
  split.
  - intros <-. apply monthIndex_spec.
  - apply monthIndex_unique.
Qed.

(** X25 -- [MiniCalendar] always renders 6 rows of 7 cells (the comment in
    the source says 5 weeks): 42 consecutive days at local midnight, from
    the Sunday on or before [currentMonth]; the cell in row [r] and column
    [col] is the day [7 * r + col] days after that Sunday, its weekday is
    [col], and the day of [currentMonth] itself is in the first row. *)
Theorem miniCalendar_grid occurrences currentMonth :
  exists rows,
    renders occurrences currentMonth rows
    /\ length rows = 6%nat
    /\ (forall r col, (r < 6)%nat -> (col < 7)%nat ->
        exists row,
          nth_error rows r = Some row /\ length row = 7%nat
          /\ nth_error row col
             = Some (MiniCalendar.cell occurrences currentMonth
                       (MakeDate (gridStart currentMonth
                                  + Z.of_nat (7 * r + col)) 0))
          /\ getDay (MakeDate (gridStart currentMonth
                               + Z.of_nat (7 * r + col)) 0)
             = Z.of_nat col)
    /\ gridStart currentMonth <= Day currentMonth
       < gridStart currentMonth + 7.
Proof.
  exists (grid occurrences currentMonth).
  split; [apply grid_renders | split; [| split]].
  - unfold grid. now rewrite length_map, length_seq.
  - intros r col Hr Hc.
    destruct (grid_nth occurrences currentMonth r col Hr Hc)
      as (row & Hrow & Hl & Hcell).
    exists row. repeat split; auto.
    rewrite getDay_eq, Day_newDate_midnight.
    pose proof (gridStart_sunday currentMonth) as Hs. revert Hs.
    generalize (gridStart currentMonth). intros g Hs.
    replace (Z.of_nat (7 * r + col)) with (7 * Z.of_nat r + Z.of_nat col)
      by lia.
    assert (Hc' : 0 <= Z.of_nat col < 7) by lia. revert Hc'.
    generalize (Z.of_nat r), (Z.of_nat col). intros a b Hb. divmod.
  - unfold gridStart. pose proof (getDay_range currentMonth). lia.
Qed.

Lemma miniCalendar_grid_witness :
  exists rows,
    renders [jan1_2024_noon] (newDate 2024 0 17) rows
    /\ length rows = 6%nat
    /\ gridStart (newDate 2024 0 17) = Day (newDate 2024 0 14).
Proof.
  destruct (miniCalendar_grid [jan1_2024_noon] (newDate 2024 0 17))
    as (rows & Hr & Hl & _).
  exists rows. split; [exact Hr | split; [exact Hl |]].
  vm_compute. reflexivity.
Defined.

(** X27 -- The calendar shows the first day of the month of [currentMonth]
    only when [currentMonth] lies in the week of that first day, that is when
    its day of the month is at most its weekday number plus one: the grid
    starts at the week of [currentMonth] itself, not at the week of the
    first of the month. *)
Theorem miniCalendar_first_of_month occurrences currentMonth rows :
  renders occurrences currentMonth rows ->
  (exists r col row c,
      nth_error rows r = Some row /\ nth_error row col = Some c
      /\ MiniCalendar.isCurrentMonth c = true
      /\ getDate (MiniCalendar.date c) = 1)
  <-> getDate currentMonth <= getDay currentMonth + 1.
Proof.
  intros Hrows. apply renders_grid in Hrows. subst rows.
  pose proof (getDay_range currentMonth) as Hw.
  pose proof (getDate_range currentMonth) as Hdate.
  destruct (monthIndex_spec (Day currentMonth)) as (Hin & _ & Hd).
  fold (getDate currentMonth) in Hd.
  pose proof (monthLength_bounds (monthIndex (Day currentMonth))) as Hlen.
  rewrite monthLength_eq in Hlen.
  split.
  - intros (r & col & row & c & Hr & Hc & Hm & H1).
    destruct (grid_cell _ _ _ _ _ _ Hr Hc) as (_ & _ & ->).
    cbn [MiniCalendar.cell MiniCalendar.date MiniCalendar.isCurrentMonth] in *.
    rewrite isSameMonth_iff, Day_newDate_midnight in Hm.
    unfold getDate in H1. rewrite Day_newDate_midnight in H1.
    destruct (monthIndex_spec (gridStart currentMonth + Z.of_nat (7 * r + col)))
      as (_ & _ & Hd'). rewrite Hm, H1 in Hd'.
    unfold gridStart in Hd'. lia.
  - intros Hle.
    set (k := Z.to_nat (getDay currentMonth + 1 - getDate currentMonth)).
    destruct (grid_nth occurrences currentMonth 0 k ltac:(lia) ltac:(lia))
      as (row & Hr & _ & Hc).
    exists 0%nat, k, row. eexists. split; [exact Hr | split; [exact Hc |]].
    cbn [MiniCalendar.cell MiniCalendar.date MiniCalendar.isCurrentMonth].
    assert (Hk : gridStart currentMonth + Z.of_nat (7 * 0 + k)
                 = monthStart (monthIndex (Day currentMonth)))
      by (unfold gridStart; lia).
    rewrite Hk.
    assert (Hi : monthIndex (monthStart (monthIndex (Day currentMonth)))
                 = monthIndex (Day currentMonth))
      by (apply monthIndex_unique; lia).
    split.
    + apply isSameMonth_iff. now rewrite Day_newDate_midnight.
    + unfold getDate. rewrite Day_newDate_midnight.
      destruct (monthIndex_spec (monthStart (monthIndex (Day currentMonth))))
        as (_ & _ & ->). rewrite Hi. lia.
Qed.

Lemma miniCalendar_first_of_month_witness :
  ~ exists r col row c,
      nth_error (grid [] (newDate 2024 0 17)) r = Some row
      /\ nth_error row col = Some c
      /\ MiniCalendar.isCurrentMonth c = true
      /\ getDate (MiniCalendar.date c) = 1.
Proof.
  intros H.
  apply (miniCalendar_first_of_month [] (newDate 2024 0 17) _
           (grid_renders _ _)) in H.
  vm_compute in H. now apply H.
Defined.

Example miniCalendar_january_2024 :
  option_map (map (map (fun cell => getDate (MiniCalendar.date cell))))
    (MiniCalendar.weeks 50 [] (newDate 2024 0 17))
  = Some [[14; 15; 16; 17; 18; 19; 20]; [21; 22; 23; 24; 25; 26; 27];
          [28; 29; 30; 31; 1; 2; 3]; [4; 5; 6; 7; 8; 9; 10];
          [11; 12; 13; 14; 15; 16; 17]; [18; 19; 20; 21; 22; 23; 24]].
Proof. vm_compute. reflexivity. Qed.

(* ================================================================= *)
(** * The range of [Date]: the loop over [Date] objects *)
(* ================================================================= *)

Lemma TimeClip_Some t u :
  Clip.TimeClip t = Some u -> u = t /\ - Clip.maxTime <= t <= Clip.maxTime.
Proof.
  unfold Clip.TimeClip.
  destruct (Z.leb_spec (- Clip.maxTime) t), (Z.leb_spec t Clip.maxTime);
    cbn [andb]; try discriminate.
  intros [= <-]. auto.
Qed.

Lemma TimeClip_in t :
  - Clip.maxTime <= t <= Clip.maxTime -> Clip.TimeClip t = Some t.
Proof.
  intros [H1 H2]. unfold Clip.TimeClip.
  apply Z.leb_le in H1, H2. now rewrite H1, H2.
Qed.

Lemma TimeClip_out t :
  Clip.maxTime < t \/ t < - Clip.maxTime -> Clip.TimeClip t = None.
Proof.
  intros H. unfold Clip.TimeClip.
  destruct (Z.leb_spec (- Clip.maxTime) t), (Z.leb_spec t Clip.maxTime);
    cbn [andb]; try reflexivity; lia.
Qed.

Lemma Some_inj {A} (a b : A) : Some a = Some b -> a = b.
Proof. congruence. Qed.

(** *** A valid result is the result on time values *)

Lemma Clip_setDate_sound t n u :
  Clip.setDate (Some t) n = Some u -> u = setDate t n.
Proof. cbn [Clip.setDate]. intros H. apply TimeClip_Some in H. tauto. Qed.

Lemma Clip_addDays_sound t n u :
  Clip.addDays (Some t) n = Some u -> u = addDays t n.
Proof.
  unfold Clip.addDays, addDays. destruct (n =? 0).
  - intros H. apply Some_inj in H. now symmetry.
  - apply Clip_setDate_sound.
Qed.

Lemma Clip_addMonths_sound t n u :
  Clip.addMonths (Some t) n = Some u -> u = addMonths t n.
Proof.
  unfold Clip.addMonths, addMonths. destruct (n =? 0).
  - intros H. apply Some_inj in H. now symmetry.
  - destruct (Clip.TimeClip (setMonth t (getMonth t + n + 1) 0)) as [e |] eqn:E;
      [| discriminate].
    apply TimeClip_Some in E as [E _]. cbv zeta. subst e.
    destruct (getDate (setMonth t (getMonth t + n + 1) 0) <=? getDate t).
    + intros H. apply Some_inj in H. now symmetry.
    + intros H. apply TimeClip_Some in H. tauto.
Qed.

Lemma Clip_addDays_invalid n : Clip.addDays None n = None.
Proof. reflexivity. Qed.

Lemma Clip_scanWeekday_invalid fuel step w :
  Clip.scanWeekday fuel step w None = None.
Proof. induction fuel as [| fuel IH]; [reflexivity | exact IH]. Qed.

Lemma Clip_scanWeekday_sound fuel : forall step w x r,
  Clip.scanWeekday fuel step w (Some x) = Some r ->
  exists r', r = Some r' /\ scanWeekday fuel step w x = Some r'.
Proof.
  induction fuel as [| fuel IH]; intros step w x r; [discriminate |].
  cbn [Clip.scanWeekday scanWeekday Clip.isWeekday].
  destruct (getDay x =? w).
  - intros H. apply Some_inj in H. subst r. now exists x.
  - destruct (Clip.addDays (Some x) step) as [x' |] eqn:E.
    + apply Clip_addDays_sound in E. rewrite E. apply IH.
    + rewrite Clip_scanWeekday_invalid. discriminate.
Qed.

(** For Invalid Date the scan of [getNthWeekdayInMonth] never ends. *)
Lemma Clip_getNthWeekdayInMonth_invalid fuel week weekday :
  Clip.getNthWeekdayInMonth fuel None week weekday = None.
Proof.
  unfold Clip.getNthWeekdayInMonth. cbn [Clip.firstDayOfMonth].
  now rewrite Clip_scanWeekday_invalid.
Qed.

Lemma Clip_getNthWeekdayInMonth_sound fuel t week weekday r :
  Clip.getNthWeekdayInMonth fuel (Some t) week weekday = Some (Some r) ->
  getNthWeekdayInMonth fuel t week weekday = Some r.
Proof.
  unfold Clip.getNthWeekdayInMonth, getNthWeekdayInMonth.
  cbn [Clip.firstDayOfMonth Clip.lastDayOfMonth].
  destruct (Clip.TimeClip (firstDayOfMonth t)) as [f |] eqn:Ef;
    [| rewrite Clip_scanWeekday_invalid; discriminate].
  apply TimeClip_Some in Ef as [Ef _]. subst f.
  destruct (Clip.scanWeekday fuel 1 _ _) as [fw |] eqn:Es; [| discriminate].
  apply Clip_scanWeekday_sound in Es as (fw' & Efw & Es). rewrite Es, Efw.
  destruct week.
  - intros H. apply Some_inj in H. exact H.
  - intros H. apply Some_inj, Clip_addDays_sound in H. rewrite H. reflexivity.
  - intros H. apply Some_inj, Clip_addDays_sound in H. rewrite H. reflexivity.
  - intros H. apply Some_inj, Clip_addDays_sound in H. rewrite H. reflexivity.
  - destruct (Clip.TimeClip (lastDayOfMonth t)) as [l |] eqn:El;
      [| rewrite Clip_scanWeekday_invalid; discriminate].
    apply TimeClip_Some in El as [El _]. subst l. intros H.
    apply Clip_scanWeekday_sound in H as (r' & Hr & H).
    apply Some_inj in Hr. subst r'. exact H.
Qed.

(** One pass from a valid cursor to a valid candidate is the pass on time
    values. *)
Lemma Clip_advance_sound fuel rule t c :
  Clip.advance fuel rule (Some t) = Some (Some c) ->
  advance fuel rule t = Some c.
Proof.
  unfold Clip.advance, advance. destruct (type rule).
  - intros H. apply Some_inj, Clip_addDays_sound in H. rewrite H. reflexivity.
  - destruct (Clip.addDays (Some t) (7 * interval rule)) as [t1 |] eqn:E1.
    + apply Clip_addDays_sound in E1. subst t1.
      destruct (daysOfWeek rule) as [[| d ds] |];
        try (intros H; apply Some_inj in H; exact H).
      intros H. apply Some_inj, Clip_addDays_sound in H. rewrite H.
      reflexivity.
    + destruct (daysOfWeek rule) as [[| d ds] |]; discriminate.
  - assert (Hother :
      match monthWeek rule, monthWeekDay rule with
      | Some week, Some weekday =>
          Clip.getNthWeekdayInMonth fuel
            (Clip.addMonths (Some t) (interval rule)) week weekday
      | _, _ => Some (Clip.addMonths (Some t) (interval rule))
      end = Some (Some c) ->
      match monthWeek rule, monthWeekDay rule with
      | Some week, Some weekday =>
          getNthWeekdayInMonth fuel (addMonths t (interval rule)) week weekday
      | _, _ => Some (addMonths t (interval rule))
      end = Some c).
    { destruct (Clip.addMonths (Some t) (interval rule)) as [t1 |] eqn:E1.
      - apply Clip_addMonths_sound in E1. subst t1.
        destruct (monthWeek rule), (monthWeekDay rule);
          try (intros H; apply Some_inj in H; exact H).
        apply Clip_getNthWeekdayInMonth_sound.
      - destruct (monthWeek rule), (monthWeekDay rule); try discriminate.
        rewrite Clip_getNthWeekdayInMonth_invalid. discriminate. }
    destruct (monthDay rule) as [n |]; [| exact Hother].
    destruct (n =? 0); [exact Hother |].
    destruct (Clip.addMonths (Some t) (interval rule)) as [t1 |] eqn:E1;
      [| discriminate].
    apply Clip_addMonths_sound in E1. subst t1.
    intros H. apply Some_inj, Clip_setDate_sound in H. rewrite H. reflexivity.
  - intros H. apply Some_inj in H. unfold Clip.addYears in H.
    apply Clip_addMonths_sound in H. rewrite H. reflexivity.
  - intros H. apply Some_inj in H. exact H.
Qed.


Lemma Clip_pastEnd_valid rule c :
  Clip.pastEnd rule (Some c) = pastEnd (withValidEnd rule) c.
Proof.
  unfold Clip.pastEnd, pastEnd. cbn [endDate withValidEnd].
  destruct (endDate rule) as [e |]; [| reflexivity].
  now destruct (Clip.TimeClip e).
Qed.

Lemma Clip_pastEnd_invalid rule : Clip.pastEnd rule None = false.
Proof.
  unfold Clip.pastEnd. destruct (endDate rule) as [e |]; [| reflexivity].
  now destruct (Clip.TimeClip e).
Qed.

Lemma advance_withValidEnd fuel rule d :
  advance fuel (withValidEnd rule) d = advance fuel rule d.
Proof. reflexivity. Qed.

(** *** More fuel changes nothing *)

Lemma Clip_scanWeekday_mono fuel : forall step w x r,
  Clip.scanWeekday fuel step w x = Some r ->
  Clip.scanWeekday (S fuel) step w x = Some r.
Proof.
  induction fuel as [| fuel IH]; intros step w x r; [discriminate |].
  intros H. cbn [Clip.scanWeekday] in *.
  destruct (Clip.isWeekday x w); [exact H |]. now apply IH.
Qed.

Lemma Clip_getNthWeekdayInMonth_mono fuel date week weekday r :
  Clip.getNthWeekdayInMonth fuel date week weekday = Some r ->
  Clip.getNthWeekdayInMonth (S fuel) date week weekday = Some r.
Proof.
  unfold Clip.getNthWeekdayInMonth.
  destruct (Clip.scanWeekday fuel 1 (dayNumber weekday)
              (Clip.firstDayOfMonth date)) as [fw |] eqn:E; [| discriminate].
  rewrite (Clip_scanWeekday_mono _ _ _ _ _ E).
  destruct week; auto using Clip_scanWeekday_mono.
Qed.

Lemma Clip_advance_mono fuel rule d c :
  Clip.advance fuel rule d = Some c -> Clip.advance (S fuel) rule d = Some c.
Proof.
  unfold Clip.advance. destruct (type rule); auto.
  destruct (monthDay rule) as [n |]; [destruct (n =? 0) |];
    destruct (monthWeek rule), (monthWeekDay rule);
    auto using Clip_getNthWeekdayInMonth_mono.
Qed.

Lemma Clip_advance_le fuel fuel' rule d c :
  (fuel <= fuel')%nat ->
  Clip.advance fuel rule d = Some c -> Clip.advance fuel' rule d = Some c.
Proof.
  induction 1 as [| m Hm IH]; [auto |].
  intros H. now apply Clip_advance_mono, IH.
Qed.

Lemma Clip_generateLoop_mono fuel rule count : forall occ cur l,
  Clip.generateLoop fuel rule count occ cur = Some l ->
  Clip.generateLoop (S fuel) rule count occ cur = Some l.
Proof.
  induction fuel as [| fuel IH]; intros occ cur l; [discriminate |].
  intros H. cbn [Clip.generateLoop] in *.
  destruct (Z.of_nat (length occ) <? count); [| exact H].
  destruct (Clip.advance fuel rule cur) as [c |] eqn:E; [| discriminate].
  rewrite (Clip_advance_mono _ _ _ _ E).
  destruct (Clip.pastEnd rule c); [exact H |]. now apply IH.
Qed.

Lemma Clip_generateLoop_le fuel fuel' rule count occ cur l :
  (fuel <= fuel')%nat ->
  Clip.generateLoop fuel rule count occ cur = Some l ->
  Clip.generateLoop fuel' rule count occ cur = Some l.
Proof.
  induction 1 as [| m Hm IH]; [auto |].
  intros H. now apply Clip_generateLoop_mono, IH.
Qed.

(** One run with some fuel settles what the call returns. *)
Lemma Clip_returns_run fuel rule count l :
  Clip.generateOccurrences fuel rule count = Some l ->
  Clip.returns rule count l.
Proof.
  intros H. exists fuel. intros fuel' Hf.
  now apply (Clip_generateLoop_le fuel).
Qed.

Lemma Clip_returns_unique rule count l1 l2 :
  Clip.returns rule count l1 -> Clip.returns rule count l2 -> l1 = l2.
Proof.
  intros [n1 H1] [n2 H2].
  specialize (H1 (Nat.max n1 n2) (Nat.le_max_l _ _)).
  specialize (H2 (Nat.max n1 n2) (Nat.le_max_r _ _)).
  congruence.
Qed.

Lemma Clip_yields_run fuel rule d c :
  Clip.advance fuel rule d = Some c -> Clip.yields rule d c.
Proof.
  intros H. exists fuel. intros fuel' Hf. now apply (Clip_advance_le fuel).
Qed.

(** *** The loop *)

Lemma Clip_generateLoop_prefix fuel rule count : forall occ cur l,
  Clip.generateLoop fuel rule count occ cur = Some l ->
  exists rest, l = occ ++ rest.
Proof.
  induction fuel as [| fuel IH]; intros occ cur l; [discriminate |].
  cbn [Clip.generateLoop].
  destruct (Z.of_nat (length occ) <? count);
    [| intros [= <-]; exists []; now rewrite app_nil_r].
  destruct (Clip.advance fuel rule cur) as [c |]; [| discriminate].
  destruct (Clip.pastEnd rule c);
    [intros [= <-]; exists []; now rewrite app_nil_r |].
  intros H. apply IH in H as [rest ->].
  exists (c :: rest). now rewrite <- app_assoc.
Qed.

Lemma map_Some_inj (l1 l2 : list Z) : map Some l1 = map Some l2 -> l1 = l2.
Proof.
  revert l2. induction l1 as [| a l1 IH]; intros [| b l2]; try discriminate;
    [reflexivity |].
  cbn [map]. intros [= -> H]. f_equal. now apply IH.
Qed.

Lemma map_Some_valid (l : list Z) : ~ In None (map Some l).
Proof.
  intros H. apply in_map_iff in H as (x & Hx & _). discriminate.
Qed.

(** When every returned date is valid, the loop did what the loop on time
    values does. *)
Lemma Clip_generateLoop_sound fuel rule count : forall occ cur l,
  Clip.generateLoop fuel rule count (map Some occ) (Some cur)
  = Some (map Some l) ->
  generateLoop fuel (withValidEnd rule) count occ cur = Some l.
Proof.
  induction fuel as [| fuel IH]; intros occ cur l; [discriminate |].
  cbn [Clip.generateLoop generateLoop]. rewrite length_map. unfold Date.
  destruct (Z.of_nat (length occ) <? count);
    [| intros [= H]; apply map_Some_inj in H; rewrite H; reflexivity].
  rewrite advance_withValidEnd.
  destruct (Clip.advance fuel rule (Some cur)) as [[c |] |] eqn:E;
    [| | discriminate].
  - rewrite (Clip_advance_sound _ _ _ _ E), Clip_pastEnd_valid.
    destruct (pastEnd (withValidEnd rule) c);
      [intros [= H]; apply map_Some_inj in H; rewrite H; reflexivity |].
    change [Some c] with (map Some [c]). rewrite <- map_app. apply IH.
  - rewrite Clip_pastEnd_invalid. intros H.
    apply Clip_generateLoop_prefix in H as [rest H].
    exfalso. apply (map_Some_valid l). rewrite H.
    apply in_or_app. left. apply in_or_app. right. now left.
Qed.

(** The call returned a list of valid dates. *)
Lemma Clip_returns_valid_start rule count l :
  Clip.returns rule count (map Some l) ->
  Clip.TimeClip (startDate rule) = Some (startDate rule).
Proof.
  intros [n H]. specialize (H n (Nat.le_refl n)).
  apply Clip_generateLoop_prefix in H as [rest H].
  destruct l as [| a l]; [discriminate |].
  cbn [map app] in H. injection H as H _.
  symmetry in H. pose proof (TimeClip_Some _ _ H) as [-> _]. exact H.
Qed.

Lemma Clip_returns_sound rule count l :
  Clip.returns rule count (map Some l) ->
  returns (withValidEnd rule) count l.
Proof.
  intros H. pose proof (Clip_returns_valid_start _ _ _ H) as Hs.
  destruct H as [n H]. exists n. intros fuel Hf. specialize (H fuel Hf).
  unfold Clip.generateOccurrences in H. rewrite Hs in H.
  now apply (Clip_generateLoop_sound fuel rule count [startDate rule]).
Qed.

(** *** Rules that do not take the nth-weekday branch always return *)

Lemma Clip_advance_total rule d :
  usesNthWeekday rule = false ->
  exists c, forall fuel, Clip.advance fuel rule d = Some c.
Proof.
  unfold usesNthWeekday, Clip.advance. intros H.
  destruct (type rule); try (eexists; intros; reflexivity).
  - destruct (daysOfWeek rule) as [[| w ws] |];
      try (eexists; intros; reflexivity).
    destruct (Clip.addDays d (7 * interval rule));
      eexists; intros; reflexivity.
  - destruct (monthDay rule) as [n |]; [destruct (n =? 0) |];
      destruct (monthWeek rule), (monthWeekDay rule);
      try discriminate; eexists; intros; reflexivity.
Qed.

Lemma Clip_generateLoop_total rule count (k : nat) :
  usesNthWeekday rule = false ->
  forall occ cur,
    count - Z.of_nat (length occ) <= Z.of_nat k ->
    exists l, Clip.generateLoop (S k) rule count occ cur = Some l.
Proof.
  intros Hn. induction k as [| k IH]; intros occ cur Hk;
    cbn [Clip.generateLoop].
  - destruct (Z.ltb_spec (Z.of_nat (length occ)) count); [lia |].
    now exists occ.
  - destruct (Z.ltb_spec (Z.of_nat (length occ)) count);
      [| now exists occ].
    destruct (Clip_advance_total rule cur Hn) as [c Hc]. rewrite Hc.
    destruct (Clip.pastEnd rule c); [now exists occ |].
    apply IH. rewrite length_app. cbn [length]. lia.
Qed.

Lemma Clip_returns_total rule count :
  usesNthWeekday rule = false -> exists l, Clip.returns rule count l.
Proof.
  intros Hn.
  destruct (Clip_generateLoop_total rule count (Z.to_nat count) Hn
              [Clip.TimeClip (startDate rule)] (Clip.TimeClip (startDate rule)))
    as [l Hl]; [lia |].
  exists l. now apply (Clip_returns_run (S (Z.to_nat count))).
Qed.

(** *** The length of the result *)

Lemma Clip_pastEnd_no_end rule c :
  endDate rule = None -> Clip.pastEnd rule c = false.
Proof. unfold Clip.pastEnd. now intros ->. Qed.

Lemma Clip_generateLoop_length fuel rule count : forall occ cur l,
  Clip.generateLoop fuel rule count occ cur = Some l ->
  (length occ <= length l <= Nat.max (length occ) (Z.to_nat count))%nat
  /\ (endDate rule = None ->
      length l = Nat.max (length occ) (Z.to_nat count)).
Proof.
  induction fuel as [| fuel IH]; intros occ cur l; [discriminate |].
  cbn [Clip.generateLoop].
  destruct (Z.ltb_spec (Z.of_nat (length occ)) count) as [Hlt | Hge];
    [| intros [= <-]; split; [lia | intros _; lia]].
  destruct (Clip.advance fuel rule cur) as [c |]; [| discriminate].
  destruct (Clip.pastEnd rule c) eqn:Ep.
  - intros [= <-]. split; [lia |]. intros He.
    now rewrite Clip_pastEnd_no_end in Ep.
  - intros H. apply IH in H as [H1 H2].
    rewrite length_app in H1, H2. cbn [length] in H1, H2.
    split; [lia |]. intros He. specialize (H2 He). lia.
Qed.

(** *** Why the loop stopped early *)

Lemma Clip_generateLoop_stop fuel rule count : forall occ cur l,
  Clip.generateLoop fuel rule count occ cur = Some l ->
  List.last occ None = cur ->
  Z.of_nat (length l) < count ->
  exists c, Clip.yields rule (List.last l None) c
            /\ Clip.pastEnd rule c = true.
Proof.
  induction fuel as [| fuel IH]; intros occ cur l; [discriminate |].
  cbn [Clip.generateLoop].
  destruct (Z.ltb_spec (Z.of_nat (length occ)) count) as [Hlt | Hge];
    [| intros [= <-]; lia].
  destruct (Clip.advance fuel rule cur) as [c |] eqn:E; [| discriminate].
  destruct (Clip.pastEnd rule c) eqn:Ep.
  - intros [= <-] Hl _. exists c. rewrite Hl.
    split; [now apply (Clip_yields_run fuel) | exact Ep].
  - intros H _ Hlen. apply (IH _ _ _ H); [| exact Hlen].
    apply last_last.
Qed.

Lemma Clip_pastEnd_true rule c :
  Clip.pastEnd rule c = true ->
  exists e t, endDate rule = Some e /\ Clip.TimeClip e = Some e
              /\ c = Some t /\ e < t.
Proof.
  unfold Clip.pastEnd. destruct (endDate rule) as [e |]; [| discriminate].
  destruct (Clip.TimeClip e) as [e' |] eqn:E; [| discriminate].
  pose proof (TimeClip_Some _ _ E) as [-> _].
  destruct c as [t |]; [| discriminate].
  intros H. apply Z.ltb_lt in H. exists e, t. repeat split; auto.
Qed.

(* ================================================================= *)
(** * The generated sequence, as [Date] objects *)
(* ================================================================= *)






(** *** An end date before the start *)








(** *** Length and end date *)

(** X1 -- The length of the result.  A rule that does not take the
    nth-weekday branch returns for every count; whatever the call returns
    has at least 1 and at most the count of elements (Invalid Dates
    included), and without an end date exactly the count (1 for a count
    below 1). *)
Theorem generateOccurrences_length rule count :
  (usesNthWeekday rule = false -> exists l, Clip.returns rule count l)
  /\ (forall l, Clip.returns rule count l ->
      (1 <= length l <= Z.to_nat (Z.max 1 count))%nat
      /\ (endDate rule = None -> length l = Z.to_nat (Z.max 1 count))).
Proof.
  split; [apply Clip_returns_total |].
  intros l [n H]. specialize (H n (Nat.le_refl n)).
  apply Clip_generateLoop_length in H as [H1 H2]. cbn [length] in H1, H2.
  split; [lia |]. intros He. specialize (H2 He). lia.
Qed.

Lemma generateOccurrences_length_witness :
  exists l, Clip.returns (ruleOf monthly 3 jan1_2024 None) 12 l
            /\ length l = 12%nat.
Proof.
  destruct (proj1 (generateOccurrences_length (ruleOf monthly 3 jan1_2024 None)
                     12) eq_refl) as [l Hl].
  exists l. split; [exact Hl |].
  now apply (proj2 (generateOccurrences_length
                      (ruleOf monthly 3 jan1_2024 None) 12) l Hl).
Defined.

Lemma last_map_Some (l : list Z) d :
  l <> [] -> List.last (map Some l) None = Some (List.last l d).
Proof.
  induction l as [| a l IH]; [congruence |]. intros _.
  destruct l as [| b l]; [reflexivity |].
  change (List.last (map Some (a :: b :: l)) None)
    with (List.last (map Some (b :: l)) None).
  change (List.last (a :: b :: l) d) with (List.last (b :: l) d).
  apply IH. discriminate.
Qed.

(** X2 -- With a valid end date, when the call returns valid dates only:
    every date after the first is at or before [endDate] (as time values),
    and when fewer dates than the count are returned the candidate after
    the last one was a valid date later than [endDate]. *)
Theorem generateOccurrences_stops_at_endDate rule count e l :
  endDate rule = Some e -> Clip.TimeClip e = Some e ->
  Clip.returns rule count (map Some l) ->
  Forall (fun d => d <= e) (tl l)
  /\ (Z.of_nat (length l) < count ->
      exists c,
        Clip.yields rule (Some (List.last l (startDate rule))) (Some c)
        /\ e < c).
Proof.
  intros He Hve Hr. split.
  - apply Clip_returns_sound in Hr.
    destruct (occurrences_stop_at_endDate (withValidEnd rule) count e)
      as (l0 & Hr0 & Hb & _);
      [cbn [endDate withValidEnd]; now rewrite He |].
    now rewrite (returns_unique _ _ _ _ Hr Hr0).
  - intros Hlen. pose proof (Clip_returns_valid_start _ _ _ Hr) as Hs.
    destruct Hr as [n Hr]. specialize (Hr n (Nat.le_refl n)).
    unfold Clip.generateOccurrences in Hr.
    assert (Hne : l <> []).
    { apply Clip_generateLoop_prefix in Hr as [rest Hr].
      destruct l; [discriminate | discriminate]. }
    destruct (Clip_generateLoop_stop _ _ _ _ _ _ Hr eq_refl) as (c & Hy & Hp);
      [now rewrite length_map |].
    apply Clip_pastEnd_true in Hp as (e0 & t & He0 & _ & -> & Hlt).
    rewrite He in He0. injection He0 as <-.
    exists t. split; [| exact Hlt].
    pose proof (last_map_Some l (startDate rule) Hne) as E.
    unfold Clip.DateObject in Hy. rewrite E in Hy. exact Hy.
Qed.

Lemma generateOccurrences_stops_at_endDate_witness :
  Forall (fun d => d <= daysAfter jan1_2024 5)
    [daysAfter jan1_2024 2; daysAfter jan1_2024 4]
  /\ exists c,
       Clip.yields (ruleOf daily 2 jan1_2024 (Some (daysAfter jan1_2024 5)))
         (Some (daysAfter jan1_2024 4)) (Some c)
       /\ daysAfter jan1_2024 5 < c.
Proof.
  destruct (generateOccurrences_stops_at_endDate
              (ruleOf daily 2 jan1_2024 (Some (daysAfter jan1_2024 5))) 30
              (daysAfter jan1_2024 5)
              [jan1_2024; daysAfter jan1_2024 2; daysAfter jan1_2024 4]
              eq_refl eq_refl) as [Hb Hc].
  - apply (Clip_returns_run 40). vm_compute. reflexivity.
  - split; [exact Hb |]. apply Hc. cbn [length]. lia.
Defined.

(** *** The sequence, type by type *)

Ltac clip_run n := apply (Clip_returns_run n); vm_compute; reflexivity.

(** X4 -- A daily rule, when the call returns valid dates only: the date
    at index [k] of the result is [k * interval] days after [startDate], at
    the same time of day. *)
Theorem daily_occurrences rule count l k d :
  type rule = daily ->
  Clip.returns rule count (map Some l) -> nth_error l k = Some d ->
  d = daysAfter (startDate rule) (Z.of_nat k * interval rule)
  /\ TimeWithinDay d = TimeWithinDay (startDate rule).
Proof.
  intros Ht Hr Hk.
  exact (daily_dates (withValidEnd rule) count l k d Ht
           (Clip_returns_sound _ _ _ Hr) Hk).
Qed.

Lemma daily_occurrences_witness :
  Clip.returns (ruleOf daily 3 jan1_2024 None) 5
    (map Some [jan1_2024; daysAfter jan1_2024 3; daysAfter jan1_2024 6;
               daysAfter jan1_2024 9; daysAfter jan1_2024 12])
  /\ daysAfter jan1_2024 12
     = daysAfter (startDate (ruleOf daily 3 jan1_2024 None))
         (Z.of_nat 4 * interval (ruleOf daily 3 jan1_2024 None)).
Proof.
  assert (Hr : Clip.returns (ruleOf daily 3 jan1_2024 None) 5
                 (map Some [jan1_2024; daysAfter jan1_2024 3;
                            daysAfter jan1_2024 6; daysAfter jan1_2024 9;
                            daysAfter jan1_2024 12])) by clip_run 10%nat.
  split; [exact Hr |].
  apply (daily_occurrences (ruleOf daily 3 jan1_2024 None) 5 _ 4
           (daysAfter jan1_2024 12) eq_refl Hr eq_refl).
Defined.

(** X5 -- A weekly rule with selected weekdays, when the call returns
    valid dates only: every date after the first falls on one of the
    selected weekdays, and each date is between [7 * interval] and
    [7 * interval + 6] days after the one before it. *)
Theorem weekly_selected_days rule count l w ws :
  type rule = weekly -> daysOfWeek rule = Some (w :: ws) ->
  Clip.returns rule count (map Some l) ->
  Forall (fun d => In (getDay d) (map dayNumber (w :: ws))) (tl l)
  /\ Sorted (fun a b => exists k, 0 <= k <= 6
                          /\ b = daysAfter a (7 * interval rule + k)) l.
Proof.
  intros Ht Hd Hr.
  exact (weekly_selected_dates (withValidEnd rule) count l w ws Ht Hd
           (Clip_returns_sound _ _ _ Hr)).
Qed.

Lemma weekly_selected_days_witness :
  exists l,
    Clip.returns (monWedFri jan1_2024) 30 (map Some l)
    /\ length l = 30%nat
    /\ Forall (fun d => In (getDay d) [1; 3; 5]) (tl l).
Proof.
  exists (jan1_2024 :: occurrencesFrom 29 (monWedFri jan1_2024) jan1_2024).
  assert (Hr : Clip.returns (monWedFri jan1_2024) 30
                 (map Some
                    (jan1_2024
                     :: occurrencesFrom 29 (monWedFri jan1_2024) jan1_2024)))
    by clip_run 40%nat.
  split; [exact Hr |]. split; [vm_compute; reflexivity |].
  apply (weekly_selected_days (monWedFri jan1_2024) 30 _ Monday
           [Wednesday; Friday] eq_refl eq_refl Hr).
Defined.

(** X6 -- A weekly rule with no selected weekdays, or whose only selected
    weekday is the weekday of [startDate] (the default the type button
    sets), when the call returns valid dates only: the date at index [k]
    is [7 * interval * k] days after [startDate]. *)
Theorem weekly_evenly_spaced rule count l k d :
  type rule = weekly ->
  (daysOfWeek rule = None \/ daysOfWeek rule = Some []
   \/ exists w, daysOfWeek rule = Some [w]
                /\ dayNumber w = getDay (startDate rule)) ->
  Clip.returns rule count (map Some l) -> nth_error l k = Some d ->
  d = daysAfter (startDate rule) (Z.of_nat k * (7 * interval rule)).
Proof.
  intros Ht Hd Hr Hk.
  exact (weekly_flat_dates (withValidEnd rule) count l k d Ht Hd
           (Clip_returns_sound _ _ _ Hr) Hk).
Qed.

Lemma weekly_evenly_spaced_witness :
  Clip.returns (withDays (ruleOf weekly 2 jan1_2024 None) [Monday]) 4
    (map Some [jan1_2024; daysAfter jan1_2024 14; daysAfter jan1_2024 28;
               daysAfter jan1_2024 42])
  /\ daysAfter jan1_2024 42
     = daysAfter
         (startDate (withDays (ruleOf weekly 2 jan1_2024 None) [Monday]))
         (Z.of_nat 3
          * (7 * interval
                   (withDays (ruleOf weekly 2 jan1_2024 None) [Monday]))).
Proof.
  assert (Hr : Clip.returns
                 (withDays (ruleOf weekly 2 jan1_2024 None) [Monday]) 4
                 (map Some [jan1_2024; daysAfter jan1_2024 14;
                            daysAfter jan1_2024 28; daysAfter jan1_2024 42]))
    by clip_run 10%nat.
  split; [exact Hr |].
  eapply (weekly_evenly_spaced
            (withDays (ruleOf weekly 2 jan1_2024 None) [Monday]) 4 _ 3
            (daysAfter jan1_2024 42) eq_refl); [| exact Hr | reflexivity].
  right. right. exists Monday. split; reflexivity.
Defined.

(** X7 -- A monthly rule on a day of the month from 1 to 28, when the
    call returns valid dates only: every date after the first is on that
    day, each one exactly [interval] months after the one before it, at
    the same time of day. *)
Theorem monthly_on_day rule count l n :
  type rule = monthly -> monthDay rule = Some n -> 1 <= n <= 28 ->
  Clip.returns rule count (map Some l) ->
  Forall (fun d => getDate d = n) (tl l)
  /\ Sorted (fun a b =>
               12 * getFullYear b + getMonth b
               = 12 * getFullYear a + getMonth a + interval rule
               /\ TimeWithinDay b = TimeWithinDay a) l.
Proof.
  intros Ht Hn Hr Hret.
  exact (monthly_on_day_dates (withValidEnd rule) count l n Ht Hn Hr
           (Clip_returns_sound _ _ _ Hret)).
Qed.

Lemma monthly_on_day_witness :
  exists l,
    Clip.returns (withMonthDay (ruleOf monthly 2 jan1_2024 None) 15) 30
      (map Some l)
    /\ length l = 30%nat
    /\ Forall (fun d => getDate d = 15) (tl l).
Proof.
  exists (jan1_2024
          :: occurrencesFrom 29
               (withMonthDay (ruleOf monthly 2 jan1_2024 None) 15) jan1_2024).
  assert (Hr : Clip.returns
                 (withMonthDay (ruleOf monthly 2 jan1_2024 None) 15) 30
                 (map Some
                    (jan1_2024
                     :: occurrencesFrom 29
                          (withMonthDay (ruleOf monthly 2 jan1_2024 None) 15)
                          jan1_2024))) by clip_run 40%nat.
  split; [exact Hr |]. split; [vm_compute; reflexivity |].
  eapply (monthly_on_day
            (withMonthDay (ruleOf monthly 2 jan1_2024 None) 15) 30 _ 15
            eq_refl eq_refl); [lia | exact Hr].
Defined.

(** X8 -- A monthly rule with neither a day of the month nor an nth
    weekday, when the call returns valid dates only: each date is exactly
    [interval] months after the one before it, on the same day of the
    month or, when that month is shorter, on its last day; the day of the
    month never grows back. *)
Theorem monthly_same_day rule count l :
  type rule = monthly ->
  monthDay rule = None \/ monthDay rule = Some 0 ->
  monthWeek rule = None \/ monthWeekDay rule = None ->
  Clip.returns rule count (map Some l) ->
  Sorted (fun a b =>
            12 * getFullYear b + getMonth b
            = 12 * getFullYear a + getMonth a + interval rule
            /\ getDate b <= getDate a
            /\ (getDate a <= 28 -> getDate b = getDate a)
            /\ (getDate b = getDate a \/ getDate (addDays b 1) = 1)
            /\ TimeWithinDay b = TimeWithinDay a) l.
Proof.
  intros Ht Hn Hw Hr.
  exact (monthly_same_day_dates (withValidEnd rule) count l Ht Hn Hw
           (Clip_returns_sound _ _ _ Hr)).
Qed.

Lemma monthly_same_day_witness :
  exists l,
    Clip.returns (ruleOf monthly 1 (newDate 2024 0 31) None) 4 (map Some l)
    /\ map getDate l = [31; 29; 29; 29]
    /\ Sorted (fun a b =>
                 12 * getFullYear b + getMonth b
                 = 12 * getFullYear a + getMonth a
                   + interval (ruleOf monthly 1 (newDate 2024 0 31) None)
                 /\ getDate b <= getDate a
                 /\ (getDate a <= 28 -> getDate b = getDate a)
                 /\ (getDate b = getDate a \/ getDate (addDays b 1) = 1)
                 /\ TimeWithinDay b = TimeWithinDay a) l.
Proof.
  exists (newDate 2024 0 31
          :: occurrencesFrom 3 (ruleOf monthly 1 (newDate 2024 0 31) None)
               (newDate 2024 0 31)).
  assert (Hr : Clip.returns (ruleOf monthly 1 (newDate 2024 0 31) None) 4
                 (map Some
                    (newDate 2024 0 31
                     :: occurrencesFrom 3
                          (ruleOf monthly 1 (newDate 2024 0 31) None)
                          (newDate 2024 0 31)))) by clip_run 10%nat.
  split; [exact Hr |]. split; [vm_compute; reflexivity |].
  apply (monthly_same_day (ruleOf monthly 1 (newDate 2024 0 31) None) 4 _
           eq_refl (or_introl eq_refl) (or_introl eq_refl) Hr).
Defined.

(** X9 -- A yearly rule, when the call returns valid dates only: each
    date is exactly [interval] years after the one before it, in the same
    month, at the same time of day, and on the same day of the month,
    except that 29 February becomes 28 February when the year reached is
    not a leap year. *)
Theorem yearly_occurrences rule count l :
  type rule = yearly -> Clip.returns rule count (map Some l) ->
  Sorted (fun a b =>
            getFullYear b = getFullYear a + interval rule
            /\ getMonth b = getMonth a
            /\ (getDate b = getDate a
                \/ (getMonth a = 1 /\ getDate a = 29 /\ getDate b = 28
                    /\ InLeapYear (getFullYear b) = false))
            /\ TimeWithinDay b = TimeWithinDay a) l.
Proof.
  intros Ht Hr.
  exact (yearly_dates (withValidEnd rule) count l Ht
           (Clip_returns_sound _ _ _ Hr)).
Qed.

Lemma yearly_occurrences_witness :
  exists l,
    Clip.returns (ruleOf yearly 1 (newDate 2024 1 29) None) 6 (map Some l)
    /\ map (fun d => (getFullYear d, getMonth d, getDate d)) l
       = [(2024, 1, 29); (2025, 1, 28); (2026, 1, 28); (2027, 1, 28);
          (2028, 1, 28); (2029, 1, 28)]
    /\ Sorted (fun a b =>
                 getFullYear b
                 = getFullYear a
                   + interval (ruleOf yearly 1 (newDate 2024 1 29) None)
                 /\ getMonth b = getMonth a
                 /\ (getDate b = getDate a
                     \/ (getMonth a = 1 /\ getDate a = 29 /\ getDate b = 28
                         /\ InLeapYear (getFullYear b) = false))
                 /\ TimeWithinDay b = TimeWithinDay a) l.
Proof.
  exists (newDate 2024 1 29
          :: occurrencesFrom 5 (ruleOf yearly 1 (newDate 2024 1 29) None)
               (newDate 2024 1 29)).
  assert (Hr : Clip.returns (ruleOf yearly 1 (newDate 2024 1 29) None) 6
                 (map Some
                    (newDate 2024 1 29
                     :: occurrencesFrom 5
                          (ruleOf yearly 1 (newDate 2024 1 29) None)
                          (newDate 2024 1 29)))) by clip_run 10%nat.
  split; [exact Hr |]. split; [vm_compute; reflexivity |].
  apply (yearly_occurrences (ruleOf yearly 1 (newDate 2024 1 29) None) 6 _
           eq_refl Hr).
Defined.

(** X10 -- The time of day, when the call returns valid dates only.
    Unless the rule takes the nth-weekday branch, every returned date has
    the time of day of [startDate]; on that branch every date after the
    first is a local midnight, whatever the time of day of [startDate]. *)
Theorem occurrences_time_of_day rule count l :
  Clip.returns rule count (map Some l) ->
  (usesNthWeekday rule = false ->
   Forall (fun d => TimeWithinDay d = TimeWithinDay (startDate rule)) l)
  /\ (usesNthWeekday rule = true ->
      Forall (fun d => TimeWithinDay d = 0) (tl l)).
Proof.
  intros Hr.
  exact (time_of_day_dates (withValidEnd rule) count l
           (Clip_returns_sound _ _ _ Hr)).
Qed.

Lemma occurrences_time_of_day_witness :
  exists l,
    Clip.returns (withNthWeekday (ruleOf monthly 1 jan1_2024_noon None)
                    second Tuesday) 3 (map Some l)
    /\ length l = 3%nat
    /\ Forall (fun d => TimeWithinDay d = 0) (tl l)
    /\ TimeWithinDay jan1_2024_noon = 12 * 3600000.
Proof.
  exists (jan1_2024_noon
          :: occurrencesFrom 2
               (withNthWeekday (ruleOf monthly 1 jan1_2024_noon None)
                  second Tuesday) jan1_2024_noon).
  assert (Hr : Clip.returns
                 (withNthWeekday (ruleOf monthly 1 jan1_2024_noon None)
                    second Tuesday) 3
                 (map Some
                    (jan1_2024_noon
                     :: occurrencesFrom 2
                          (withNthWeekday
                             (ruleOf monthly 1 jan1_2024_noon None)
                             second Tuesday) jan1_2024_noon)))
    by clip_run 10%nat.
  split; [exact Hr |]. split; [reflexivity |]. split; [| reflexivity].
  apply (proj2 (occurrences_time_of_day _ 3 _ Hr)). reflexivity.
Defined.

(** *** After the type buttons *)

(** X16 -- What the type buttons anchor on, when the call returns valid
    dates only.  After the weekly button the date at index [k] is [7 * k]
    days after [startDate]; after the monthly button, when [startDate] is
    on day 1..28 of its month, every date is on that same day of the
    month. *)
Theorem type_button_anchors rule count :
  (forall l k d,
     Clip.returns (Options.handleTypeChange rule weekly) count (map Some l) ->
     nth_error l k = Some d ->
     d = daysAfter (startDate rule) (Z.of_nat k * 7))
  /\ (getDate (startDate rule) <= 28 ->
      forall l,
        Clip.returns (Options.handleTypeChange rule monthly) count
          (map Some l) ->
        Forall (fun d => getDate d = getDate (startDate rule)) l).
Proof.
  split.
  - intros l k d Hr Hk. apply Clip_returns_sound in Hr.
    apply (weekly_flat_dates
             (withValidEnd (Options.handleTypeChange rule weekly))
             count l k d eq_refl); [| exact Hr | exact Hk].
    right. right. exists (Options.dayOfWeekOf (getDay (startDate rule))).
    split; [reflexivity |].
    apply dayNumber_dayOfWeekOf, getDay_range.
  - intros H28 l Hr. apply Clip_returns_sound in Hr.
    pose proof (getDate_1_31 (startDate rule)) as Hg.
    destruct (monthly_on_day_dates
                (withValidEnd (Options.handleTypeChange rule monthly)) count l
                (getDate (startDate rule)) eq_refl eq_refl) as [Hf _];
      [lia | exact Hr |].
    rewrite (returns_unique _ _ _ _ Hr
               (generateOccurrences_returns _ count)) in *.
    constructor; [reflexivity | exact Hf].
Qed.

Lemma type_button_anchors_witness :
  exists l,
    Clip.returns
      (Options.handleTypeChange (ruleOf daily 5 (newDate 2024 0 15) None)
         monthly) 12 (map Some l)
    /\ length l = 12%nat
    /\ Forall (fun d => getDate d
                        = getDate (startDate
                                     (ruleOf daily 5 (newDate 2024 0 15) None)))
         l.
Proof.
  exists (newDate 2024 0 15
          :: occurrencesFrom 11
               (Options.handleTypeChange
                  (ruleOf daily 5 (newDate 2024 0 15) None) monthly)
               (newDate 2024 0 15)).
  assert (Hr : Clip.returns
                 (Options.handleTypeChange
                    (ruleOf daily 5 (newDate 2024 0 15) None) monthly) 12
                 (map Some
                    (newDate 2024 0 15
                     :: occurrencesFrom 11
                          (Options.handleTypeChange
                             (ruleOf daily 5 (newDate 2024 0 15) None) monthly)
                          (newDate 2024 0 15)))) by clip_run 20%nat.
  split; [exact Hr |]. split; [reflexivity |].
  apply (proj2 (type_button_anchors (ruleOf daily 5 (newDate 2024 0 15) None)
                  12)); [vm_compute; discriminate | exact Hr].
Defined.

(** *** What the page shows *)




(** The page at the default count with a yearly rule of interval 10000:
    the last two of the 30 occurrences are Invalid Date. *)
Example page_yearly_10000 :
  option_map (skipn 27)
    (Component.occurrences 40
       (Component.handle
          (Component.handle (Component.initial jan1_2024)
             (Component.TypeClick yearly))
          (Component.IntervalInput (Some 10000))))
  = Some [Some (newDate 272024 0 1); None; None].
Proof. vm_compute. reflexivity. Qed.

(** *** The two generators *)

(** X24 -- The two generators agree.  For an interval of at least 1, a
    valid end date not on an earlier day than the start and not at an
    earlier time of day, and a count larger than the number of days from
    start to end: when [generateOccurrences] on the plain rule of the same
    type returns valid dates only, [calculateRecurringDates] returns the
    same list. *)
Theorem generators_agree freq interval start e count l :
  1 <= interval -> Day start <= Day e ->
  TimeWithinDay start <= TimeWithinDay e ->
  Day e - Day start + 1 < count ->
  Clip.TimeClip e = Some e ->
  Clip.returns (asRule freq interval start (Some e)) count (map Some l) ->
  calculates freq interval start (Some e) l.
Proof.
  intros Hi Hd Ht Hc Hve Hr. apply Clip_returns_sound in Hr.
  destruct (calculateRecurringDates_with_end freq interval start e Hi)
    as (l0 & Hl0 & _).
  pose proof (generators_agree_on_time_values freq interval start e count l0
                Hi Hd Ht Hc Hl0) as Hr0.
  assert (E : withValidEnd (asRule freq interval start (Some e))
              = asRule freq interval start (Some e))
    by (unfold withValidEnd, asRule; cbn [endDate]; now rewrite Hve).
  rewrite E in Hr. now rewrite (returns_unique _ _ _ _ Hr Hr0).
Qed.

Lemma generators_agree_witness :
  calculates App.monthly 1 jan1_2024 (Some (newDate 2024 5 1))
    [jan1_2024; newDate 2024 1 1; newDate 2024 2 1; newDate 2024 3 1;
     newDate 2024 4 1; newDate 2024 5 1].
Proof.
  apply (generators_agree App.monthly 1 jan1_2024 (newDate 2024 5 1) 200
           [jan1_2024; newDate 2024 1 1; newDate 2024 2 1; newDate 2024 3 1;
            newDate 2024 4 1; newDate 2024 5 1]).
  - lia.
  - vm_compute. discriminate.
  - vm_compute. discriminate.
  - vm_compute. reflexivity.
  - reflexivity.
  - clip_run 210%nat.
Defined.

(** *** The cells of [MiniCalendar] *)

(** X26 -- What a cell of the rendered calendar carries.  The cell in row
    [r], column [col] holds the local midnight of the day [7 * r + col] days
    after the grid's Sunday.  Its [isSelected] is true exactly when some
    occurrence falls on that calendar day, whatever its time of day, and
    its [isCurrentMonth] exactly when that day lies in the calendar month of
    [currentMonth].  It is drawn blue exactly when an occurrence falls on
    it, dark grey when none does and the day is in the month, light grey
    when none does and the day is outside the month. *)
Theorem miniCalendar_marks occurrences currentMonth rows r col row c :
  renders occurrences currentMonth rows ->
  nth_error rows r = Some row -> nth_error row col = Some c ->
  MiniCalendar.date c
  = MakeDate (gridStart currentMonth + Z.of_nat (7 * r + col)) 0
  /\ (MiniCalendar.isSelected c = true <->
      occursOn occurrences (gridStart currentMonth + Z.of_nat (7 * r + col)))
  /\ (MiniCalendar.isCurrentMonth c = true <->
      inMonthOf currentMonth (gridStart currentMonth + Z.of_nat (7 * r + col)))
  /\ (MiniCalendar.colour c = MiniCalendar.bgBlue500 <->
      occursOn occurrences (gridStart currentMonth + Z.of_nat (7 * r + col)))
  /\ (MiniCalendar.colour c = MiniCalendar.textGray800 <->
      ~ occursOn occurrences (gridStart currentMonth + Z.of_nat (7 * r + col))
      /\ inMonthOf currentMonth
           (gridStart currentMonth + Z.of_nat (7 * r + col)))
  /\ (MiniCalendar.colour c = MiniCalendar.textGray400 <->
      ~ occursOn occurrences (gridStart currentMonth + Z.of_nat (7 * r + col))
      /\ ~ inMonthOf currentMonth
             (gridStart currentMonth + Z.of_nat (7 * r + col))).
Proof.
  intros Hrows Hr Hc. apply renders_grid in Hrows. subst rows.
  destruct (grid_cell _ _ _ _ _ _ Hr Hc) as (_ & _ & ->).
  generalize (gridStart currentMonth + Z.of_nat (7 * r + col)). intros day.
  assert (Hs : MiniCalendar.isSelected
                 (MiniCalendar.cell occurrences currentMonth (MakeDate day 0))
               = true <-> occursOn occurrences day).
  { cbn [MiniCalendar.cell MiniCalendar.isSelected]. unfold occursOn.
    rewrite existsb_exists. split.
    - intros (occ & Hin & Hsame). rewrite isSameDay_midnight in Hsame.
      exists occ. split; [exact Hin | now apply Z.eqb_eq].
    - intros (occ & Hin & Hd). exists occ. split; [exact Hin |].
      rewrite isSameDay_midnight. now apply Z.eqb_eq. }
  assert (Hm : MiniCalendar.isCurrentMonth
                 (MiniCalendar.cell occurrences currentMonth (MakeDate day 0))
               = true <-> inMonthOf currentMonth day).
  { cbn [MiniCalendar.cell MiniCalendar.isCurrentMonth]. unfold inMonthOf.
    rewrite isSameMonth_iff, Day_newDate_midnight. apply monthIndex_iff. }
  split; [reflexivity |]. split; [exact Hs |]. split; [exact Hm |].
  unfold MiniCalendar.colour. revert Hs Hm.
  generalize (occursOn occurrences day), (inMonthOf currentMonth day).
  destruct (MiniCalendar.isSelected _), (MiniCalendar.isCurrentMonth _);
    intros P Q Hs Hm; intuition congruence.
Qed.

Lemma miniCalendar_marks_witness :
  exists row c,
    nth_error (grid [jan1_2024_noon] (newDate 2024 0 3)) 0 = Some row
    /\ nth_error row 1 = Some c
    /\ MiniCalendar.date c = jan1_2024
    /\ MiniCalendar.colour c = MiniCalendar.bgBlue500.
Proof.
  destruct (grid_nth [jan1_2024_noon] (newDate 2024 0 3) 0 1
              ltac:(lia) ltac:(lia)) as (row & Hr & _ & Hc).
  exists row, (MiniCalendar.cell [jan1_2024_noon] (newDate 2024 0 3)
                 (MakeDate (gridStart (newDate 2024 0 3)
                            + Z.of_nat (7 * 0 + 1)) 0)).
  split; [exact Hr | split; [exact Hc |]].
  destruct (miniCalendar_marks [jan1_2024_noon] (newDate 2024 0 3) _ 0%nat
              1%nat row _ (grid_renders _ _) Hr Hc) as (Hd & _ & _ & Hb & _).
  split; [rewrite Hd; vm_compute; reflexivity |].
  apply Hb. exists jan1_2024_noon. split; [now left |].
  vm_compute. reflexivity.
Defined.

(* ================================================================= *)
(** * [getNthWeekdayInMonth] on [Date] objects *)
(* ================================================================= *)

Lemma Clip_addDays_valid t n :
  - Clip.maxTime <= t + n * msPerDay <= Clip.maxTime ->
  - Clip.maxTime <= t <= Clip.maxTime ->
  Clip.addDays (Some t) n = Some (t + n * msPerDay).
Proof.
  intros H Ht. rewrite <- addDays_eq in *. unfold Clip.addDays.
  destruct (Z.eqb_spec n 0) as [-> | Hn].
  - rewrite addDays_eq. f_equal. lia.
  - cbn [Clip.setDate].
    replace (setDate t (getDate t + n)) with (addDays t n)
      by (unfold addDays; apply Z.eqb_neq in Hn; now rewrite Hn).
    now apply TimeClip_in.
Qed.

Lemma Clip_scanWeekday_forward (k : nat) : forall fuel w (x : Z),
  (w - getDay x) mod 7 = Z.of_nat k -> 0 <= w < 7 -> (k < fuel)%nat ->
  - Clip.maxTime <= x -> x + Z.of_nat k * msPerDay <= Clip.maxTime ->
  Clip.scanWeekday fuel 1 w (Some x)
  = Some (Some (x + Z.of_nat k * msPerDay)).
Proof.
  induction k as [| k IH]; intros fuel w x Hk Hw Hf Hlo Hhi;
    (destruct fuel as [| fuel]; [lia |]);
    cbn [Clip.scanWeekday Clip.isWeekday];
    pose proof (getDay_range x) as Hx.
  - replace (getDay x =? w) with true
      by (symmetry; apply Z.eqb_eq; divmod).
    do 2 f_equal. lia.
  - replace (getDay x =? w) with false
      by (symmetry; apply Z.eqb_neq; divmod).
    rewrite Clip_addDays_valid by (unfold msPerDay in *; lia).
    rewrite (IH fuel w (x + 1 * msPerDay)); try (unfold msPerDay in *; lia).
    + do 2 f_equal. lia.
    + rewrite <- addDays_eq, getDay_addDays. divmod.
Qed.

Lemma Clip_scanWeekday_backward (k : nat) : forall fuel w (x : Z),
  (getDay x - w) mod 7 = Z.of_nat k -> 0 <= w < 7 -> (k < fuel)%nat ->
  x <= Clip.maxTime -> - Clip.maxTime <= x - Z.of_nat k * msPerDay ->
  Clip.scanWeekday fuel (-1) w (Some x)
  = Some (Some (x - Z.of_nat k * msPerDay)).
Proof.
  induction k as [| k IH]; intros fuel w x Hk Hw Hf Hhi Hlo;
    (destruct fuel as [| fuel]; [lia |]);
    cbn [Clip.scanWeekday Clip.isWeekday];
    pose proof (getDay_range x) as Hx.
  - replace (getDay x =? w) with true
      by (symmetry; apply Z.eqb_eq; divmod).
    do 2 f_equal. lia.
  - replace (getDay x =? w) with false
      by (symmetry; apply Z.eqb_neq; divmod).
    rewrite Clip_addDays_valid by (unfold msPerDay in *; lia).
    rewrite (IH fuel w (x + -1 * msPerDay)); try (unfold msPerDay in *; lia).
    + do 2 f_equal. lia.
    + rewrite <- addDays_eq, getDay_addDays. divmod.
Qed.

Lemma nthWeekday_eq t week w :
  nthWeekday t week w
  = match week with
    | first => firstDayOfMonth t + forwardSteps t w * msPerDay
    | second => firstDayOfMonth t + (forwardSteps t w + 7) * msPerDay
    | third => firstDayOfMonth t + (forwardSteps t w + 14) * msPerDay
    | fourth => firstDayOfMonth t + (forwardSteps t w + 21) * msPerDay
    | last => lastDayOfMonth t + - backwardSteps t w * msPerDay
    end.
Proof. unfold nthWeekday. destruct week; apply addDays_eq. Qed.

Lemma TimeClip_not_None t :
  Clip.TimeClip t <> None -> - Clip.maxTime <= t <= Clip.maxTime.
Proof.
  intros H. destruct (Clip.TimeClip t) as [u |] eqn:E; [| congruence].
  now apply TimeClip_Some in E.
Qed.

Lemma Clip_firstDayOfMonth_eq t :
  Clip.firstDayOfMonth (Some t) = Clip.TimeClip (firstDayOfMonth t).
Proof. reflexivity. Qed.

Lemma Clip_lastDayOfMonth_eq t :
  Clip.lastDayOfMonth (Some t) = Clip.TimeClip (lastDayOfMonth t).
Proof. reflexivity. Qed.

(** When the first and the last day of the month are valid dates, the
    scans stay inside the month and the result is the one on time
    values. *)
Lemma Clip_getNthWeekdayInMonth_complete fuel t week weekday :
  (7 <= fuel)%nat ->
  Clip.firstDayOfMonth (Some t) <> None ->
  Clip.lastDayOfMonth (Some t) <> None ->
  Clip.getNthWeekdayInMonth fuel (Some t) week weekday
  = Some (Some (nthWeekday t week weekday)).
Proof.
  intros Hf HF HL.
  rewrite Clip_firstDayOfMonth_eq in HF. rewrite Clip_lastDayOfMonth_eq in HL.
  apply TimeClip_not_None in HF. apply TimeClip_not_None in HL.
  pose proof (TimeClip_in _ HF) as EF.
  pose proof (TimeClip_in _ HL) as EL.
  rename HF into HFr. rename HL into HLr.
  pose proof (forwardSteps_range t weekday) as Hk.
  pose proof (backwardSteps_range t weekday) as Hj.
  pose proof (dayNumber_range weekday) as Hw.
  pose proof (monthLength_bounds (resolvedMonth t)) as Hlen.
  rewrite monthLength_eq in Hlen.
  assert (HFL : lastDayOfMonth t
                = firstDayOfMonth t
                  + (monthStart (resolvedMonth t + 1)
                     - monthStart (resolvedMonth t) - 1) * msPerDay).
  { rewrite firstDayOfMonth_midnight, lastDayOfMonth_midnight.
    unfold MakeDate. lia. }
  rewrite nthWeekday_eq.
  unfold Clip.getNthWeekdayInMonth.
  rewrite Clip_firstDayOfMonth_eq, Clip_lastDayOfMonth_eq, EF, EL.
  pose proof (Clip_scanWeekday_forward
                (Z.to_nat (forwardSteps t weekday)) fuel (dayNumber weekday)
                (firstDayOfMonth t)) as Hfw.
  rewrite Z2Nat.id in Hfw by lia. rewrite <- forwardSteps_eq in Hfw.
  specialize (Hfw eq_refl Hw ltac:(lia) ltac:(lia)).
  pose proof (Clip_scanWeekday_backward
                (Z.to_nat (backwardSteps t weekday)) fuel (dayNumber weekday)
                (lastDayOfMonth t)) as Hbw.
  rewrite Z2Nat.id in Hbw by lia. rewrite <- backwardSteps_eq in Hbw.
  specialize (Hbw eq_refl Hw ltac:(lia) ltac:(lia)).
  clear EF EL.
  remember (firstDayOfMonth t) as F eqn:EF.
  remember (lastDayOfMonth t) as L eqn:EL.
  remember (forwardSteps t weekday) as k eqn:Ek.
  remember (backwardSteps t weekday) as j eqn:Ej.
  remember (monthStart (resolvedMonth t + 1) - monthStart (resolvedMonth t))
    as len eqn:Elen.
  clear EF EL Ek Ej Elen.
  rewrite Hfw by (unfold msPerDay in *; lia).
  destruct week.
  - reflexivity.
  - rewrite Clip_addDays_valid by (unfold msPerDay in *; lia).
    do 2 f_equal. lia.
  - rewrite Clip_addDays_valid by (unfold msPerDay in *; lia).
    do 2 f_equal. lia.
  - rewrite Clip_addDays_valid by (unfold msPerDay in *; lia).
    do 2 f_equal. lia.
  - rewrite Hbw by (unfold msPerDay in *; lia). do 2 f_equal. lia.
Qed.

Lemma nthWeekday_fields t week w :
  getDay (nthWeekday t week w) = dayNumber w
  /\ getFullYear (nthWeekday t week w) = MakeFullYear (getFullYear t)
  /\ getMonth (nthWeekday t week w) = getMonth t
  /\ TimeWithinDay (nthWeekday t week w) = 0.
Proof.
  split; [apply getDay_nthWeekday |].
  pose proof (monthIndex_unique _ _ (Day_nthWeekday t week w)) as Hi.
  pose proof (getMonth_range t) as Hm.
  assert (Hy : getFullYear (nthWeekday t week w) = MakeFullYear (getFullYear t)
               /\ getMonth (nthWeekday t week w) = getMonth t).
  { unfold getFullYear at 1, getMonth at 1.
    rewrite YearFromDay_index, MonthFromDay_index, Hi, resolvedMonth_eq.
    revert Hm. generalize (MakeFullYear (getFullYear t)), (getMonth t).
    intros Y m Hm. split; divmod. }
  split; [apply Hy |]. split; [apply Hy |].
  rewrite nthWeekday_midnight. apply TimeWithinDay_midnight.
Qed.

Lemma Clip_resolves_run fuel date week weekday r :
  Clip.getNthWeekdayInMonth fuel date week weekday = Some r ->
  Clip.resolves date week weekday r.
Proof.
  intros H. exists fuel. intros fuel' Hf.
  induction Hf as [| m Hm IH]; [exact H |].
  now apply Clip_getNthWeekdayInMonth_mono.
Qed.

(** X11 -- The five ordinals for one month and weekday, when the first
    and the last day of the month are valid dates.  All five calls return
    a local midnight on the given weekday in the month of the date (its
    year read as 1900 + year when it is in 0..99).  The first falls on day
    1..7 of the month, the second, third and fourth are the dates 7, 14
    and 21 days after the first, the last is either the fourth or the date
    7 days after the fourth, and a week after the last the following month
    has begun. *)
Theorem nth_weekday_ordinals t weekday :
  Clip.firstDayOfMonth (Some t) <> None ->
  Clip.lastDayOfMonth (Some t) <> None ->
  exists r1 r2 r3 r4 rl,
    Clip.resolves (Some t) first weekday (Some r1)
    /\ Clip.resolves (Some t) second weekday (Some r2)
    /\ Clip.resolves (Some t) third weekday (Some r3)
    /\ Clip.resolves (Some t) fourth weekday (Some r4)
    /\ Clip.resolves (Some t) last weekday (Some rl)
    /\ Forall (fun r => getDay r = dayNumber weekday
                        /\ getFullYear r = MakeFullYear (getFullYear t)
                        /\ getMonth r = getMonth t
                        /\ TimeWithinDay r = 0) [r1; r2; r3; r4; rl]
    /\ 1 <= getDate r1 <= 7
    /\ r2 = daysAfter r1 7 /\ r3 = daysAfter r1 14 /\ r4 = daysAfter r1 21
    /\ (rl = r4 \/ rl = daysAfter r4 7)
    /\ monthIndex (Day (daysAfter rl 7)) = monthIndex (Day rl) + 1.
Proof.
  intros HF HL.
  exists (nthWeekday t first weekday), (nthWeekday t second weekday),
    (nthWeekday t third weekday), (nthWeekday t fourth weekday),
    (nthWeekday t last weekday).
  do 5 (split; [apply (Clip_resolves_run 7);
                now apply Clip_getNthWeekdayInMonth_complete |]).
  split; [repeat constructor; apply nthWeekday_fields |].
  pose proof (forwardSteps_range t weekday) as Hk.
  pose proof (backwardSteps_range t weekday) as Hj.
  pose proof (monthLength_bounds (resolvedMonth t)) as HL0.
  pose proof (monthLength_bounds (resolvedMonth t + 1)) as HL1.
  rewrite monthLength_eq in HL0, HL1.
  pose proof (Day_firstDayOfMonth t) as HdF.
  pose proof (Day_lastDayOfMonth t) as HdL.
  assert (D1 : Day (nthWeekday t first weekday)
               = monthStart (resolvedMonth t) + forwardSteps t weekday)
    by (unfold nthWeekday; rewrite Day_addDays; lia).
  assert (D4 : Day (nthWeekday t fourth weekday)
               = monthStart (resolvedMonth t) + forwardSteps t weekday + 21)
    by (unfold nthWeekday; rewrite Day_addDays; lia).
  assert (DL : Day (nthWeekday t last weekday)
               = monthStart (resolvedMonth t + 1) - 1
                 - backwardSteps t weekday)
    by (unfold nthWeekday; rewrite Day_addDays; lia).
  split; [rewrite getDate_nthWeekday, D1; lia |].
  split; [rewrite !nthWeekday_eq, daysAfter_eq; lia |].
  split; [rewrite !nthWeekday_eq, daysAfter_eq; lia |].
  split; [rewrite !nthWeekday_eq, daysAfter_eq; lia |].
  split.
  - pose proof (getDay_nthWeekday t last weekday) as WL.
    pose proof (getDay_nthWeekday t fourth weekday) as W4.
    rewrite getDay_eq in WL, W4. rewrite <- W4 in WL.
    rewrite daysAfter_eq.
    rewrite (nthWeekday_midnight t last), (nthWeekday_midnight t fourth).
    destruct (same_weekday_close _ _ WL) as [E | E]; [lia | |];
      rewrite E; [now left | right].
    unfold MakeDate. lia.
  - rewrite daysAfter_eq, Day_add_days.
    rewrite (monthIndex_unique (resolvedMonth t) (Day (nthWeekday t last weekday)))
      by (rewrite DL; lia).
    apply monthIndex_unique. rewrite DL.
    lia.
Qed.

Lemma nth_weekday_ordinals_witness :
  exists r4 rl,
    Clip.resolves (Some (newDate 2024 9 15)) fourth Thursday (Some r4)
    /\ Clip.resolves (Some (newDate 2024 9 15)) last Thursday (Some rl)
    /\ rl = daysAfter r4 7
    /\ (getFullYear rl, getMonth rl, getDate r4, getDate rl)
       = (2024, 9, 24, 31).
Proof.
  destruct (nth_weekday_ordinals (newDate 2024 9 15) Thursday)
    as (r1 & r2 & r3 & r4 & rl & _ & _ & _ & H4 & Hl & _);
    [vm_compute; discriminate | vm_compute; discriminate |].
  exists r4, rl. split; [exact H4 |]. split; [exact Hl |].
  destruct H4 as [n4 H4]. destruct Hl as [nl Hl].
  specialize (H4 (Nat.max 7 (Nat.max n4 nl)) ltac:(lia)).
  specialize (Hl (Nat.max 7 (Nat.max n4 nl)) ltac:(lia)).
  rewrite Clip_getNthWeekdayInMonth_complete in H4, Hl
    by (lia || (vm_compute; discriminate)).
  apply Some_inj, Some_inj in H4. apply Some_inj, Some_inj in Hl.
  subst r4 rl. vm_compute. split; reflexivity.
Defined.

(* ================================================================= *)
(** * [getNthWeekdayInMonth] outside the month of its date *)
(* ================================================================= *)

Lemma monthStart_1900 : monthStart 22800 = -25567.
Proof. vm_compute. reflexivity. Qed.

Lemma monthStart_2000 : monthStart 24000 = 10957.
Proof. vm_compute. reflexivity. Qed.

Lemma MakeFullYear_two_digit y : 0 <= y <= 99 -> MakeFullYear y = 1900 + y.
Proof.
  intros H. unfold MakeFullYear.
  destruct (Z.leb_spec 0 y), (Z.leb_spec y 99); cbn [andb]; lia.
Qed.

(** C8 -- For a date in the years 0 to 99, [getNthWeekdayInMonth] returns
    a date in the year 1900 + year, not in the year of its date: the
    [Date] constructor reads a two-digit year as 1900 + year.  For Invalid
    Date it never returns: [getDay] is NaN and the scan does not end. *)
Theorem getNthWeekdayInMonth_two_digit_year :
  (forall t week weekday,
     0 <= getFullYear t <= 99 ->
     exists r,
       Clip.resolves (Some t) week weekday (Some r)
       /\ getDay r = dayNumber weekday
       /\ getFullYear r = 1900 + getFullYear t
       /\ getMonth r = getMonth t)
  /\ (forall week weekday r, ~ Clip.resolves None week weekday r).
Proof.
  split.
  - intros t week weekday Hy.
    pose proof (getMonth_range t) as Hm.
    pose proof (MakeFullYear_two_digit _ Hy) as HY.
    pose proof (monthStart_mono 22800 (resolvedMonth t)) as H1.
    pose proof (monthStart_mono (resolvedMonth t) (resolvedMonth t + 1)) as H2.
    pose proof (monthStart_mono (resolvedMonth t + 1) 24000) as H3.
    rewrite monthStart_1900 in H1. rewrite monthStart_2000 in H3.
    rewrite resolvedMonth_eq, HY in H1, H2, H3.
    exists (nthWeekday t week weekday).
    destruct (nthWeekday_fields t week weekday) as (Hd & Hfy & Hmo & _).
    rewrite HY in Hfy. split; [| auto].
    apply (Clip_resolves_run 7).
    apply Clip_getNthWeekdayInMonth_complete; [lia | |].
    + rewrite Clip_firstDayOfMonth_eq, TimeClip_in; [discriminate |].
      rewrite firstDayOfMonth_midnight, resolvedMonth_eq, HY.
      unfold MakeDate, msPerDay, Clip.maxTime. lia.
    + rewrite Clip_lastDayOfMonth_eq, TimeClip_in; [discriminate |].
      rewrite lastDayOfMonth_midnight, resolvedMonth_eq, HY.
      unfold MakeDate, msPerDay, Clip.maxTime. lia.
  - intros week weekday r [n H]. specialize (H n (Nat.le_refl n)).
    now rewrite Clip_getNthWeekdayInMonth_invalid in H.
Qed.

Lemma getNthWeekdayInMonth_two_digit_year_witness :
  exists r,
    Clip.resolves (Some (setFullYear 0 50 2 15)) second Tuesday (Some r)
    /\ getFullYear (setFullYear 0 50 2 15) = 50
    /\ getFullYear r = 1950.
Proof.
  destruct (proj1 getNthWeekdayInMonth_two_digit_year (setFullYear 0 50 2 15)
              second Tuesday) as (r & Hr & _ & Hy & _);
    [vm_compute; split; discriminate |].
  exists r. split; [exact Hr |]. split; [vm_compute; reflexivity |].
  rewrite Hy. vm_compute. reflexivity.
Defined.

(** 15 March of the year 50: the second Tuesday resolved is 14 March
    1950. *)
Example second_tuesday_march_50 :
  let date := setFullYear 0 50 2 15 in
  (getFullYear date, getMonth date, getDate date) = (50, 2, 15)
  /\ Clip.getNthWeekdayInMonth 7 (Clip.TimeClip date) second Tuesday
     = Some (Some (newDate 1950 2 14)).
Proof. vm_compute. split; reflexivity. Qed.

(** A monthly rule on the first Monday at interval 4000000 from
    1 January 2024: [addMonths] gives Invalid Date and the call does not
    return, whatever the fuel. *)
Example nth_weekday_past_the_range fuel :
  Clip.generateOccurrences fuel
    (withNthWeekday (ruleOf monthly 4000000 jan1_2024 None) first Monday) 30
  = None.
Proof.
  destruct fuel as [| fuel]; [reflexivity |].
  unfold Clip.generateOccurrences.
  replace (Clip.TimeClip
             (startDate
                (withNthWeekday (ruleOf monthly 4000000 jan1_2024 None)
                   first Monday)))
    with (Some jan1_2024) by (vm_compute; reflexivity).
  cbn [Clip.generateLoop length].
  replace (Clip.advance fuel
             (withNthWeekday (ruleOf monthly 4000000 jan1_2024 None)
                first Monday) (Some jan1_2024))
    with (@None Clip.DateObject); [reflexivity |].
  unfold Clip.advance.
  cbn [type monthDay monthWeek monthWeekDay interval withNthWeekday ruleOf].
  replace (Clip.addMonths (Some jan1_2024) 4000000)
    with (@None Z) by (vm_compute; reflexivity).
  now rewrite Clip_getNthWeekdayInMonth_invalid.
Qed.
